(** * school-management-system: the request handlers of [server.js]

    A shallow embedding of the Express handlers of [src/server.js] over an
    explicit model of the three MySQL tables they read and write ([users],
    [students], [classes]).  Every handler is a function from the database
    state (and the request) to the new database state and the HTTP response.

    Modelling conventions:
    - a JSON body field is [option string] ([None]: absent or null); JS
      truthiness of a field is [truthy] (the empty string is falsy); the
      password of a login, which reaches [bcrypt.compare] and [===] as it
      came, is any JSON value ([JS.value]);
    - a table is the list of its rows in storage order; [users] is always
      reachable, while [students] and [classes] may be unreachable (the
      handlers wrap their statements in [try]/[catch] with the comment
      "table may not exist"), in which case a statement on them rejects
      with the engine's message;
    - AUTO_INCREMENT is a counter kept next to the table;
    - [bcryptjs] and [jsonwebtoken] are interfaces (type classes). *)

From Stdlib Require Import List String Ascii Bool Arith ZArith Lia PeanoNat.
From Stdlib Require Import DecimalString DecimalNat Permutation Sorted.
Import ListNotations.
Open Scope list_scope.
Open Scope string_scope.

(* ================================================================== *)
(** ** JavaScript and SQL value helpers *)
(* ================================================================== *)

Module JS.

(** A field of [req.body]: absent (or null), or a string. *)
Definition field := option string.

(** [!!x] for a body field: [undefined], [null] and [''] are falsy. *)
Definition truthy (x : field) : bool :=
  match x with
  | Some s => negb (s =? "")
  | None => false
  end.

(** The string a field is bound to when it is passed on as a parameter. *)
Definition str (x : field) : string :=
  match x with Some s => s | None => "" end.

(** [x || null] *)
Definition or_null (x : field) : field :=
  if truthy x then x else None.

(** [x || d] *)
Definition or_else (x : field) (d : string) : string :=
  if truthy x then str x else d.

(** Any JSON value a body field can hold.  Of a value that is not a
    string the handlers observe only its truthiness and that it is not a
    string: numbers are kept by their integer value, objects and arrays
    as one case, [undefined] and [null] as one case. *)
Inductive value : Type :=
| Undefined
| Str (s : string)
| Num (z : Z)
| Bool (b : bool)
| Obj.

(** [!!v] *)
Definition truthy_value (v : value) : bool :=
  match v with
  | Undefined => false
  | Str s => negb (s =? "")
  | Num z => negb (z =? 0)%Z
  | Bool b => b
  | Obj => true
  end.

(** A field that is a string or absent, as a value. *)
Definition of_field (x : field) : value :=
  match x with Some s => Str s | None => Undefined end.

(** [v === s] for a string [s]: no conversion, a non-string is unequal. *)
Definition strict_eq (v : value) (s : string) : bool :=
  match v with Str p => p =? s | _ => false end.

(** [isActive !== false] for a field holding a JSON boolean. *)
Definition not_false (x : option bool) : bool :=
  match x with Some false => false | _ => true end.

(** [String(n)] for a non-negative integer. *)
Definition String_ (n : nat) : string :=
  NilEmpty.string_of_uint (Nat.to_uint n).

(** The first [k] characters of [cur ++ pad ++ pad ++ ...]. *)
Fixpoint cycle (k : nat) (cur pad : string) : string :=
  match k with
  | 0 => ""
  | S k' =>
      match cur with
      | String c r => String c (cycle k' r pad)
      | EmptyString =>
          match pad with
          | String c r => String c (cycle k' r pad)
          | EmptyString => ""
          end
      end
  end.

(** [s.padStart(n, pad)]: [s] itself when it already has [n] characters. *)
Definition padStart (n : nat) (pad s : string) : string :=
  if (n <=? String.length s)%nat then s
  else cycle (n - String.length s) pad pad ++ s.

(** [s.startsWith(p)] *)
Fixpoint startsWith (p s : string) : bool :=
  match p with
  | EmptyString => true
  | String a p' =>
      match s with
      | String b s' => Ascii.eqb a b && startsWith p' s'
      | EmptyString => false
      end
  end.

(** [s.split(sep)] for a one-character separator. *)
Fixpoint split (sep : ascii) (s : string) : list string :=
  match s with
  | EmptyString => [""]
  | String c r =>
      if Ascii.eqb c sep then "" :: split sep r
      else match split sep r with
           | h :: t => String c h :: t
           | [] => [String c ""]
           end
  end.

(** [a[i]], [undefined] out of range. *)
Definition index (a : list string) (i : nat) : field := nth_error a i.

End JS.

Module SQL.

(** [LEFT(s, n)] *)
Fixpoint left (n : nat) (s : string) : string :=
  match n, s with
  | S n', String c r => String c (left n' r)
  | _, _ => ""
  end.

(** MySQL [LPAD(s, n, pad)]: [s] padded on the left to [n] characters;
    the reference manual adds: "If str is longer than len, the return
    value is shortened to len characters." *)
Definition LPAD (s : string) (n : nat) (pad : string) : string :=
  if (n <=? String.length s)%nat then left n s
  else JS.cycle (n - String.length s) pad pad ++ s.

(** [CONCAT(a, b)] *)
Definition CONCAT (a b : string) : string := a ++ b.

(** [COALESCE(a, b)] *)
Definition COALESCE (a : option string) (b : string) : string :=
  match a with Some x => x | None => b end.

(** The decimal text of an integer column used as a string. *)
Definition cast_char (n : nat) : string := JS.String_ n.

End SQL.

(** The student code [createStudent] computes from [insertId]:
    [`STU${String(userId).padStart(3, '0')}`]. *)
Definition studentId_of (userId : nat) : string :=
  "STU" ++ JS.padStart 3 "0" (JS.String_ userId).

(** The fallback the two read queries compute:
    [CONCAT('STU', LPAD(u.id, 3, '0'))]. *)
Definition fallback_student_id (id : nat) : string :=
  SQL.CONCAT "STU" (SQL.LPAD (SQL.cast_char id) 3 "0").


(* ================================================================== *)
(** ** The tables *)
(* ================================================================== *)

(** Modelled from the spec: the CREATE TABLE declarations are not part of
    the repository.  The columns are the ones the statements of
    [server.js] name, typed as in the data model of the spec (section 3):
    identifiers and timestamps are naturals, nullable text columns are
    [option string], [is_active] is a boolean.  Text columns compare by
    exact equality ("exact email match", "case-sensitive as stored"). *)
Module users.
Record row := mk {
  id : nat;
  email : string;
  password : string;
  role : string;
  first_name : string;
  last_name : string;
  phone : option string;
  is_active : bool;
  created_at : nat
}.

(** [SET is_active = v] *)
Definition set_is_active (v : bool) (u : row) : row :=
  mk (id u) (email u) (password u) (role u) (first_name u) (last_name u)
     (phone u) v (created_at u).

(** [SET first_name = ?, last_name = ?, email = ?, phone = ?, is_active = ?] *)
Definition set_account (first last mail : string) (tel : option string)
    (active : bool) (u : row) : row :=
  mk (id u) mail (password u) (role u) first last tel active (created_at u).

(** [WHERE id = ? AND role = 'student'] *)
Definition is_student (i : nat) (u : row) : bool :=
  (id u =? i)%nat && (role u =? "student").
End users.

Module students.
Record row := mk {
  id : nat;
  user_id : nat;
  student_id : option string;
  roll_number : option string;
  class_id : option nat;
  parent_name : option string;
  parent_phone : option string;
  address : option string;
  admission_date : option nat;
  date_of_birth : option nat;
  is_active : bool
}.

(** [SET is_active = v] *)
Definition set_is_active (v : bool) (s : row) : row :=
  mk (id s) (user_id s) (student_id s) (roll_number s) (class_id s)
     (parent_name s) (parent_phone s) (address s) (admission_date s)
     (date_of_birth s) v.

(** [SET roll_number = ?, class_id = ?, parent_name = ?] *)
Definition set_profile (roll : option string) (class : option nat)
    (parent : option string) (s : row) : row :=
  mk (id s) (user_id s) (student_id s) roll class parent (parent_phone s)
     (address s) (admission_date s) (date_of_birth s) (is_active s).

(** [WHERE user_id = ?] *)
Definition of_user (i : nat) (s : row) : bool := (user_id s =? i)%nat.
End students.

Module classes.
Record row := mk {
  id : nat;
  grade : string;
  section : string;
  name : string;
  teacher_id : option nat;
  is_active : bool
}.
End classes.

(** The outcome of a statement that may reject: [pool.execute] resolves
    with a value or throws an error carrying a message. *)
Inductive Exc (A : Type) : Type :=
| Ok (a : A)
| Err (message : string).
Arguments Ok {A} a.
Arguments Err {A} message.

Definition bind {A B : Type} (m : Exc A) (k : A -> Exc B) : Exc B :=
  match m with
  | Ok a => k a
  | Err e => Err e
  end.

Notation "x <- m ;; k" := (bind m (fun x => k))
  (at level 61, m at next level, right associativity).

(** The database: [users] with its AUTO_INCREMENT counter, and the two
    secondary tables, each either reachable (its rows) or rejecting every
    statement with a message. *)
Record Db := mkDb {
  users_tbl : list users.row;
  users_auto_increment : nat;
  students_tbl : Exc (list students.row);
  students_auto_increment : nat;
  classes_tbl : Exc (list classes.row)
}.

(** [SELECT ... FROM users WHERE p] *)
Definition select_users (p : users.row -> bool) (db : Db) : list users.row :=
  filter p (users_tbl db).

(** [INSERT INTO users ...]: the row gets the counter's value as its id;
    the result carries [insertId]. *)
Definition insert_user (mkrow : nat -> users.row) (db : Db) : nat * Db :=
  let insertId := users_auto_increment db in
  (insertId,
   mkDb (users_tbl db ++ [mkrow insertId])%list (S insertId)
        (students_tbl db) (students_auto_increment db) (classes_tbl db)).

(** [UPDATE users SET ... WHERE p] *)
Definition update_users (p : users.row -> bool) (set : users.row -> users.row)
    (db : Db) : Db :=
  mkDb (map (fun u => if p u then set u else u) (users_tbl db))
       (users_auto_increment db)
       (students_tbl db) (students_auto_increment db) (classes_tbl db).

(** [INSERT INTO students ...] *)
Definition insert_student (mkrow : nat -> students.row) (db : Db) : Exc Db :=
  rows <- students_tbl db ;;
  let insertId := students_auto_increment db in
  Ok (mkDb (users_tbl db) (users_auto_increment db)
           (Ok (rows ++ [mkrow insertId])%list) (S insertId) (classes_tbl db)).

(** [UPDATE students SET ... WHERE p] *)
Definition update_students (p : students.row -> bool)
    (set : students.row -> students.row) (db : Db) : Exc Db :=
  rows <- students_tbl db ;;
  Ok (mkDb (users_tbl db) (users_auto_increment db)
           (Ok (map (fun s => if p s then set s else s) rows))
           (students_auto_increment db) (classes_tbl db)).

(** [SELECT id FROM classes WHERE grade = ? AND section = ?
     AND is_active = TRUE LIMIT 1] *)
Definition select_class (grade section : string) (db : Db)
    : Exc (list classes.row) :=
  rows <- classes_tbl db ;;
  Ok (firstn 1 (filter (fun c => (classes.grade c =? grade)
                                 && (classes.section c =? section)
                                 && classes.is_active c) rows)).

(** [A LEFT JOIN B ON on]: every row of [A] with each matching row of [B],
    or with NULL when none matches. *)
Definition left_join {A B : Type} (on : A -> B -> bool)
    (l : list A) (r : list B) : list (A * option B) :=
  flat_map (fun a =>
              match filter (on a) r with
              | [] => [(a, None)]
              | m => map (fun b => (a, Some b)) m
              end) l.

(** [ORDER BY key DESC], as an insertion sort (the engine leaves the
    order of rows with equal keys open). *)
Fixpoint insert_desc {A : Type} (key : A -> nat) (x : A) (l : list A) : list A :=
  match l with
  | [] => [x]
  | y :: t => if (key y <? key x)%nat then x :: l else y :: insert_desc key x t
  end.

Fixpoint order_by_desc {A : Type} (key : A -> nat) (l : list A) : list A :=
  match l with
  | [] => []
  | x :: t => insert_desc key x (order_by_desc key t)
  end.

(* ================================================================== *)
(** ** External interfaces *)
(* ================================================================== *)

(** The payload of a session token. *)
Module jwt.
Record payload := mk {
  userId : nat;
  email : string;
  role : string
}.
End jwt.

(** [bcryptjs]: [hash(password, rounds)] and [compare(password, hash)];
    [compare] resolves with a boolean or rejects with an error (it does
    so on a password that is not a string and on a digest it cannot
    parse). *)
Class Bcrypt := {
  bcrypt_hash : string -> nat -> string;
  bcrypt_compare : JS.value -> string -> Exc bool
}.

(** [jsonwebtoken]: [sign(payload, secret, { expiresIn })] and
    [verify(token, secret)], which fails with an error on a token that is
    malformed, wrongly signed or expired at the time of the call. *)
Class Jwt := {
  jwt_sign : jwt.payload -> string -> string -> string;
  jwt_verify : string -> string -> Exc jwt.payload
}.

(** [process.env] *)
Class Env := {
  JWT_SECRET : JS.field
}.

(** [process.env.JWT_SECRET || 'fallback-secret-key'] *)
Definition secret `{Env} : string := JS.or_else JWT_SECRET "fallback-secret-key".

(** [try { m } catch (err) { h(err) }] *)
Definition catch {A : Type} (m : Exc A) (h : string -> A) : A :=
  match m with
  | Ok a => a
  | Err e => h e
  end.

(* ================================================================== *)
(** ** Requests and responses *)
(* ================================================================== *)

Module LoginBody.
Record t := mk {
  email : JS.field;
  password : JS.value
}.
End LoginBody.

Module RegisterBody.
Record t := mk {
  email : JS.field;
  password : JS.field;
  firstName : JS.field;
  lastName : JS.field;
  role : JS.field;
  phone : JS.field
}.
End RegisterBody.

Module StudentBody.
Record t := mk {
  firstName : JS.field;
  lastName : JS.field;
  email : JS.field;
  phone : JS.field;
  grade : JS.field;
  section : JS.field;
  rollNo : JS.field;
  parentName : JS.field;
  isActive : option bool
}.
End StudentBody.

(** The [user] object of the login and register responses. *)
Module AuthUser.
Record t := mk {
  id : nat;
  email : string;
  role : string;
  first_name : string;
  last_name : string
}.
End AuthUser.

(** The [student] object of the createStudent response. *)
Module CreatedStudent.
Record t := mk {
  id : nat;
  studentId : string;
  firstName : string;
  lastName : string;
  email : string
}.
End CreatedStudent.

(** A row of the student queries (the later [student_id] column, the
    COALESCE, is the one the result object keeps). *)
Module StudentView.
Record t := mk {
  id : nat;
  first_name : string;
  last_name : string;
  email : string;
  phone : option string;
  roll_no : option string;
  parent_name : option string;
  parent_phone : option string;
  address : option string;
  admission_date : option nat;
  date_of_birth : option nat;
  is_active : bool;
  created_at : nat;
  grade : option string;
  section : option string;
  class_name : option string;
  student_id : string
}.
End StudentView.

Inductive Json : Type :=
| Message (success : bool) (message : string)
| Auth (success : bool) (message : string) (token : string) (user : AuthUser.t)
| Created (success : bool) (message : string) (studentId : nat)
          (student : CreatedStudent.t)
| TestStudent (success : bool) (message : string) (studentId : nat)
| StudentList (rows : list StudentView.t)
| Student (row : StudentView.t).

Record Response := mkResponse {
  status : nat;
  json : Json
}.

(** What a middleware does: answer the request, or call [next()] with
    [req.user] set. *)
Inductive Middleware : Type :=
| Respond (r : Response)
| Next (user : jwt.payload).

(* ================================================================== *)
(** ** The handlers *)
(* ================================================================== *)

(** The password check of the login handler (the [isPasswordValid]
    variable): bcrypt for a stored value that starts with ['$2'], plain
    comparison otherwise.  The bcrypt comparison may reject. *)
Definition isPasswordValid `{Bcrypt} (password : JS.value) (stored : string)
    : Exc bool :=
  if JS.startsWith "$2" stored then bcrypt_compare password stored
  else Ok (JS.strict_eq password stored).

(** [authHeader && authHeader.split(' ')[1]] *)
Definition token_of (authHeader : JS.field) : JS.field :=
  if JS.truthy authHeader
  then JS.index (JS.split " " (JS.str authHeader)) 1
  else authHeader.

Definition authenticateToken `{Jwt} `{Env} (authHeader : JS.field) : Middleware :=
  let token := token_of authHeader in
  if negb (JS.truthy token) then
    Respond (mkResponse 401 (Message false "Access token required"))
  else
    match jwt_verify (JS.str token) secret with
    | Err _ => Respond (mkResponse 403 (Message false "Invalid or expired token"))
    | Ok decoded => Next decoded
    end.

(** POST /api/auth/login.  The email of the body is a string or absent;
    the password is any JSON value.  An error thrown inside the handler's
    [try] (here: a rejected bcrypt comparison) is answered 500 by its
    [catch]. *)
Definition login `{Bcrypt} `{Jwt} `{Env} (b : LoginBody.t) (db : Db) : Response :=
  let email := LoginBody.email b in
  let password := LoginBody.password b in
  if negb (JS.truthy email) || negb (JS.truthy_value password) then
    mkResponse 400 (Message false "Email and password are required")
  else
    let users :=
      select_users (fun u => (users.email u =? JS.str email)
                             && users.is_active u) db in
    match users with
    | [] => mkResponse 401 (Message false "Invalid email or password")
    | user :: _ =>
        catch
          (isPasswordValid <- isPasswordValid password (users.password user) ;;
           Ok (if negb isPasswordValid then
                 mkResponse 401 (Message false "Invalid email or password")
               else
                 let token :=
                   jwt_sign (jwt.mk (users.id user) (users.email user)
                                    (users.role user))
                            secret "24h" in
                 mkResponse 200
                   (Auth true "Login successful" token
                      (AuthUser.mk (users.id user) (users.email user)
                                   (users.role user) (users.first_name user)
                                   (users.last_name user)))))
          (fun _ => mkResponse 500 (Message false "Internal server error"))
    end.

(** POST /api/auth/register; [now] is the clock reading the new row's
    [created_at] defaults to. *)
Definition register `{Bcrypt} `{Jwt} `{Env} (now : nat) (b : RegisterBody.t)
    (db : Db) : Db * Response :=
  let email := RegisterBody.email b in
  let password := RegisterBody.password b in
  let firstName := RegisterBody.firstName b in
  let lastName := RegisterBody.lastName b in
  let role := RegisterBody.role b in
  let phone := RegisterBody.phone b in
  if negb (JS.truthy email) || negb (JS.truthy password)
     || negb (JS.truthy firstName) || negb (JS.truthy lastName)
     || negb (JS.truthy role) then
    (db, mkResponse 400
           (Message false
              "Email, password, first name, last name, and role are required"))
  else
    let existingUsers :=
      select_users (fun u => users.email u =? JS.str email) db in
    if (0 <? List.length existingUsers)%nat then
      (db, mkResponse 409 (Message false "User with this email already exists"))
    else
      let hashedPassword := bcrypt_hash (JS.str password) 12 in
      let '(userId, db1) :=
        insert_user (fun i => users.mk i (JS.str email) hashedPassword
                                (JS.str role) (JS.str firstName)
                                (JS.str lastName) (JS.or_null phone) true now)
                    db in
      let token :=
        jwt_sign (jwt.mk userId (JS.str email) (JS.str role)) secret "24h" in
      (db1, mkResponse 201
              (Auth true "Registration successful!" token
                 (AuthUser.mk userId (JS.str email) (JS.str role)
                              (JS.str firstName) (JS.str lastName)))).

(** The rows of
    [users u LEFT JOIN students s ON u.id = s.user_id
             LEFT JOIN classes c ON s.class_id = c.id]. *)
Definition joined : Type := (users.row * option students.row) * option classes.row.

Definition students_join (db : Db) : Exc (list joined) :=
  ss <- students_tbl db ;;
  cs <- classes_tbl db ;;
  Ok (left_join
        (fun (us : users.row * option students.row) c =>
           match snd us with
           | Some s =>
               match students.class_id s with
               | Some k => (k =? classes.id c)%nat
               | None => false
               end
           | None => false
           end)
        (left_join (fun u s => (users.id u =? students.user_id s)%nat)
                   (users_tbl db) ss)
        cs).

(** The SELECT list of the two student queries. *)
Definition student_view (r : joined) : StudentView.t :=
  let '((u, s), c) := r in
  let col {A B : Type} (x : option A) (f : A -> option B) : option B :=
    match x with Some a => f a | None => None end in
  StudentView.mk
    (users.id u) (users.first_name u) (users.last_name u) (users.email u)
    (users.phone u)
    (col s students.roll_number) (col s students.parent_name)
    (col s students.parent_phone) (col s students.address)
    (col s students.admission_date) (col s students.date_of_birth)
    (users.is_active u) (users.created_at u)
    (col c (fun x => Some (classes.grade x)))
    (col c (fun x => Some (classes.section x)))
    (col c (fun x => Some (classes.name x)))
    (SQL.COALESCE (col s students.student_id) (fallback_student_id (users.id u))).

(** GET /api/students *)
Definition listActiveStudents (db : Db) : Response :=
  catch
    (rows <- students_join db ;;
     let result :=
       map student_view
         (order_by_desc (fun r : joined => users.created_at (fst (fst r)))
            (filter (fun r : joined =>
                       (users.role (fst (fst r)) =? "student")
                       && users.is_active (fst (fst r))) rows)) in
     Ok (mkResponse 200 (StudentList result)))
    (fun message =>
       mkResponse 500 (Message false ("Error fetching students: " ++ message))).

(** GET /api/students/:id *)
Definition getStudent (id : nat) (db : Db) : Response :=
  catch
    (rows <- students_join db ;;
     let result :=
       map student_view
         (filter (fun r : joined =>
                    (users.id (fst (fst r)) =? id)%nat
                    && (users.role (fst (fst r)) =? "student")) rows) in
     Ok (match result with
         | [] => mkResponse 404 (Message false "Student not found")
         | row :: _ => mkResponse 200 (Student row)
         end))
    (fun message =>
       mkResponse 500 (Message false ("Error fetching student: " ++ message))).

(** The class lookup of createStudent, with its own [try]/[catch]. *)
Definition find_class_id (grade section : JS.field) (db : Db) : Exc (option nat) :=
  if JS.truthy grade && JS.truthy section then
    classResult <- select_class (JS.str grade) (JS.str section) db ;;
    Ok (match classResult with
        | c :: _ => Some (classes.id c)
        | [] => None
        end)
  else Ok None.

(** POST /api/students; [now] is the clock reading ([created_at] default
    and CURDATE()). *)
Definition createStudent `{Bcrypt} (now : nat) (b : StudentBody.t) (db : Db)
    : Db * Response :=
  let firstName := StudentBody.firstName b in
  let lastName := StudentBody.lastName b in
  let email := StudentBody.email b in
  if negb (JS.truthy firstName) || negb (JS.truthy lastName)
     || negb (JS.truthy email) then
    (db, mkResponse 400
           (Message false "First name, last name, and email are required"))
  else
    let emailCheck := select_users (fun u => users.email u =? JS.str email) db in
    if (0 <? List.length emailCheck)%nat then
      (db, mkResponse 409 (Message false "User with this email already exists"))
    else
      let defaultPassword := "student123" in
      let hashedPassword := bcrypt_hash defaultPassword 12 in
      let '(userId, db1) :=
        insert_user (fun i => users.mk i (JS.str email) hashedPassword "student"
                                (JS.str firstName) (JS.str lastName)
                                (JS.or_null (StudentBody.phone b))
                                (JS.not_false (StudentBody.isActive b)) now)
                    db in
      let studentId := studentId_of userId in
      let classId :=
        catch (find_class_id (StudentBody.grade b) (StudentBody.section b) db1)
              (fun _ => None) in
      let db2 :=
        catch (insert_student
                 (fun i => students.mk i userId (Some studentId)
                             (JS.or_null (StudentBody.rollNo b)) classId
                             (JS.or_null (StudentBody.parentName b))
                             None None (Some now) None true)
                 db1)
              (fun _ => db1) in
      (db2, mkResponse 201
              (Created true "Student created successfully" userId
                 (CreatedStudent.mk userId studentId (JS.str firstName)
                                    (JS.str lastName) (JS.str email)))).

(** The second, best-effort step of updateStudent: everything inside its
    [try] block. *)
Definition update_profile (id : nat) (b : StudentBody.t) (db : Db) : Exc Db :=
  classId <- find_class_id (StudentBody.grade b) (StudentBody.section b) db ;;
  update_students
    (students.of_user id)
    (students.set_profile (JS.or_null (StudentBody.rollNo b)) classId
                          (JS.or_null (StudentBody.parentName b)))
    db.

(** PUT /api/students/:id *)
Definition updateStudent (id : nat) (b : StudentBody.t) (db : Db)
    : Db * Response :=
  let firstName := StudentBody.firstName b in
  let lastName := StudentBody.lastName b in
  let email := StudentBody.email b in
  if negb (JS.truthy firstName) || negb (JS.truthy lastName)
     || negb (JS.truthy email) then
    (db, mkResponse 400
           (Message false "First name, last name, and email are required"))
  else
    let studentCheck := select_users (users.is_student id) db in
    if (List.length studentCheck =? 0)%nat then
      (db, mkResponse 404 (Message false "Student not found"))
    else
      let emailCheck :=
        select_users (fun u => (users.email u =? JS.str email)
                               && negb (users.id u =? id)%nat) db in
      if (0 <? List.length emailCheck)%nat then
        (db, mkResponse 409
               (Message false "Email already in use by another user"))
      else
        let db1 :=
          update_users
            (users.is_student id)
            (users.set_account (JS.str firstName) (JS.str lastName)
                               (JS.str email)
                               (JS.or_null (StudentBody.phone b))
                               (JS.not_false (StudentBody.isActive b)))
            db in
        let db2 := catch (update_profile id b db1) (fun _ => db1) in
        (db2, mkResponse 200 (Message true "Student updated successfully")).

(** DELETE /api/students/:id *)
Definition deleteStudent (id : nat) (db : Db) : Db * Response :=
  let studentCheck := select_users (users.is_student id) db in
  if (List.length studentCheck =? 0)%nat then
    (db, mkResponse 404 (Message false "Student not found"))
  else
    let db1 :=
      update_users (users.is_student id) (users.set_is_active false) db in
    let db2 :=
      catch (update_students (students.of_user id)
                             (students.set_is_active false) db1)
            (fun _ => db1) in
    (db2, mkResponse 200 (Message true "Student deleted successfully")).

(** GET /api/debug/create-test-student *)
Definition createTestStudent `{Bcrypt} (now : nat) (db : Db) : Db * Response :=
  let existing :=
    select_users (fun u => users.email u =? "test.student@example.com") db in
  match existing with
  | e :: _ =>
      (db, mkResponse 200
             (TestStudent true "Test student already exists" (users.id e)))
  | [] =>
      let hashedPassword := bcrypt_hash "student123" 12 in
      let '(userId, db1) :=
        insert_user (fun i => users.mk i "test.student@example.com"
                                hashedPassword "student" "Test" "Student"
                                (Some "1234567890") true now)
                    db in
      (db1, mkResponse 200
              (TestStudent true "Test student created successfully" userId))
  end.

(** One request to the service. *)
Inductive Request : Type :=
| PostLogin (b : LoginBody.t)
| PostRegister (now : nat) (b : RegisterBody.t)
| GetStudents
| PostStudents (now : nat) (b : StudentBody.t)
| PutStudent (id : nat) (b : StudentBody.t)
| DeleteStudent (id : nat)
| GetStudent (id : nat)
| GetCreateTestStudent (now : nat).

(** The routing table: the database after the request and the response. *)
Definition handle `{Bcrypt} `{Jwt} `{Env} (rq : Request) (db : Db) : Db * Response :=
  match rq with
  | PostLogin b => (db, login b db)
  | PostRegister now b => register now b db
  | GetStudents => (db, listActiveStudents db)
  | PostStudents now b => createStudent now b db
  | PutStudent id b => updateStudent id b db
  | DeleteStudent id => deleteStudent id db
  | GetStudent id => (db, getStudent id db)
  | GetCreateTestStudent now => createTestStudent now db
  end.

(** The database after a sequence of requests. *)
Fixpoint serve `{Bcrypt} `{Jwt} `{Env} (rqs : list Request) (db : Db) : Db :=
  match rqs with
  | [] => db
  | rq :: rest => serve rest (fst (handle rq db))
  end.

(* ================================================================== *)
(** ** The class management route *)
(* ================================================================== *)

(** The order ORDER BY puts on the two sort columns of [classes]:
    [grade_lt a b] when the grade [a] sorts strictly before [b], and
    [section_lt] likewise (they depend on the columns' types and
    collations, which the repository does not declare). *)
Class Collation := {
  grade_lt : string -> string -> bool;
  section_lt : string -> string -> bool
}.

(** A row of the class query: [c.*], [student_count], [teacher_name]. *)
Module ClassView.
Record t := mk {
  columns : classes.row;
  student_count : nat;
  teacher_name : option string
}.
End ClassView.

(** The rows of
    [classes c LEFT JOIN students s ON c.id = s.class_id AND s.is_active
               LEFT JOIN users u ON c.teacher_id = u.id]. *)
Definition class_joined : Type :=
  (classes.row * option students.row) * option users.row.

(** The keys of [l], each once, in the order they first occur. *)
Fixpoint distinct (l : list nat) : list nat :=
  match l with
  | [] => []
  | k :: t => k :: filter (fun j => negb (j =? k)%nat) (distinct t)
  end.

(** [GROUP BY key]: the rows of each key, one group per key. *)
Definition group_by {A : Type} (key : A -> nat) (l : list A) : list (list A) :=
  map (fun k => filter (fun a => (key a =? k)%nat) l) (distinct (map key l)).

(** [COUNT(s.id)]: the rows of the group whose profile is not NULL. *)
Definition count_profiles (g : list class_joined) : nat :=
  List.length (filter (fun r : class_joined =>
                         match snd (fst r) with Some _ => true | None => false end)
                      g).

(** [CONCAT(u.first_name, ' ', u.last_name)], NULL when [u] is NULL. *)
Definition teacher_name_of (u : option users.row) : option string :=
  match u with
  | Some t => Some (SQL.CONCAT (users.first_name t)
                               (SQL.CONCAT " " (users.last_name t)))
  | None => None
  end.

(** The SELECT list over one group; the columns that are not aggregated
    are read off the group's first row. *)
Definition class_view (g : list class_joined) : list ClassView.t :=
  match g with
  | [] => []
  | r :: _ =>
      [ClassView.mk (fst (fst r)) (count_profiles g) (teacher_name_of (snd r))]
  end.

(** [ORDER BY c.grade ASC, c.section ASC] as a comparison of two rows. *)
Definition class_before `{Collation} (a b : ClassView.t) : bool :=
  let ca := ClassView.columns a in
  let cb := ClassView.columns b in
  grade_lt (classes.grade ca) (classes.grade cb)
  || (negb (grade_lt (classes.grade cb) (classes.grade ca))
      && section_lt (classes.section ca) (classes.section cb)).

(** [ORDER BY ... ASC] as a stable insertion sort. *)
Fixpoint insert_by {A : Type} (before : A -> A -> bool) (x : A) (l : list A)
    : list A :=
  match l with
  | [] => [x]
  | y :: t => if before y x then y :: insert_by before x t else x :: l
  end.

Fixpoint order_by {A : Type} (before : A -> A -> bool) (l : list A) : list A :=
  match l with
  | [] => []
  | x :: t => insert_by before x (order_by before t)
  end.

(** [ON c.id = s.class_id AND s.is_active = TRUE] *)
Definition on_class_profile (c : classes.row) (s : students.row) : bool :=
  match students.class_id s with
  | Some k => (classes.id c =? k)%nat
  | None => false
  end && students.is_active s.

(** [ON c.teacher_id = u.id] *)
Definition on_class_teacher (x : classes.row * option students.row)
    (u : users.row) : bool :=
  match classes.teacher_id (fst x) with
  | Some t => (t =? users.id u)%nat
  | None => false
  end.

(** The query of GET /api/classes/management. *)
Definition classes_query `{Collation} (db : Db) : Exc (list ClassView.t) :=
  cs <- classes_tbl db ;;
  ss <- students_tbl db ;;
  let joined :=
    left_join on_class_teacher (left_join on_class_profile cs ss)
              (users_tbl db) in
  let groups :=
    group_by (fun r : class_joined => classes.id (fst (fst r)))
             (filter (fun r : class_joined => classes.is_active (fst (fst r)))
                     joined) in
  Ok (order_by class_before (flat_map class_view groups)).

(** What the route answers: a response of the other routes' shape (401,
    403, 500), or the listing [{ success, count, classes }]. *)
Inductive ClassesResult : Type :=
| ClassesRejected (r : Response)
| ClassesListed (success : bool) (count : nat) (classes : list ClassView.t).

(** The handler of GET /api/classes/management. *)
Definition classesHandler `{Collation} (db : Db) : ClassesResult :=
  catch
    (classes <- classes_query db ;;
     Ok (ClassesListed true (List.length classes) classes))
    (fun _ =>
       ClassesRejected (mkResponse 500 (Message false "Failed to fetch classes"))).

(** GET /api/classes/management behind [authenticateToken]. *)
Definition classesManagement `{Jwt} `{Env} `{Collation}
    (authHeader : JS.field) (db : Db) : ClassesResult :=
  match authenticateToken authHeader with
  | Respond r => ClassesRejected r
  | Next _ => classesHandler db
  end.

(* ================================================================== *)
(** ** Sample implementations of the interfaces and sample data *)
(* ================================================================== *)

Module Sample.

(** A stand-in for bcryptjs: the digest is the password behind a ['$2b$']
    marker; comparing rejects a password that is not a string and a
    digest of another revision. *)
Definition bcrypt : Bcrypt :=
  {| bcrypt_hash := fun password _ => "$2b$" ++ password;
     bcrypt_compare := fun password digest =>
       match password with
       | JS.Str p =>
           if JS.startsWith "$2b$" digest then Ok (("$2b$" ++ p) =? digest)
           else Err "Invalid salt revision"
       | _ => Err "Illegal arguments"
       end |}.

(** A stand-in for jsonwebtoken: one token verifies, every other is
    rejected. *)
Definition jwt_ : Jwt :=
  {| jwt_sign := fun payload secret _ => secret ++ "." ++ jwt.email payload;
     jwt_verify := fun token _ =>
       if token =? "good.token"
       then Ok (jwt.mk 1 "admin@x.com" "admin")
       else Err "jwt malformed" |}.

Definition env : Env := {| JWT_SECRET := None |}.

Definition admin : users.row :=
  users.mk 1 "admin@x.com" "$2b$root" "admin" "Ada" "Min" None true 10.

(** A legacy row whose password is stored as plain text. *)
Definition legacy : users.row :=
  users.mk 2 "old@x.com" "Secret" "teacher" "Old" "Timer" None true 20.

Definition jo : users.row :=
  users.mk 3 "jo@x.com" "$2b$student123" "student" "Jo" "Doe" None true 30.

(** A student that was soft-deleted. *)
Definition gone : users.row :=
  users.mk 4 "gone@x.com" "$2b$student123" "student" "Gone" "Away" None false 40.

Definition jo_profile : students.row :=
  students.mk 1 3 (Some "STU003") (Some "R-17") (Some 1) (Some "Pat Doe")
              None None (Some 30) None true.

Definition class_5A : classes.row :=
  classes.mk 1 "5" "A" "Grade 5 A" (Some 2) true.

Definition db : Db :=
  mkDb [admin; legacy; jo; gone] 5 (Ok [jo_profile]) 2 (Ok [class_5A]).

(** The same accounts while the [students] table cannot be reached. *)
Definition db_no_profiles : Db :=
  mkDb [admin; legacy; jo; gone] 5 (Err "Table 'students' doesn't exist") 1
       (Ok [class_5A]).

(** A database whose next account id is 1000 and whose profile table is
    unreachable. *)
Definition db_1000 : Db :=
  mkDb [] 1000 (Err "Table 'students' doesn't exist") 1 (Ok []).

Definition new_student : StudentBody.t :=
  StudentBody.mk (Some "Kim") (Some "Lee") (Some "kim@x.com") None
                 (Some "5") (Some "A") None None None.

(** The database before the first request. *)
Definition fresh : Db := mkDb [] 1 (Ok []) 1 (Ok []).

Definition new_account : RegisterBody.t :=
  RegisterBody.mk (Some "a@x.com") (Some "pw") (Some "A") (Some "B")
                  (Some "student") None.

(** A stand-in for jsonwebtoken whose one token is the session of the
    administrator: signing yields it and verifying it yields the
    administrator's payload. *)
Definition jwt_admin : Jwt :=
  {| jwt_sign := fun _ _ _ => "good.token";
     jwt_verify := fun token _ =>
       if token =? "good.token"
       then Ok (jwt.mk 1 "admin@x.com" "admin")
       else Err "jwt malformed" |}.

(** Text columns ordered byte by byte. *)
Definition collation : Collation :=
  {| grade_lt := String.ltb; section_lt := String.ltb |}.

Definition class_6B : classes.row :=
  classes.mk 2 "6" "B" "Grade 6 B" None true.

(** A class that was closed. *)
Definition class_4C : classes.row :=
  classes.mk 3 "4" "C" "Grade 4 C" (Some 2) false.

(** The sample accounts with three classes, one of them closed. *)
Definition school : Db :=
  mkDb [admin; legacy; jo; gone] 5 (Ok [jo_profile]) 2
       (Ok [class_6B; class_5A; class_4C]).

(** A student whose stored value has the ['$2'] marker but is no digest
    the stand-in can parse, and who has no profile row. *)
Definition lou : users.row :=
  users.mk 5 "lou@x.com" "$2x$broken" "student" "Lou" "Ray" None true 45.

Definition kim : users.row :=
  users.mk 6 "kim@x.com" "$2b$student123" "student" "Kim" "Lee" None true 50.

Definition kim_profile : students.row :=
  students.mk 2 6 (Some "STU006") None (Some 1) None None None (Some 50) None
              true.

(** Three active students, stored oldest first. *)
Definition roster : Db :=
  mkDb [admin; legacy; jo; gone; lou; kim] 7 (Ok [jo_profile; kim_profile]) 3
       (Ok [class_5A]).

End Sample.

(* ================================================================== *)
(** ** Vocabulary of the statements *)
(* ================================================================== *)

(** Some account, active or not, has the email [e]. *)
Definition email_taken (e : string) (db : Db) : Prop :=
  exists u, In u (users_tbl db) /\ users.email u = e.

(** An account row with identifier [id] and role student exists. *)
Definition student_row (id : nat) (db : Db) : Prop :=
  exists u, In u (users_tbl db) /\ users.id u = id /\ users.role u = "student".

(** [users.id] is a primary key fed by the AUTO_INCREMENT counter (the
    handlers read the new identifier from [insertId] and address rows by
    [WHERE id = ?]). *)
Definition primary_key (db : Db) : Prop :=
  NoDup (map users.id (users_tbl db))
  /\ forall u, In u (users_tbl db) -> users.id u < users_auto_increment db.

(** No two accounts share an email, whatever their active flags. *)
Definition unique_emails (db : Db) : Prop :=
  NoDup (map users.email (users_tbl db)).

(** The row the login query puts first: the first active row with the
    email, in storage order. *)
Definition login_account (email : string) (db : Db) : option users.row :=
  find (fun u => (users.email u =? email) && users.is_active u) (users_tbl db).

(** The three required fields of a student body are present. *)
Definition student_body_valid (b : StudentBody.t) : bool :=
  JS.truthy (StudentBody.firstName b) && JS.truthy (StudentBody.lastName b)
  && JS.truthy (StudentBody.email b).

(** The five required fields of a register body are present. *)
Definition register_body_valid (b : RegisterBody.t) : bool :=
  JS.truthy (RegisterBody.email b) && JS.truthy (RegisterBody.password b)
  && JS.truthy (RegisterBody.firstName b) && JS.truthy (RegisterBody.lastName b)
  && JS.truthy (RegisterBody.role b).

(** [s] contains no space. *)
Fixpoint no_space (s : string) : bool :=
  match s with
  | EmptyString => true
  | String c r => negb (Ascii.eqb c " ") && no_space r
  end.

(** The 200 of a login for the account [user]: the token signed for its
    identifier, email and role, and its public fields. *)
Definition login_ok `{Jwt} `{Env} (user : users.row) : Response :=
  mkResponse 200
    (Auth true "Login successful"
       (jwt_sign (jwt.mk (users.id user) (users.email user) (users.role user))
                 secret "24h")
       (AuthUser.mk (users.id user) (users.email user) (users.role user)
                    (users.first_name user) (users.last_name user))).

(** The responses the statements name. *)
Definition invalid_credentials : Response :=
  mkResponse 401 (Message false "Invalid email or password").

Definition email_exists : Response :=
  mkResponse 409 (Message false "User with this email already exists").

Definition email_in_use : Response :=
  mkResponse 409 (Message false "Email already in use by another user").

(** The answer of a handler's outermost [catch] in the auth routes. *)
Definition internal_error : Response :=
  mkResponse 500 (Message false "Internal server error").

Definition student_not_found : Response :=
  mkResponse 404 (Message false "Student not found").

Definition student_fields_required : Response :=
  mkResponse 400 (Message false "First name, last name, and email are required").

(** The class [find_class_id] resolves a (grade, section) pair to among the
    rows [cs]: the first active match, when both fields are given. *)
Definition resolved_class (grade section : JS.field) (cs : list classes.row)
    : option nat :=
  if JS.truthy grade && JS.truthy section then
    match find (fun c => (classes.grade c =? JS.str grade)
                         && (classes.section c =? JS.str section)
                         && classes.is_active c) cs with
    | Some c => Some (classes.id c)
    | None => None
    end
  else None.

(** The bcrypt digests are well formed and verify: what the handlers
    rely on when they store [bcrypt.hash(password, 12)]. *)
Definition bcrypt_lawful `{Bcrypt} : Prop :=
  forall password,
    JS.startsWith "$2" (bcrypt_hash password 12) = true
    /\ bcrypt_compare (JS.Str password) (bcrypt_hash password 12) = Ok true.

(** The active profiles that reference the class [c]:
    the derived attribute student_count. *)
Definition active_profiles_of (c : classes.row) (ss : list students.row)
    : list students.row :=
  filter (fun s => students.is_active s
                   && match students.class_id s with
                      | Some k => (k =? classes.id c)%nat
                      | None => false
                      end) ss.

(** The rows are in the order of the ORDER BY: no row sorts strictly
    before one that precedes it. *)
Definition newest_first (rows : list StudentView.t) : Prop :=
  StronglySorted (fun a b => StudentView.created_at b <= StudentView.created_at a)
                 rows.

(** The account a class names as its teacher, if there is one. *)
Definition class_teacher (c : classes.row) (us : list users.row)
    : option users.row :=
  match classes.teacher_id c with
  | Some t => find (fun u => (users.id u =? t)%nat) us
  | None => None
  end.

(** The rows the first join yields for the class [c]. *)
Definition class_rows (ss : list students.row) (c : classes.row)
    : list (classes.row * option students.row) :=
  match filter (on_class_profile c) ss with
  | [] => [(c, None)]
  | m => map (fun s => (c, Some s)) m
  end.

(** A row of the first join with the teacher the second join attaches
    when at most one account matches. *)
Definition with_teacher (us : list users.row)
    (x : classes.row * option students.row) : class_joined :=
  (x, hd_error (filter (on_class_teacher x) us)).

(** What the class listing says about the class [c]: its columns, the
    number of active profiles that reference it, its teacher's name. *)
Definition class_summary (us : list users.row) (ss : list students.row)
    (c : classes.row) : ClassView.t :=
  ClassView.mk c (List.length (active_profiles_of c ss))
               (teacher_name_of (class_teacher c us)).

(** No row of the listing sorts strictly before the row in front of it. *)
Definition in_class_order `{Collation} (views : list ClassView.t) : Prop :=
  Sorted (fun a b => class_before b a = false) views.

(** The profile row of an account and the class a profile is linked to,
    when they exist. *)
Definition profile_of (u : users.row) (ss : list students.row)
    : option students.row :=
  find (fun s => (users.id u =? students.user_id s)%nat) ss.

Definition class_of (p : option students.row) (cs : list classes.row)
    : option classes.row :=
  match p with
  | Some s =>
      match students.class_id s with
      | Some k => find (fun c => (k =? classes.id c)%nat) cs
      | None => None
      end
  | None => None
  end.

(** The one row the student queries show for an account with at most one
    profile. *)
Definition student_summary (ss : list students.row) (cs : list classes.row)
    (u : users.row) : StudentView.t :=
  student_view ((u, profile_of u ss), class_of (profile_of u ss) cs).

(* ================================================================== *)
(** ** Lemmas on lists and strings *)
(* ================================================================== *)

Lemma filter_nil_iff {A : Type} (p : A -> bool) (l : list A) :
  filter p l = [] <-> forall x, In x l -> p x = false.
Proof.
  induction l as [|a l IH]; simpl.
  - split; [intros _ x []|reflexivity].
  - destruct (p a) eqn:Ha.
    + split; [discriminate|]. intros Hall.
      rewrite (Hall a (or_introl eq_refl)) in Ha. discriminate.
    + rewrite IH. split.
      * intros Hall x [<-|Hx]; [assumption|now apply Hall].
      * intros Hall x Hx. apply Hall. now right.
Qed.

Lemma filter_hd_find {A : Type} (p : A -> bool) (l : list A) :
  hd_error (filter p l) = find p l.
Proof.
  induction l as [|a l IH]; simpl; [reflexivity|].
  destruct (p a); [reflexivity|exact IH].
Qed.

Lemma length_zero_nil {A : Type} (l : list A) :
  (List.length l =? 0)%nat = true <-> l = [].
Proof.
  destruct l; simpl; split; intros; congruence.
Qed.

Lemma length_pos_cons {A : Type} (l : list A) :
  (0 <? List.length l)%nat = true <-> l <> [].
Proof.
  destruct l; unfold Nat.ltb; simpl; split; intros; congruence.
Qed.

Lemma filter_not_nil {A : Type} (p : A -> bool) (l : list A) (x : A) :
  In x l -> p x = true -> filter p l <> [].
Proof.
  intros Hin Hp Hnil.
  assert (In x (filter p l)) as Hf by (apply filter_In; now split).
  rewrite Hnil in Hf. exact Hf.
Qed.

Lemma split_no_space (t : string) :
  no_space t = true -> JS.split " " t = [t].
Proof.
  induction t as [|c t IH]; simpl; [reflexivity|].
  intros H. apply andb_prop in H as [Hc Ht].
  apply negb_true_iff in Hc. rewrite Hc, (IH Ht). reflexivity.
Qed.

Lemma split_space_app (s t : string) :
  no_space s = true ->
  JS.split " " (s ++ String " " t) = s :: JS.split " " t.
Proof.
  induction s as [|c s IH]; simpl; [reflexivity|].
  intros H. apply andb_prop in H as [Hc Hs].
  apply negb_true_iff in Hc. rewrite Hc, (IH Hs). reflexivity.
Qed.

Lemma truthy_Some (s : string) : JS.truthy (Some s) = true <-> s <> "".
Proof.
  unfold JS.truthy. rewrite negb_true_iff. split.
  - intros H ->. discriminate.
  - intros H. apply String.eqb_neq. exact H.
Qed.

Lemma length_app_string (s t : string) :
  String.length (s ++ t) = String.length s + String.length t.
Proof.
  induction s as [|c s IH]; simpl; [reflexivity|]. now rewrite IH.
Qed.

Lemma cycle_length (k : nat) (cur : string) (c : ascii) (pad : string) :
  String.length (JS.cycle k cur (String c pad)) = k.
Proof.
  revert cur. induction k as [|k IH]; intros cur; simpl; [reflexivity|].
  destruct cur; simpl; now rewrite IH.
Qed.

Lemma left_length (n : nat) (s : string) :
  n <= String.length s -> String.length (SQL.left n s) = n.
Proof.
  revert s. induction n as [|n IH]; intros s H; [reflexivity|].
  destruct s as [|c s]; simpl in *; [lia|]. rewrite IH; lia.
Qed.

Lemma string_of_uint_length (d : Decimal.uint) :
  String.length (NilEmpty.string_of_uint d) = Decimal.nb_digits d.
Proof.
  induction d; simpl; congruence.
Qed.

Lemma of_uint_acc_bound (d : Decimal.uint) :
  forall acc, Nat.of_uint_acc d acc < (acc + 1) * 10 ^ Decimal.nb_digits d.
Proof.
  induction d; intros acc; simpl Nat.of_uint_acc; simpl Decimal.nb_digits;
    rewrite ?Nat.tail_mul_spec;
    [ rewrite Nat.pow_0_r; lia | .. ];
    (eapply Nat.lt_le_trans; [apply IHd|]);
    rewrite Nat.pow_succ_r';
    generalize (10 ^ Decimal.nb_digits d); intros P; nia.
Qed.

Lemma String_length_from_1000 (n : nat) :
  1000 <= n -> 4 <= String.length (JS.String_ n).
Proof.
  intros Hn. unfold JS.String_. rewrite string_of_uint_length.
  destruct (le_lt_dec 4 (Decimal.nb_digits (Nat.to_uint n))) as [|Hshort];
    [assumption|exfalso].
  pose proof (of_uint_acc_bound (Nat.to_uint n) 0) as Hb.
  fold (Nat.of_uint (Nat.to_uint n)) in Hb.
  rewrite DecimalNat.Unsigned.of_to in Hb.
  assert (10 ^ Decimal.nb_digits (Nat.to_uint n) <= 10 ^ 3) as Hp
    by (apply Nat.pow_le_mono_r; lia).
  change (10 ^ 3) with 1000 in Hp. lia.
Qed.

(* ================================================================== *)
(** ** The student code (C4) *)
(* ================================================================== *)

Lemma codes_agree_on_first_1000 :
  forallb (fun id => fallback_student_id id =? studentId_of id) (seq 0 1000)
  = true.
Proof.
  vm_compute. reflexivity.
Qed.

(** Up to identifier 999 the fallback of the read queries is the code
    createStudent returned. *)
Lemma fallback_agrees_below_1000 (id : nat) :
  id < 1000 -> fallback_student_id id = studentId_of id.
Proof.
  intros H. apply String.eqb_eq.
  apply (proj1 (forallb_forall _ _) codes_agree_on_first_1000).
  apply in_seq. lia.
Qed.

(** The fallback always has six characters: LPAD cuts the identifier down
    to its first three digits. *)
Lemma fallback_student_id_length (id : nat) :
  String.length (fallback_student_id id) = 6.
Proof.
  unfold fallback_student_id, SQL.CONCAT, SQL.LPAD.
  rewrite length_app_string. simpl (String.length "STU").
  destruct (3 <=? String.length (SQL.cast_char id))%nat eqn:E.
  - apply Nat.leb_le in E. now rewrite left_length.
  - apply Nat.leb_gt in E. rewrite length_app_string, cycle_length. lia.
Qed.

(** The code createStudent returns is ['STU'] and then the decimal
    identifier, padded with zeros to three digits and never cut. *)
Lemma studentId_of_spec (userId : nat) :
  studentId_of userId
  = "STU" ++ JS.cycle (3 - String.length (JS.String_ userId)) "0" "0"
          ++ JS.String_ userId.
Proof.
  unfold studentId_of, JS.padStart.
  destruct (3 <=? String.length (JS.String_ userId))%nat eqn:E; [|reflexivity].
  apply Nat.leb_le in E.
  replace (3 - String.length (JS.String_ userId)) with 0 by lia. reflexivity.
Qed.

(** From identifier 1000 on the two codes differ. *)
Lemma fallback_differs_from_1000 (id : nat) :
  1000 <= id -> fallback_student_id id <> studentId_of id.
Proof.
  intros H E. apply (f_equal String.length) in E.
  rewrite fallback_student_id_length, studentId_of_spec in E.
  rewrite !length_app_string in E. simpl (String.length "STU") in E.
  pose proof (String_length_from_1000 id H). lia.
Qed.

(** C4 (the code departs from the claim): createStudent on a database
    whose next account identifier is 1000 and whose profile table rejects
    the insert answers 201 with the code "STU1000"; once the profile table
    can be read again, getStudent 1000 finds no stored code and computes
    the fallback "STU100", a different string. *)
Theorem student_code_fallback_diverges :
  let '(db1, r) :=
    @createStudent Sample.bcrypt 0 Sample.new_student Sample.db_1000 in
  let db2 := mkDb (users_tbl db1) (users_auto_increment db1) (Ok []) 1 (Ok []) in
  (exists st, r = mkResponse 201
                    (Created true "Student created successfully" 1000 st)
              /\ CreatedStudent.studentId st = "STU1000")
  /\ (exists v, getStudent 1000 db2 = mkResponse 200 (Student v)
                /\ StudentView.student_id v = "STU100")
  /\ studentId_of 1000 <> fallback_student_id 1000.
Proof.
  vm_compute. split; [|split].
  - eexists. split; reflexivity.
  - eexists. split; reflexivity.
  - discriminate.
Qed.

(* ================================================================== *)
(** ** Login: the credential check (C2) and its failures (C8) *)
(* ================================================================== *)

Lemma truthy_of_field (x : JS.field) :
  JS.truthy_value (JS.of_field x) = JS.truthy x.
Proof.
  now destruct x.
Qed.

Section Login.
Context {bc : Bcrypt} {jw : Jwt} {en : Env}.

Lemma login_account_select (email : string) (db : Db) :
  hd_error (select_users (fun u => (users.email u =? email)
                                   && users.is_active u) db)
  = login_account email db.
Proof.
  apply filter_hd_find.
Qed.

(** What login answers once both fields are present. *)
Lemma login_present (b : LoginBody.t) (db : Db) :
  JS.truthy (LoginBody.email b) = true ->
  JS.truthy_value (LoginBody.password b) = true ->
  login b db =
  match login_account (JS.str (LoginBody.email b)) db with
  | None => invalid_credentials
  | Some user =>
      match isPasswordValid (LoginBody.password b) (users.password user) with
      | Ok true => login_ok user
      | Ok false => invalid_credentials
      | Err _ => internal_error
      end
  end.
Proof.
  intros He Hp. unfold login. rewrite He, Hp. simpl.
  rewrite <- login_account_select.
  destruct (select_users _ db) as [|user rest]; simpl; [reflexivity|].
  destruct (isPasswordValid _ _) as [[|]|]; reflexivity.
Qed.

(** What login answers when a field is missing. *)
Lemma login_missing (b : LoginBody.t) (db : Db) :
  JS.truthy (LoginBody.email b) && JS.truthy_value (LoginBody.password b)
  = false ->
  login b db = mkResponse 400 (Message false "Email and password are required").
Proof.
  intros Hmiss. unfold login. now rewrite <- negb_andb, Hmiss.
Qed.

(** C2: for the account login finds and whatever password the request
    carries, the stored value's ['$2'] prefix selects the verifier: with
    the prefix the verdict is the one of bcrypt's comparison, without it
    the password is valid exactly when it is the stored string,
    character for character.  The answer follows the verdict: 200 when
    valid, the 401 of invalid credentials when not, 500 when the
    comparison rejects (and 400, without any check, when the email or the
    password is missing). *)
Theorem login_dual_mode_check (b : LoginBody.t) (db : Db) (user : users.row) :
  login_account (JS.str (LoginBody.email b)) db = Some user ->
  let password := LoginBody.password b in
  let stored := users.password user in
  (JS.startsWith "$2" stored = true ->
     isPasswordValid password stored = bcrypt_compare password stored)
  /\ (JS.startsWith "$2" stored = false ->
      (isPasswordValid password stored = Ok true <-> password = JS.Str stored)
      /\ (isPasswordValid password stored = Ok false
          <-> password <> JS.Str stored))
  /\ login b db
     = if negb (JS.truthy (LoginBody.email b))
          || negb (JS.truthy_value password)
       then mkResponse 400 (Message false "Email and password are required")
       else match isPasswordValid password stored with
            | Ok true => login_ok user
            | Ok false => invalid_credentials
            | Err _ => internal_error
            end.
Proof.
  intros Hu password stored. split; [|split].
  - intros Hpre. unfold isPasswordValid. now rewrite Hpre.
  - intros Hpre. unfold isPasswordValid. rewrite Hpre.
    destruct password as [|p|z|flag|]; cbn [JS.strict_eq];
      try (split; split; intros; congruence).
    destruct (p =? stored) eqn:E.
    + apply String.eqb_eq in E. subst p.
      split; split; intros; congruence.
    + apply String.eqb_neq in E.
      split; split; intros; congruence.
  - destruct (JS.truthy (LoginBody.email b)
              && JS.truthy_value (LoginBody.password b)) eqn:Hboth.
    + apply andb_prop in Hboth as [He Hp].
      rewrite (login_present b db He Hp), Hu. fold password stored.
      subst password. now rewrite He, Hp.
    + rewrite (login_missing b db Hboth).
      subst password. now rewrite <- negb_andb, Hboth.
Qed.

(** The plain comparison is case-sensitive and takes strings only. *)
Lemma plain_check_case_sensitive :
  isPasswordValid (JS.Str "secret") "Secret" = Ok false
  /\ isPasswordValid (JS.Str "Secret") "Secret" = Ok true
  /\ isPasswordValid (JS.Num 1) "1" = Ok false.
Proof.
  repeat split.
Qed.

(** C8, as amended: for every non-empty email and truthy password,
    when no active account has the email, or the account found has a
    credential against which the check returns false, login answers the
    one 401 response "Invalid email or password".  (An empty or absent
    field is answered 400 before the lookup.) *)
Theorem login_failures_uniform (b : LoginBody.t) (db : Db) :
  JS.truthy (LoginBody.email b) = true ->
  JS.truthy_value (LoginBody.password b) = true ->
  (login_account (JS.str (LoginBody.email b)) db = None
   \/ exists user,
        login_account (JS.str (LoginBody.email b)) db = Some user
        /\ isPasswordValid (LoginBody.password b) (users.password user)
           = Ok false) ->
  login b db = invalid_credentials.
Proof.
  intros He Hp Hfail. rewrite (login_present b db He Hp).
  destruct Hfail as [Hnone|(user & Hsome & Hbad)].
  - now rewrite Hnone.
  - now rewrite Hsome, Hbad.
Qed.

(** The 400 and the 401 tell nothing about the accounts: whenever the
    same request gets one of them against two databases, the two
    responses are equal. *)
Lemma login_failure_indistinguishable (b : LoginBody.t) (db1 db2 : Db) :
  status (login b db1) <> 200 -> status (login b db1) <> 500 ->
  status (login b db2) <> 200 -> status (login b db2) <> 500 ->
  login b db1 = login b db2.
Proof.
  destruct (JS.truthy (LoginBody.email b)
            && JS.truthy_value (LoginBody.password b)) eqn:Hboth.
  - apply andb_prop in Hboth as [He Hp].
    rewrite !(login_present b _ He Hp).
    destruct (login_account _ db1) as [u1|], (login_account _ db2) as [u2|];
      repeat match goal with
             | |- context [isPasswordValid ?p ?s] =>
                 destruct (isPasswordValid p s) as [[|]|]
             end;
      cbn [status login_ok invalid_credentials internal_error];
      intros H1 H1' H2 H2'; try reflexivity;
      try (now elim H1); try (now elim H1'); try (now elim H2);
      try (now elim H2').
  - now rewrite !(login_missing b _ Hboth).
Qed.

(** Where the bcrypt comparison rejects, the handler's [catch] answers
    500 for the account that exists. *)
Lemma login_compare_rejected (b : LoginBody.t) (db : Db) (user : users.row)
    (message : string) :
  JS.truthy (LoginBody.email b) = true ->
  JS.truthy_value (LoginBody.password b) = true ->
  login_account (JS.str (LoginBody.email b)) db = Some user ->
  JS.startsWith "$2" (users.password user) = true ->
  bcrypt_compare (LoginBody.password b) (users.password user) = Err message ->
  login b db = internal_error.
Proof.
  intros He Hp Hu Hpre Hrej. rewrite (login_present b db He Hp), Hu.
  unfold isPasswordValid. now rewrite Hpre, Hrej.
Qed.

End Login.

(** An inactive account is not found by login. *)
Lemma login_account_inactive :
  login_account "gone@x.com" Sample.db = None.
Proof.
  reflexivity.
Qed.

(** Both verifiers at work: the legacy account with its plain password,
    the administrator with its digest, and a wrong password for each. *)
Lemma login_dual_mode_check_witness :
  @login Sample.bcrypt Sample.jwt_ Sample.env
    (LoginBody.mk (Some "old@x.com") (JS.Str "Secret")) Sample.db
  = @login_ok Sample.jwt_ Sample.env Sample.legacy
  /\ @login Sample.bcrypt Sample.jwt_ Sample.env
       (LoginBody.mk (Some "old@x.com") (JS.Str "secret")) Sample.db
     = invalid_credentials
  /\ @login Sample.bcrypt Sample.jwt_ Sample.env
       (LoginBody.mk (Some "admin@x.com") (JS.Str "root")) Sample.db
     = @login_ok Sample.jwt_ Sample.env Sample.admin
  /\ @login Sample.bcrypt Sample.jwt_ Sample.env
       (LoginBody.mk (Some "admin@x.com") (JS.Str "toor")) Sample.db
     = invalid_credentials.
Proof.
  split; [|split; [|split]].
  - rewrite (proj2 (proj2 (@login_dual_mode_check Sample.bcrypt Sample.jwt_
                             Sample.env
                             (LoginBody.mk (Some "old@x.com") (JS.Str "Secret"))
                             Sample.db Sample.legacy eq_refl))).
    reflexivity.
  - rewrite (proj2 (proj2 (@login_dual_mode_check Sample.bcrypt Sample.jwt_
                             Sample.env
                             (LoginBody.mk (Some "old@x.com") (JS.Str "secret"))
                             Sample.db Sample.legacy eq_refl))).
    reflexivity.
  - rewrite (proj2 (proj2 (@login_dual_mode_check Sample.bcrypt Sample.jwt_
                             Sample.env
                             (LoginBody.mk (Some "admin@x.com") (JS.Str "root"))
                             Sample.db Sample.admin eq_refl))).
    reflexivity.
  - rewrite (proj2 (proj2 (@login_dual_mode_check Sample.bcrypt Sample.jwt_
                             Sample.env
                             (LoginBody.mk (Some "admin@x.com") (JS.Str "toor"))
                             Sample.db Sample.admin eq_refl))).
    reflexivity.
Defined.

Lemma login_failures_uniform_witness :
  @login Sample.bcrypt Sample.jwt_ Sample.env
    (LoginBody.mk (Some "gone@x.com") (JS.Str "student123")) Sample.db
  = invalid_credentials
  /\ @login Sample.bcrypt Sample.jwt_ Sample.env
       (LoginBody.mk (Some "jo@x.com") (JS.Str "wrong")) Sample.db
     = invalid_credentials
  /\ @login Sample.bcrypt Sample.jwt_ Sample.env
       (LoginBody.mk (Some "old@x.com") (JS.Num 7)) Sample.db
     = invalid_credentials.
Proof.
  split; [|split].
  - apply (@login_failures_uniform Sample.bcrypt Sample.jwt_ Sample.env
             (LoginBody.mk (Some "gone@x.com") (JS.Str "student123"))
             Sample.db);
      [reflexivity|reflexivity|left; reflexivity].
  - apply (@login_failures_uniform Sample.bcrypt Sample.jwt_ Sample.env
             (LoginBody.mk (Some "jo@x.com") (JS.Str "wrong")) Sample.db);
      [reflexivity|reflexivity|].
    right. exists Sample.jo. split; reflexivity.
  - apply (@login_failures_uniform Sample.bcrypt Sample.jwt_ Sample.env
             (LoginBody.mk (Some "old@x.com") (JS.Num 7)) Sample.db);
      [reflexivity|reflexivity|].
    right. exists Sample.legacy. split; reflexivity.
Defined.

(** C8 as stated fails when a field is empty: no active account has the
    email, yet the answer is the 400 of missing fields, not the 401. *)
Lemma login_empty_password_counterexample :
  let b := LoginBody.mk (Some "nobody@x.com") (JS.Str "") in
  login_account (JS.str (LoginBody.email b)) Sample.db = None
  /\ @login Sample.bcrypt Sample.jwt_ Sample.env b Sample.db
     = mkResponse 400 (Message false "Email and password are required")
  /\ @login Sample.bcrypt Sample.jwt_ Sample.env b Sample.db
     <> invalid_credentials.
Proof.
  split; [reflexivity|split; [reflexivity|discriminate]].
Qed.

(* ================================================================== *)
(** ** Token verification (C9) *)
(* ================================================================== *)

Section Token.
Context {jw : Jwt} {en : Env}.

(** No header, or an empty one, carries no token. *)
Lemma token_of_absent : token_of None = None /\ token_of (Some "") = Some "".
Proof.
  split; reflexivity.
Qed.

(** A bearer credential: the token is the header's second field. *)
Lemma token_of_bearer (scheme token : string) :
  scheme <> "" -> no_space scheme = true -> no_space token = true ->
  token_of (Some (scheme ++ String " " token)) = Some token.
Proof.
  intros Hs Hns Hnt. unfold token_of.
  assert (JS.truthy (Some (scheme ++ String " " token)) = true) as ->.
  { apply truthy_Some. destruct scheme; [congruence|discriminate]. }
  simpl JS.str. rewrite split_space_app, split_no_space by assumption.
  reflexivity.
Qed.

(** C9: the middleware answers 401 exactly when the request presents no
    token (the authorization header is missing or holds no non-empty
    second field), 403 exactly when it presents one that [jwt.verify]
    rejects (malformed, wrongly signed or expired), and passes the claims
    on exactly when the token verifies; a header made of a scheme, one
    space and a token presents that token. *)
Theorem authenticateToken_outcomes (authHeader : JS.field) :
  (authenticateToken authHeader
     = Respond (mkResponse 401 (Message false "Access token required"))
   <-> JS.truthy (token_of authHeader) = false)
  /\ (authenticateToken authHeader
        = Respond (mkResponse 403 (Message false "Invalid or expired token"))
      <-> exists token message,
            token_of authHeader = Some token /\ token <> ""
            /\ jwt_verify token secret = Err message)
  /\ (forall claims,
        authenticateToken authHeader = Next claims
        <-> exists token,
              token_of authHeader = Some token /\ token <> ""
              /\ jwt_verify token secret = Ok claims)
  /\ (authHeader = None -> JS.truthy (token_of authHeader) = false)
  /\ (forall token,
        token <> "" -> no_space token = true ->
        authHeader = Some ("Bearer " ++ token) ->
        token_of authHeader = Some token).
Proof.
  unfold authenticateToken.
  destruct (token_of authHeader) as [token|] eqn:Htok.
  - destruct (JS.truthy (Some token)) eqn:Ht; simpl.
    + pose proof (proj1 (truthy_Some token) Ht) as Hne.
      destruct (jwt_verify token secret) as [decoded|message] eqn:Hv.
      * repeat split; try discriminate.
        -- intros (t & m & [= <-] & _ & Hm). congruence.
        -- intros [= <-]. exists token. auto.
        -- intros (t & [= <-] & _ & Hc). congruence.
        -- intros ->. discriminate.
        -- intros t Hnt Hns ->. rewrite <- Htok.
           apply (token_of_bearer "Bearer"); auto; discriminate.
      * repeat split; try discriminate.
        -- intros _. exists token, message. auto.
        -- intros (t & [= <-] & _ & Hc). congruence.
        -- intros ->. discriminate.
        -- intros t Hnt Hns ->. rewrite <- Htok.
           apply (token_of_bearer "Bearer"); auto; discriminate.
    + assert (token = "") as ->.
      { destruct (string_dec token "") as [|Hn]; [assumption|].
        apply truthy_Some in Hn. congruence. }
      repeat split; try discriminate; try reflexivity.
      * intros (t & m & [= <-] & Hn & _). now elim Hn.
      * intros (t & [= <-] & Hn & _). now elim Hn.
      * intros t Hnt Hns ->. rewrite <- Htok.
        apply (token_of_bearer "Bearer"); auto; discriminate.
  - simpl. repeat split; try discriminate; try reflexivity.
    + intros (t & m & Hs & _). discriminate.
    + intros (t & Hs & _). discriminate.
    + intros t Hnt Hns ->. rewrite <- Htok.
      apply (token_of_bearer "Bearer"); auto; discriminate.
Qed.

End Token.

Lemma authenticateToken_outcomes_witness :
  @authenticateToken Sample.jwt_ Sample.env None
    = Respond (mkResponse 401 (Message false "Access token required"))
  /\ @authenticateToken Sample.jwt_ Sample.env (Some "Bearer stale.token")
    = Respond (mkResponse 403 (Message false "Invalid or expired token"))
  /\ @authenticateToken Sample.jwt_ Sample.env (Some "Bearer good.token")
    = Next (jwt.mk 1 "admin@x.com" "admin").
Proof.
  split; [|split].
  - apply (proj1 (@authenticateToken_outcomes Sample.jwt_ Sample.env None)).
    reflexivity.
  - apply (proj1 (proj2 (@authenticateToken_outcomes Sample.jwt_ Sample.env
                           (Some "Bearer stale.token")))).
    exists "stale.token", "jwt malformed".
    split; [reflexivity|split; [discriminate|reflexivity]].
  - apply (proj1 (proj2 (proj2 (@authenticateToken_outcomes Sample.jwt_
                                  Sample.env (Some "Bearer good.token"))))).
    exists "good.token".
    split; [reflexivity|split; [discriminate|reflexivity]].
Defined.

(* ================================================================== *)
(** ** The statements on [users] *)
(* ================================================================== *)

Lemma select_users_nil (p : users.row -> bool) (db : Db) :
  select_users p db = [] <-> forall u, In u (users_tbl db) -> p u = false.
Proof.
  apply filter_nil_iff.
Qed.

Lemma email_taken_select (e : string) (db : Db) :
  email_taken e db <-> select_users (fun u => users.email u =? e) db <> [].
Proof.
  split.
  - intros (u & Hin & He). apply (filter_not_nil _ _ u Hin).
    now apply String.eqb_eq.
  - intros Hne. destruct (select_users _ db) as [|u rest] eqn:Hsel;
      [now elim Hne|].
    assert (In u (select_users (fun u => users.email u =? e) db)) as Hin
      by (rewrite Hsel; now left).
    apply filter_In in Hin as [Hin He]. apply String.eqb_eq in He.
    now exists u.
Qed.

Lemma student_row_select (id : nat) (db : Db) :
  student_row id db <-> select_users (users.is_student id) db <> [].
Proof.
  split.
  - intros (u & Hin & Hid & Hrole). apply (filter_not_nil _ _ u Hin).
    apply andb_true_intro. split;
      [now apply Nat.eqb_eq|now apply String.eqb_eq].
  - intros Hne. destruct (select_users _ db) as [|u rest] eqn:Hsel;
      [now elim Hne|].
    assert (In u (select_users (users.is_student id) db))
      as Hin by (rewrite Hsel; now left).
    apply filter_In in Hin as [Hin Hp]. apply andb_prop in Hp as [Hid Hrole].
    apply Nat.eqb_eq in Hid. apply String.eqb_eq in Hrole.
    now exists u.
Qed.

(** An insert keeps both keys when the new email is not taken. *)
Lemma insert_user_keys (mkrow : nat -> users.row) (db : Db) :
  (forall i, users.id (mkrow i) = i) ->
  ~ email_taken (users.email (mkrow (users_auto_increment db))) db ->
  primary_key db -> unique_emails db ->
  primary_key (snd (insert_user mkrow db))
  /\ unique_emails (snd (insert_user mkrow db)).
Proof.
  intros Hid Hfresh [Hnd Hlt] Hun. unfold primary_key, unique_emails. simpl.
  rewrite !map_app. simpl. rewrite Hid. repeat split.
  - apply Permutation_NoDup with (l := users_auto_increment db
                                        :: map users.id (users_tbl db)).
    + apply Permutation_cons_append.
    + constructor; [|assumption].
      intros Hin. apply in_map_iff in Hin as (u & Hu & Hin).
      apply Hlt in Hin. lia.
  - intros u Hin. apply in_app_or in Hin as [Hin|[<-|[]]].
    + apply Hlt in Hin. lia.
    + rewrite Hid. lia.
  - apply Permutation_NoDup
      with (l := users.email (mkrow (users_auto_increment db))
                 :: map users.email (users_tbl db)).
    + apply Permutation_cons_append.
    + constructor; [|assumption].
      intros Hin. apply in_map_iff in Hin as (u & Hu & Hin).
      apply Hfresh. now exists u.
Qed.

(** An update that keeps [id] and [email] keeps both keys. *)
Lemma update_users_keys (p : users.row -> bool) (set : users.row -> users.row)
    (db : Db) :
  (forall u, users.id (set u) = users.id u) ->
  (forall u, users.email (set u) = users.email u) ->
  primary_key db -> unique_emails db ->
  primary_key (update_users p set db) /\ unique_emails (update_users p set db).
Proof.
  intros Hid Hem [Hnd Hlt] Hun. unfold primary_key, unique_emails. simpl.
  assert (map users.id (map (fun u => if p u then set u else u) (users_tbl db))
          = map users.id (users_tbl db)) as Eid.
  { rewrite map_map. apply map_ext. intros u. destruct (p u); auto. }
  assert (map users.email (map (fun u => if p u then set u else u) (users_tbl db))
          = map users.email (users_tbl db)) as Eem.
  { rewrite map_map. apply map_ext. intros u. destruct (p u); auto. }
  rewrite Eid, Eem. repeat split; try assumption.
  intros u Hin. apply in_map_iff in Hin as (u0 & <- & Hin).
  destruct (p u0); [rewrite Hid|]; now apply Hlt.
Qed.

(** Giving the email [e] to the rows of identifier [id0] keeps the emails
    distinct when [e] belongs to no other identifier. *)
Lemma update_email_NoDup (p : users.row -> bool) (set : users.row -> users.row)
    (e : string) (id0 : nat) (l : list users.row) :
  (forall u, users.email (set u) = e) ->
  (forall u, p u = true -> users.id u = id0) ->
  (forall u, In u l -> users.email u = e -> users.id u = id0) ->
  NoDup (map users.id l) -> NoDup (map users.email l) ->
  NoDup (map users.email (map (fun u => if p u then set u else u) l)).
Proof.
  intros Hset Hp. induction l as [|a l IH]; intros Hother Hid Hem; simpl;
    [constructor|].
  inversion Hid as [|? ? Ha_id Hid']; subst.
  inversion Hem as [|? ? Ha_em Hem']; subst.
  assert (forall u, In u l -> users.id u <> users.id a) as Hdiff.
  { intros u Hu E. apply Ha_id. rewrite <- E. now apply in_map. }
  constructor.
  - intros Hin. rewrite map_map in Hin.
    apply in_map_iff in Hin as (u & Hu & Hin).
    destruct (p a) eqn:Hpa, (p u) eqn:Hpu.
    + apply (Hdiff u Hin). rewrite (Hp _ Hpa), (Hp _ Hpu). reflexivity.
    + rewrite Hset in Hu. apply (Hdiff u Hin).
      rewrite (Hp _ Hpa). apply Hother; [now right|assumption].
    + rewrite Hset in Hu. apply (Hdiff u Hin).
      rewrite (Hp _ Hpu). symmetry. apply Hother; [now left|congruence].
    + apply Ha_em. rewrite <- Hu. now apply in_map.
  - apply IH; try assumption. intros u Hu. apply Hother. now right.
Qed.

(* ================================================================== *)
(** ** Email uniqueness (C1) *)
(* ================================================================== *)

Section Uniqueness.
Context {bc : Bcrypt} {jw : Jwt} {en : Env}.

(** register answers 409 and writes nothing when the body is complete and
    the email is taken. *)
Lemma register_conflict (now : nat) (b : RegisterBody.t) (db : Db) :
  register_body_valid b = true ->
  email_taken (JS.str (RegisterBody.email b)) db ->
  register now b db = (db, email_exists).
Proof.
  unfold register_body_valid. intros Hv Ht.
  repeat (apply andb_prop in Hv as [Hv ?]).
  unfold register.
  repeat match goal with Hx : JS.truthy _ = true |- _ => rewrite Hx; clear Hx end.
  simpl. apply email_taken_select in Ht. apply length_pos_cons in Ht.
  rewrite Ht. reflexivity.
Qed.

(** createStudent does the same. *)
Lemma createStudent_conflict (now : nat) (b : StudentBody.t) (db : Db) :
  student_body_valid b = true ->
  email_taken (JS.str (StudentBody.email b)) db ->
  createStudent now b db = (db, email_exists).
Proof.
  unfold student_body_valid. intros Hv Ht.
  repeat (apply andb_prop in Hv as [Hv ?]).
  unfold createStudent.
  repeat match goal with Hx : JS.truthy _ = true |- _ => rewrite Hx; clear Hx end.
  simpl. apply email_taken_select in Ht. apply length_pos_cons in Ht.
  rewrite Ht. reflexivity.
Qed.

Lemma register_keys (now : nat) (b : RegisterBody.t) (db : Db) :
  primary_key db -> unique_emails db ->
  primary_key (fst (register now b db)) /\ unique_emails (fst (register now b db)).
Proof.
  intros Hpk Hun. unfold register.
  destruct (_ || _); [now split|].
  destruct (0 <? _)%nat eqn:Hlen; [now split|].
  match goal with
  | |- context [insert_user ?f db] =>
      pose proof (insert_user_keys f db) as Hins;
      destruct (insert_user f db) as [userId db1] eqn:Hdb1
  end.
  simpl in *. apply Hins; try assumption; [reflexivity|].
  simpl. intros Ht. apply email_taken_select, length_pos_cons in Ht.
  congruence.
Qed.

Lemma createStudent_users (now : nat) (b : StudentBody.t) (db : Db) :
  student_body_valid b = true ->
  ~ email_taken (JS.str (StudentBody.email b)) db ->
  users_tbl (fst (createStudent now b db))
  = (users_tbl db
     ++ [users.mk (users_auto_increment db) (JS.str (StudentBody.email b))
           (bcrypt_hash "student123" 12) "student"
           (JS.str (StudentBody.firstName b)) (JS.str (StudentBody.lastName b))
           (JS.or_null (StudentBody.phone b))
           (JS.not_false (StudentBody.isActive b)) now])%list
  /\ users_auto_increment (fst (createStudent now b db))
     = S (users_auto_increment db)
  /\ snd (createStudent now b db)
     = mkResponse 201
         (Created true "Student created successfully" (users_auto_increment db)
            (CreatedStudent.mk (users_auto_increment db)
               (studentId_of (users_auto_increment db))
               (JS.str (StudentBody.firstName b))
               (JS.str (StudentBody.lastName b))
               (JS.str (StudentBody.email b)))).
Proof.
  unfold student_body_valid. intros Hv Hfresh.
  repeat (apply andb_prop in Hv as [Hv ?]).
  unfold createStudent.
  repeat match goal with Hx : JS.truthy _ = true |- _ => rewrite Hx; clear Hx end.
  simpl negb. simpl orb. cbv iota.
  destruct (0 <? _)%nat eqn:Hlen.
  { apply length_pos_cons, email_taken_select in Hlen. contradiction. }
  unfold insert_user. cbv zeta. cbv iota.
  unfold insert_student. cbn [students_tbl].
  destruct (students_tbl db) as [rows|message]; cbn [bind catch fst snd];
    cbn [users_tbl users_auto_increment]; auto.
Qed.

Lemma createStudent_keys (now : nat) (b : StudentBody.t) (db : Db) :
  primary_key db -> unique_emails db ->
  primary_key (fst (createStudent now b db))
  /\ unique_emails (fst (createStudent now b db)).
Proof.
  intros Hpk Hun.
  destruct (student_body_valid b) eqn:Hv.
  - destruct (select_users (fun u => users.email u =? JS.str (StudentBody.email b)) db)
      as [|u0 rest] eqn:Hsel.
    + assert (~ email_taken (JS.str (StudentBody.email b)) db) as Hfresh.
      { intros Ht. apply email_taken_select in Ht. congruence. }
      destruct (createStudent_users now b db Hv Hfresh) as (Hu & Ha & _).
      unfold primary_key, unique_emails. rewrite Hu, Ha.
      pose proof (insert_user_keys
                    (fun i => users.mk i (JS.str (StudentBody.email b))
                                (bcrypt_hash "student123" 12) "student"
                                (JS.str (StudentBody.firstName b))
                                (JS.str (StudentBody.lastName b))
                                (JS.or_null (StudentBody.phone b))
                                (JS.not_false (StudentBody.isActive b)) now)
                    db (fun _ => eq_refl) Hfresh Hpk Hun) as Hins.
      exact Hins.
    + rewrite createStudent_conflict; [now split|assumption|].
      apply email_taken_select. congruence.
  - unfold createStudent. unfold student_body_valid in Hv.
    rewrite <- !negb_andb, Hv. now split.
Qed.

End Uniqueness.

(* ================================================================== *)
(** ** The best-effort statements leave [users] alone *)
(* ================================================================== *)

Lemma keys_ext (d1 d2 : Db) :
  users_tbl d1 = users_tbl d2 ->
  users_auto_increment d1 = users_auto_increment d2 ->
  primary_key d2 /\ unique_emails d2 ->
  primary_key d1 /\ unique_emails d1.
Proof.
  unfold primary_key, unique_emails. intros -> ->. trivial.
Qed.

Lemma update_students_users (p : students.row -> bool)
    (set : students.row -> students.row) (db : Db) :
  users_tbl (catch (update_students p set db) (fun _ => db)) = users_tbl db
  /\ users_auto_increment (catch (update_students p set db) (fun _ => db))
     = users_auto_increment db.
Proof.
  unfold update_students. destruct (students_tbl db); simpl; auto.
Qed.

Lemma update_profile_users (id : nat) (b : StudentBody.t) (db : Db) :
  users_tbl (catch (update_profile id b db) (fun _ => db)) = users_tbl db
  /\ users_auto_increment (catch (update_profile id b db) (fun _ => db))
     = users_auto_increment db.
Proof.
  unfold update_profile.
  destruct (find_class_id _ _ db) as [classId|message]; simpl; [|auto].
  apply update_students_users.
Qed.

Lemma update_users_primary_key (p : users.row -> bool)
    (set : users.row -> users.row) (db : Db) :
  (forall u, users.id (set u) = users.id u) ->
  primary_key db -> primary_key (update_users p set db).
Proof.
  intros Hid [Hnd Hlt]. unfold primary_key. simpl.
  assert (map users.id (map (fun u => if p u then set u else u) (users_tbl db))
          = map users.id (users_tbl db)) as Eid.
  { rewrite map_map. apply map_ext. intros u. destruct (p u); auto. }
  rewrite Eid. split; [assumption|].
  intros u Hin. apply in_map_iff in Hin as (u0 & <- & Hin).
  destruct (p u0); [rewrite Hid|]; now apply Hlt.
Qed.

Lemma updateStudent_keys (id : nat) (b : StudentBody.t) (db : Db) :
  primary_key db -> unique_emails db ->
  primary_key (fst (updateStudent id b db))
  /\ unique_emails (fst (updateStudent id b db)).
Proof.
  intros Hpk Hun. unfold updateStudent.
  destruct (_ || _); [now split|].
  destruct (_ =? 0)%nat; [now split|].
  destruct (0 <? _)%nat eqn:Hlen; [now split|].
  cbn [fst].
  match goal with
  | |- context [catch (update_profile id b ?d) _] =>
      destruct (update_profile_users id b d) as [Eu Ea];
      apply (keys_ext _ d Eu Ea)
  end.
  split.
  - apply update_users_primary_key; [reflexivity|assumption].
  - unfold unique_emails. cbn [update_users users_tbl].
    apply update_email_NoDup with (e := JS.str (StudentBody.email b)) (id0 := id).
    + reflexivity.
    + intros u Hp. apply andb_prop in Hp as [Hid _]. now apply Nat.eqb_eq.
    + intros u Hin He.
      destruct (List.length (select_users _ db)) eqn:Hsel in Hlen;
        [|discriminate].
      apply length_zero_iff_nil in Hsel.
      pose proof (proj1 (select_users_nil _ db) Hsel u Hin) as Hu.
      cbn beta in Hu. apply andb_false_iff in Hu as [Hu|Hu].
      * apply String.eqb_neq in Hu. contradiction.
      * apply negb_false_iff in Hu. now apply Nat.eqb_eq.
    + apply Hpk.
    + exact Hun.
Qed.

Lemma deleteStudent_keys (id : nat) (db : Db) :
  primary_key db -> unique_emails db ->
  primary_key (fst (deleteStudent id db))
  /\ unique_emails (fst (deleteStudent id db)).
Proof.
  intros Hpk Hun. unfold deleteStudent.
  destruct (_ =? 0)%nat; [now split|]. cbn [fst].
  match goal with
  | |- context [catch (update_students ?p ?set ?d) _] =>
      destruct (update_students_users p set d) as [Eu Ea];
      apply (keys_ext _ d Eu Ea)
  end.
  apply update_users_keys; auto.
Qed.

Lemma createTestStudent_keys {bc : Bcrypt} (now : nat) (db : Db) :
  primary_key db -> unique_emails db ->
  primary_key (fst (createTestStudent now db))
  /\ unique_emails (fst (createTestStudent now db)).
Proof.
  intros Hpk Hun. unfold createTestStudent.
  destruct (select_users _ db) as [|e rest] eqn:Hsel; [|now split].
  match goal with
  | |- context [insert_user ?f db] =>
      pose proof (insert_user_keys f db) as Hins;
      destruct (insert_user f db) as [userId db1] eqn:Hdb1
  end.
  simpl in *. apply Hins; try assumption; [reflexivity|].
  simpl. intros Ht. apply email_taken_select in Ht. congruence.
Qed.

(** Every request keeps both keys. *)
Lemma handle_keys {bc : Bcrypt} {jw : Jwt} {en : Env} (rq : Request) (db : Db) :
  primary_key db -> unique_emails db ->
  primary_key (fst (handle rq db)) /\ unique_emails (fst (handle rq db)).
Proof.
  intros Hpk Hun. destruct rq; simpl.
  - now split.
  - now apply register_keys.
  - now split.
  - now apply createStudent_keys.
  - now apply updateStudent_keys.
  - now apply deleteStudent_keys.
  - now split.
  - now apply createTestStudent_keys.
Qed.

(** So does every sequence of requests. *)
Lemma serve_keys {bc : Bcrypt} {jw : Jwt} {en : Env} (rqs : list Request) :
  forall db, primary_key db -> unique_emails db ->
             primary_key (serve rqs db) /\ unique_emails (serve rqs db).
Proof.
  induction rqs as [|rq rqs IH]; intros db Hpk Hun; simpl; [now split|].
  destruct (handle_keys rq db Hpk Hun) as [Hpk' Hun']. now apply IH.
Qed.

(** From the empty database on, the emails stay pairwise distinct. *)
Lemma serve_fresh_unique_emails {bc : Bcrypt} {jw : Jwt} {en : Env}
    (rqs : list Request) :
  unique_emails (serve rqs Sample.fresh).
Proof.
  apply serve_keys.
  - split; [constructor|intros u []].
  - constructor.
Qed.

(** C1, as amended: when a register (or createStudent) request carries
    all its required fields and some account, active or not, already has
    the requested email, the handler answers 409 "User with this email
    already exists" and writes nothing; and every request, whatever it is,
    keeps the emails of the accounts pairwise distinct (the identifiers
    being a primary key). *)
Theorem email_uniqueness_enforced {bc : Bcrypt} {jw : Jwt} {en : Env} (db : Db) :
  primary_key db -> unique_emails db ->
  (forall now b,
      register_body_valid b = true ->
      email_taken (JS.str (RegisterBody.email b)) db ->
      register now b db = (db, email_exists))
  /\ (forall now b,
      student_body_valid b = true ->
      email_taken (JS.str (StudentBody.email b)) db ->
      createStudent now b db = (db, email_exists))
  /\ (forall rq,
      primary_key (fst (handle rq db)) /\ unique_emails (fst (handle rq db)))
  /\ (forall rqs, unique_emails (serve rqs db)).
Proof.
  intros Hpk Hun. split; [|split; [|split]].
  - intros now b. apply register_conflict.
  - intros now b. apply createStudent_conflict.
  - intros rq. now apply handle_keys.
  - intros rqs. now apply serve_keys.
Qed.

Lemma email_uniqueness_enforced_witness :
  @register Sample.bcrypt Sample.jwt_ Sample.env 50
    (RegisterBody.mk (Some "jo@x.com") (Some "pw") (Some "Jo") (Some "Doe")
                     (Some "student") None)
    Sample.db
  = (Sample.db, email_exists).
Proof.
  apply (@email_uniqueness_enforced Sample.bcrypt Sample.jwt_ Sample.env
           Sample.db).
  - split.
    + simpl. repeat constructor; simpl; intuition discriminate.
    + simpl. intros u Hu.
      repeat destruct Hu as [<-|Hu]; simpl; try lia; try contradiction.
  - unfold unique_emails. simpl.
    repeat constructor; simpl; intuition discriminate.
  - reflexivity.
  - exists Sample.jo. split; [simpl; auto|reflexivity].
Defined.

(** C1 as stated fails when a required field is missing: the email is
    taken, yet register answers the 400 of missing fields, not the 409. *)
Lemma register_conflict_counterexample :
  let b := RegisterBody.mk (Some "jo@x.com") None (Some "Jo") (Some "Doe")
                           (Some "student") None in
  email_taken (JS.str (RegisterBody.email b)) Sample.db
  /\ @register Sample.bcrypt Sample.jwt_ Sample.env 50 b Sample.db
     = (Sample.db,
        mkResponse 400
          (Message false
             "Email, password, first name, last name, and role are required"))
  /\ snd (@register Sample.bcrypt Sample.jwt_ Sample.env 50 b Sample.db)
     <> email_exists.
Proof.
  split; [|split].
  - exists Sample.jo. split; [simpl; auto|reflexivity].
  - reflexivity.
  - discriminate.
Qed.

(* ================================================================== *)
(** ** createStudent when the profile insert fails (C3) *)
(* ================================================================== *)

(** C3: for a body with firstName, lastName and a fresh email, when the
    profile table rejects the insert, createStudent still answers 201 with
    the new account's identifier and its student code, the account row is
    in the store, and no profile was written. *)
Theorem createStudent_survives_profile_failure {bc : Bcrypt}
    (now : nat) (b : StudentBody.t) (db : Db) (message : string) :
  student_body_valid b = true ->
  ~ email_taken (JS.str (StudentBody.email b)) db ->
  students_tbl db = Err message ->
  let accountId := users_auto_increment db in
  snd (createStudent now b db)
  = mkResponse 201
      (Created true "Student created successfully" accountId
         (CreatedStudent.mk accountId (studentId_of accountId)
            (JS.str (StudentBody.firstName b)) (JS.str (StudentBody.lastName b))
            (JS.str (StudentBody.email b))))
  /\ (exists u, In u (users_tbl (fst (createStudent now b db)))
                /\ users.id u = accountId
                /\ users.email u = JS.str (StudentBody.email b)
                /\ users.role u = "student")
  /\ (forall u, In u (users_tbl db) ->
                In u (users_tbl (fst (createStudent now b db))))
  /\ students_tbl (fst (createStudent now b db)) = Err message.
Proof.
  intros Hv Hfresh Hst accountId.
  destruct (createStudent_users now b db Hv Hfresh) as (Hu & _ & Hr).
  split; [exact Hr|]. split; [|split].
  - eexists. split; [rewrite Hu; apply in_or_app; right; left; reflexivity|].
    simpl. auto.
  - intros u Hin. rewrite Hu. apply in_or_app. now left.
  - unfold student_body_valid in Hv.
    repeat (apply andb_prop in Hv as [Hv ?]).
    unfold createStudent.
    repeat match goal with Hx : JS.truthy _ = true |- _ => rewrite Hx; clear Hx end.
    simpl negb. simpl orb. cbv iota.
    destruct (0 <? _)%nat eqn:Hlen.
    { apply length_pos_cons, email_taken_select in Hlen. contradiction. }
    unfold insert_user, insert_student. cbv zeta. cbv iota.
    cbn [students_tbl]. rewrite Hst. reflexivity.
Qed.

Lemma createStudent_survives_profile_failure_witness :
  snd (@createStudent Sample.bcrypt 50 Sample.new_student Sample.db_no_profiles)
  = mkResponse 201
      (Created true "Student created successfully" 5
         (CreatedStudent.mk 5 "STU005" "Kim" "Lee" "kim@x.com")).
Proof.
  apply (@createStudent_survives_profile_failure Sample.bcrypt 50
           Sample.new_student Sample.db_no_profiles
           "Table 'students' doesn't exist").
  - reflexivity.
  - intros (u & Hu & He). simpl in Hu.
    repeat destruct Hu as [<-|Hu]; try discriminate; try contradiction.
  - reflexivity.
Defined.

(* ================================================================== *)
(** ** updateStudent on a taken email (C6) *)
(* ================================================================== *)

(** C6, as amended: when the payload's email is the email of an account
    with another identifier, updateStudent writes nothing at all and
    fails: with 409 Conflict when the payload carries firstName, lastName
    and email and [id] is a student account, with 400 when a required
    field is missing, and with 404 when no student account has [id]. *)
Theorem updateStudent_email_taken (id : nat) (b : StudentBody.t) (db : Db) :
  (exists u, In u (users_tbl db)
             /\ users.email u = JS.str (StudentBody.email b)
             /\ users.id u <> id) ->
  fst (updateStudent id b db) = db
  /\ (student_body_valid b = true -> student_row id db ->
      snd (updateStudent id b db) = email_in_use)
  /\ (student_body_valid b = false ->
      snd (updateStudent id b db) = student_fields_required)
  /\ (student_body_valid b = true -> ~ student_row id db ->
      snd (updateStudent id b db) = student_not_found).
Proof.
  intros (u & Hin & He & Hid).
  assert (select_users (fun u => (users.email u =? JS.str (StudentBody.email b))
                                 && negb (users.id u =? id)%nat) db <> [])
    as Hother.
  { apply (filter_not_nil _ _ u Hin). apply andb_true_intro. split.
    - now apply String.eqb_eq.
    - apply negb_true_iff. now apply Nat.eqb_neq. }
  apply length_pos_cons in Hother.
  unfold updateStudent, student_body_valid.
  rewrite <- !negb_andb.
  destruct (JS.truthy _ && JS.truthy _ && JS.truthy _); simpl negb; cbv iota.
  - destruct (List.length (select_users _ db) =? 0)%nat eqn:Hfound.
    + apply length_zero_nil in Hfound.
      repeat split; try discriminate.
      intros _ Hrow. apply student_row_select in Hrow. contradiction.
    + rewrite Hother. repeat split; try discriminate.
      intros _ Hrow. elim Hrow. apply student_row_select.
      intros Hnil. apply length_zero_nil in Hnil. congruence.
  - repeat split; discriminate.
Qed.

Lemma updateStudent_email_taken_witness :
  fst (updateStudent 3
         (StudentBody.mk (Some "Jo") (Some "Doe") (Some "admin@x.com")
                         None None None None None None)
         Sample.db)
  = Sample.db.
Proof.
  apply (updateStudent_email_taken 3
           (StudentBody.mk (Some "Jo") (Some "Doe") (Some "admin@x.com")
                           None None None None None None)
           Sample.db).
  exists Sample.admin. split; [simpl; auto|].
  split; [reflexivity|simpl; lia].
Defined.

(** C6 as stated fails when [id] is no student account: the email belongs
    to another account, yet the answer is the 404, not the 409. *)
Lemma updateStudent_conflict_counterexample :
  let b := StudentBody.mk (Some "Jo") (Some "Doe") (Some "admin@x.com")
                          None None None None None None in
  (exists u, In u (users_tbl Sample.db)
             /\ users.email u = JS.str (StudentBody.email b)
             /\ users.id u <> 99)
  /\ updateStudent 99 b Sample.db = (Sample.db, student_not_found)
  /\ snd (updateStudent 99 b Sample.db) <> email_in_use.
Proof.
  split; [|split].
  - exists Sample.admin. split; [simpl; auto|].
    split; [reflexivity|simpl; lia].
  - reflexivity.
  - discriminate.
Qed.

(* ================================================================== *)
(** ** deleteStudent (C5) *)
(* ================================================================== *)

Lemma map_update_idem {A : Type} (p : A -> bool) (set : A -> A) (l : list A) :
  (forall a, p (set a) = p a) ->
  (forall a, set (set a) = set a) ->
  map (fun a => if p a then set a else a)
      (map (fun a => if p a then set a else a) l)
  = map (fun a => if p a then set a else a) l.
Proof.
  intros Hp Hset. rewrite map_map. apply map_ext. intros a.
  destruct (p a) eqn:Ha; [|now rewrite Ha].
  now rewrite Hp, Ha, Hset.
Qed.

Lemma map_update_keeps {A B : Type} (f : A -> B) (p : A -> bool) (set : A -> A)
    (l : list A) :
  (forall a, f (set a) = f a) ->
  map f (map (fun a => if p a then set a else a) l) = map f l.
Proof.
  intros Hf. rewrite map_map. apply map_ext. intros a.
  destruct (p a); auto.
Qed.

Lemma student_check_found (id : nat) (db : Db) :
  student_row id db ->
  (List.length (select_users (users.is_student id) db) =? 0)%nat = false.
Proof.
  intros Hrow. apply student_row_select in Hrow.
  destruct (_ =? 0)%nat eqn:E; [|reflexivity].
  apply length_zero_nil in E. contradiction.
Qed.

Lemma student_check_missing (id : nat) (db : Db) :
  ~ student_row id db ->
  (List.length (select_users (users.is_student id) db) =? 0)%nat = true.
Proof.
  intros Hrow. apply length_zero_nil.
  destruct (select_users _ db) eqn:E; [reflexivity|].
  elim Hrow. apply student_row_select. congruence.
Qed.

(** The database deleteStudent leaves when the student row exists. *)
Lemma deleteStudent_found (id : nat) (db : Db) :
  student_row id db ->
  deleteStudent id db
  = (mkDb (map (fun u => if users.is_student id u
                         then users.set_is_active false u else u)
               (users_tbl db))
          (users_auto_increment db)
          (match students_tbl db with
           | Ok rows =>
               Ok (map (fun s => if students.of_user id s
                                 then students.set_is_active false s else s)
                       rows)
           | Err message => Err message
           end)
          (students_auto_increment db) (classes_tbl db),
     mkResponse 200 (Message true "Student deleted successfully")).
Proof.
  intros Hrow. unfold deleteStudent. rewrite (student_check_found id db Hrow).
  unfold update_students, update_users. cbn [students_tbl].
  destruct (students_tbl db); reflexivity.
Qed.

(** deleteStudent answers 404 exactly when no student account has the
    identifier. *)
Lemma deleteStudent_not_found_iff (id : nat) (db : Db) :
  snd (deleteStudent id db) = student_not_found <-> ~ student_row id db.
Proof.
  split.
  - intros H404 Hrow. rewrite (deleteStudent_found id db Hrow) in H404.
    discriminate.
  - intros Hrow. unfold deleteStudent.
    now rewrite (student_check_missing id db Hrow).
Qed.

(** A student row stays a student row across a deletion. *)
Lemma deleteStudent_keeps_row (id id' : nat) (db : Db) :
  student_row id db ->
  student_row id' db -> student_row id' (fst (deleteStudent id db)).
Proof.
  intros Hrow (u & Hin & Hid & Hrole).
  rewrite (deleteStudent_found id db Hrow). cbn [fst].
  exists (if users.is_student id u then users.set_is_active false u else u).
  split.
  - cbn [users_tbl].
    apply (in_map (fun u => if users.is_student id u
                            then users.set_is_active false u else u)).
    exact Hin.
  - destruct (users.is_student id u); auto.
Qed.

(** After a deletion every student row of the identifier is inactive. *)
Lemma deleteStudent_deactivates (id : nat) (db : Db) :
  student_row id db ->
  forall u, In u (users_tbl (fst (deleteStudent id db))) -> users.id u = id ->
            users.role u = "student" -> users.is_active u = false.
Proof.
  intros Hrow u Hin Hid Hrole.
  rewrite (deleteStudent_found id db Hrow) in Hin. cbn [fst users_tbl] in Hin.
  apply in_map_iff in Hin as (u0 & Hu0 & _).
  destruct (users.is_student id u0) eqn:Hp; [now subst u|].
  subst u0. unfold users.is_student in Hp.
  rewrite Hid, Hrole, Nat.eqb_refl in Hp. discriminate.
Qed.

(** A deletion removes no profile row and leaves the classes alone. *)
Lemma deleteStudent_tables (id : nat) (db : Db) :
  student_row id db ->
  classes_tbl (fst (deleteStudent id db)) = classes_tbl db
  /\ match students_tbl db with
     | Ok rows =>
         exists rows', students_tbl (fst (deleteStudent id db)) = Ok rows'
                       /\ map students.id rows' = map students.id rows
     | Err message => students_tbl (fst (deleteStudent id db)) = Err message
     end.
Proof.
  intros Hrow. rewrite (deleteStudent_found id db Hrow).
  cbn [fst classes_tbl students_tbl]. split; [reflexivity|].
  destruct (students_tbl db) as [rows|message]; [|reflexivity].
  eexists. split; [reflexivity|]. now apply map_update_keeps.
Qed.

(** C5: when a student account with the identifier exists, active or not,
    deleteStudent answers 200, removes no account row and no profile row,
    leaves every student row of that identifier inactive, and a second
    call again answers 200 and changes nothing; so the 404 is not the
    answer for a row that exists but is inactive. *)
Theorem deleteStudent_idempotent (id : nat) (db : Db) :
  student_row id db ->
  let db1 := fst (deleteStudent id db) in
  let deleted := mkResponse 200 (Message true "Student deleted successfully") in
  snd (deleteStudent id db) = deleted
  /\ map users.id (users_tbl db1) = map users.id (users_tbl db)
  /\ (forall u, In u (users_tbl db1) -> users.id u = id ->
                users.role u = "student" -> users.is_active u = false)
  /\ deleteStudent id db1 = (db1, deleted)
  /\ match students_tbl db with
     | Ok rows => exists rows', students_tbl db1 = Ok rows'
                                /\ map students.id rows' = map students.id rows
     | Err message => students_tbl db1 = Err message
     end.
Proof.
  intros Hrow db1 deleted.
  pose proof (deleteStudent_keeps_row id id db Hrow Hrow) as Hrow1.
  fold db1 in Hrow1.
  split; [now rewrite (deleteStudent_found id db Hrow)|].
  split; [|split; [|split]].
  - subst db1. rewrite (deleteStudent_found id db Hrow). cbn [fst users_tbl].
    now apply map_update_keeps.
  - exact (deleteStudent_deactivates id db Hrow).
  - rewrite (deleteStudent_found id db1 Hrow1).
    subst db1. rewrite (deleteStudent_found id db Hrow). cbn [fst].
    cbn [users_tbl users_auto_increment students_tbl students_auto_increment
         classes_tbl].
    f_equal. f_equal.
    + now apply map_update_idem.
    + destruct (students_tbl db); [|reflexivity].
      f_equal. now apply map_update_idem.
  - exact (proj2 (deleteStudent_tables id db Hrow)).
Qed.

(** The witness is the soft-deleted account of the sample data: deleting
    it again is a success. *)
Lemma deleteStudent_idempotent_witness :
  snd (deleteStudent 4 Sample.db)
  = mkResponse 200 (Message true "Student deleted successfully").
Proof.
  apply (deleteStudent_idempotent 4 Sample.db).
  exists Sample.gone. split; [simpl; auto|split; reflexivity].
Defined.

(* ================================================================== *)
(** ** The two read queries (C7) *)
(* ================================================================== *)

Lemma left_join_fst {A B : Type} (on : A -> B -> bool) (l : list A)
    (r : list B) (x : A * option B) :
  In x (left_join on l r) -> In (fst x) l.
Proof.
  unfold left_join. intros Hin. apply in_flat_map in Hin as (a & Ha & Hx).
  destruct (filter (on a) r) as [|b m].
  - destruct Hx as [<-|[]]. exact Ha.
  - apply in_map_iff in Hx as (b' & <- & _). exact Ha.
Qed.

Lemma left_join_covers {A B : Type} (on : A -> B -> bool) (l : list A)
    (r : list B) (a : A) :
  In a l -> exists ob, In (a, ob) (left_join on l r).
Proof.
  intros Ha. unfold left_join.
  destruct (filter (on a) r) as [|b m] eqn:Hf.
  - exists None. apply in_flat_map. exists a. split; [exact Ha|].
    rewrite Hf. now left.
  - exists (Some b). apply in_flat_map. exists a. split; [exact Ha|].
    rewrite Hf. now left.
Qed.

Lemma insert_desc_In {A : Type} (key : A -> nat) (x y : A) (l : list A) :
  In x (insert_desc key y l) <-> x = y \/ In x l.
Proof.
  induction l as [|z l IH]; simpl.
  - intuition.
  - destruct (key z <? key y)%nat; simpl; [intuition|].
    rewrite IH. intuition.
Qed.

Lemma order_by_desc_In {A : Type} (key : A -> nat) (x : A) (l : list A) :
  In x (order_by_desc key l) <-> In x l.
Proof.
  induction l as [|y l IH]; simpl; [reflexivity|].
  rewrite insert_desc_In, IH. intuition.
Qed.

(** The rows of the join are the accounts, each at least once. *)
Lemma students_join_rows (db : Db) (ss : list students.row)
    (cs : list classes.row) :
  students_tbl db = Ok ss -> classes_tbl db = Ok cs ->
  exists rows,
    students_join db = Ok rows
    /\ (forall r, In r rows -> In (fst (fst r)) (users_tbl db))
    /\ (forall u, In u (users_tbl db) -> exists s c, In ((u, s), c) rows).
Proof.
  intros Hs Hc. unfold students_join. rewrite Hs, Hc. cbn [bind].
  eexists. split; [reflexivity|]. split.
  - intros r Hr. apply left_join_fst in Hr. now apply left_join_fst in Hr.
  - intros u Hu.
    destruct (left_join_covers
                (fun u s => (users.id u =? students.user_id s)%nat)
                (users_tbl db) ss u Hu) as [s Hs1].
    match goal with
    | |- context [left_join ?on ?l cs] =>
        destruct (left_join_covers on l cs (u, s) Hs1) as [c Hc1]
    end.
    now exists s, c.
Qed.

Lemma student_view_account (r : joined) :
  StudentView.id (student_view r) = users.id (fst (fst r))
  /\ StudentView.email (student_view r) = users.email (fst (fst r))
  /\ StudentView.is_active (student_view r) = users.is_active (fst (fst r)).
Proof.
  destruct r as [[u s] c]. repeat split.
Qed.

(** What listActiveStudents returns: views of the active student
    accounts, and of all of them. *)
Lemma listActiveStudents_rows (db : Db) (ss : list students.row)
    (cs : list classes.row) :
  students_tbl db = Ok ss -> classes_tbl db = Ok cs ->
  exists rows,
    listActiveStudents db = mkResponse 200 (StudentList rows)
    /\ (forall v, In v rows ->
          StudentView.is_active v = true
          /\ exists u, In u (users_tbl db)
                       /\ users.id u = StudentView.id v
                       /\ users.role u = "student"
                       /\ users.is_active u = true)
    /\ (forall u, In u (users_tbl db) -> users.role u = "student" ->
                  users.is_active u = true ->
                  exists v, In v rows /\ StudentView.id v = users.id u).
Proof.
  intros Hs Hc.
  destruct (students_join_rows db ss cs Hs Hc) as (rows & Hj & Hfst & Hcov).
  unfold listActiveStudents. rewrite Hj. cbn [bind catch].
  eexists. split; [reflexivity|]. split.
  - intros v Hv. apply in_map_iff in Hv as (r & <- & Hr).
    apply order_by_desc_In in Hr. apply filter_In in Hr as [Hr Hp].
    apply andb_prop in Hp as [Hrole Hact]. apply String.eqb_eq in Hrole.
    destruct (student_view_account r) as (Eid & _ & Eact).
    rewrite Eact, Eid. split; [exact Hact|].
    exists (fst (fst r)). auto.
  - intros u Hu Hrole Hact. destruct (Hcov u Hu) as (s & c & Hr).
    exists (student_view ((u, s), c)). split.
    + apply in_map. apply order_by_desc_In. apply filter_In.
      split; [exact Hr|]. cbn [fst]. rewrite Hact, Hrole. reflexivity.
    + apply (student_view_account ((u, s), c)).
Qed.

(** What getStudent returns: a view of a student account with the
    identifier, whatever its active flag. *)
Lemma getStudent_row (id : nat) (db : Db) (ss : list students.row)
    (cs : list classes.row) :
  students_tbl db = Ok ss -> classes_tbl db = Ok cs ->
  student_row id db ->
  exists v u,
    getStudent id db = mkResponse 200 (Student v)
    /\ In u (users_tbl db) /\ users.id u = id /\ users.role u = "student"
    /\ StudentView.id v = id
    /\ StudentView.email v = users.email u
    /\ StudentView.is_active v = users.is_active u.
Proof.
  intros Hs Hc (u & Hu & Hid & Hrole).
  destruct (students_join_rows db ss cs Hs Hc) as (rows & Hj & Hfst & Hcov).
  unfold getStudent. rewrite Hj. cbn [bind catch].
  destruct (Hcov u Hu) as (s & c & Hr).
  destruct (filter (fun r : joined =>
                      (users.id (fst (fst r)) =? id)%nat
                      && (users.role (fst (fst r)) =? "student")) rows)
    as [|r0 rest] eqn:Hf.
  - exfalso. apply (filter_not_nil _ _ _ Hr) in Hf; [exact Hf|].
    cbn [fst]. rewrite Hid, Hrole, Nat.eqb_refl. reflexivity.
  - assert (In r0 (r0 :: rest)) as Hin by now left.
    rewrite <- Hf in Hin. apply filter_In in Hin as [Hin Hp].
    apply andb_prop in Hp as [Hid0 Hrole0].
    apply Nat.eqb_eq in Hid0. apply String.eqb_eq in Hrole0.
    destruct (student_view_account r0) as (Eid & Eem & Eact).
    exists (student_view r0), (fst (fst r0)). cbn [map].
    repeat split; auto. congruence.
Qed.


(** C7: with the three tables readable, listActiveStudents answers with
    views of exactly the accounts that have role student and are active
    (never an inactive one), while getStudent answers with the student
    account of the identifier whatever its active flag; after
    deleteStudent the account is still returned by getStudent, now
    inactive, and is no longer in the list. *)
Theorem read_filters_asymmetric (db : Db) (ss : list students.row)
    (cs : list classes.row) :
  students_tbl db = Ok ss -> classes_tbl db = Ok cs ->
  (exists rows,
      listActiveStudents db = mkResponse 200 (StudentList rows)
      /\ (forall v, In v rows ->
            StudentView.is_active v = true
            /\ exists u, In u (users_tbl db)
                         /\ users.id u = StudentView.id v
                         /\ users.role u = "student"
                         /\ users.is_active u = true)
      /\ (forall u, In u (users_tbl db) -> users.role u = "student" ->
                    users.is_active u = true ->
                    exists v, In v rows /\ StudentView.id v = users.id u))
  /\ (forall id, student_row id db ->
        exists v u,
          getStudent id db = mkResponse 200 (Student v)
          /\ In u (users_tbl db) /\ users.id u = id
          /\ users.role u = "student"
          /\ StudentView.id v = id
          /\ StudentView.email v = users.email u
          /\ StudentView.is_active v = users.is_active u)
  /\ (forall id, student_row id db ->
        let db' := fst (deleteStudent id db) in
        (exists v, getStudent id db' = mkResponse 200 (Student v)
                   /\ StudentView.id v = id
                   /\ StudentView.is_active v = false)
        /\ (exists rows,
              listActiveStudents db' = mkResponse 200 (StudentList rows)
              /\ forall v, In v rows -> StudentView.id v <> id)).
Proof.
  intros Hs Hc. split; [|split].
  - exact (listActiveStudents_rows db ss cs Hs Hc).
  - intros id Hrow. exact (getStudent_row id db ss cs Hs Hc Hrow).
  - intros id Hrow db'.
    pose proof (deleteStudent_deactivates id db Hrow) as Hinactive.
    destruct (deleteStudent_tables id db Hrow) as [Hc' Hst].
    fold db' in Hinactive, Hst, Hc'. rewrite Hs in Hst. rewrite Hc in Hc'.
    destruct Hst as (ss' & Hs' & _).
    pose proof (deleteStudent_keeps_row id id db Hrow Hrow) as Hrow'.
    fold db' in Hrow'. split.
    + destruct (getStudent_row id db' ss' cs Hs' Hc' Hrow')
        as (v & u & Hget & Hu & Hid & Hrole & Hvid & _ & Hvact).
      exists v. repeat split; auto.
      rewrite Hvact. now apply Hinactive.
    + destruct (listActiveStudents_rows db' ss' cs Hs' Hc')
        as (rows & Hlist & Hrows & _).
      exists rows. split; [exact Hlist|].
      intros v Hv Hvid. destruct (Hrows v Hv) as (_ & u & Hu & Hid & Hrole & Hact).
      rewrite (Hinactive u Hu) in Hact; congruence.
Qed.

Lemma read_filters_asymmetric_witness :
  exists v u,
    getStudent 4 Sample.db = mkResponse 200 (Student v)
    /\ In u (users_tbl Sample.db) /\ users.id u = 4
    /\ users.role u = "student"
    /\ StudentView.id v = 4
    /\ StudentView.email v = users.email u
    /\ StudentView.is_active v = users.is_active u.
Proof.
  apply (read_filters_asymmetric Sample.db [Sample.jo_profile] [Sample.class_5A]
           eq_refl eq_refl).
  exists Sample.gone. split; [simpl; auto|split; reflexivity].
Defined.

(* ================================================================== *)
(** ** updateStudent's second step (C10) *)
(* ================================================================== *)

Lemma find_class_id_resolved (grade section : JS.field) (db : Db)
    (cs : list classes.row) :
  classes_tbl db = Ok cs ->
  find_class_id grade section db = Ok (resolved_class grade section cs).
Proof.
  intros Hc. unfold find_class_id, resolved_class, select_class.
  destruct (JS.truthy grade && JS.truthy section); [|reflexivity].
  rewrite Hc. cbn [bind]. rewrite <- filter_hd_find.
  destruct (filter _ cs); reflexivity.
Qed.

Lemma resolved_class_none (grade section : JS.field) (cs : list classes.row) :
  JS.truthy grade = false \/ JS.truthy section = false
  \/ (forall c, In c cs -> classes.grade c = JS.str grade ->
                classes.section c = JS.str section ->
                classes.is_active c = false) ->
  resolved_class grade section cs = None.
Proof.
  unfold resolved_class. intros [Hg|[Hs|Hnone]].
  - now rewrite Hg.
  - rewrite Hs. now rewrite andb_false_r.
  - destruct (JS.truthy grade && JS.truthy section); [|reflexivity].
    destruct (find _ cs) as [c|] eqn:Hf; [|reflexivity].
    apply find_some in Hf as [Hin Hp].
    apply andb_prop in Hp as [Hp Hact]. apply andb_prop in Hp as [Hg Hs].
    apply String.eqb_eq in Hg. apply String.eqb_eq in Hs.
    rewrite (Hnone c Hin Hg Hs) in Hact. discriminate.
Qed.

Lemma or_null_falsy (x : JS.field) : JS.truthy x = false -> JS.or_null x = None.
Proof.
  unfold JS.or_null. now intros ->.
Qed.

(** The database a successful updateStudent leaves. *)
Lemma updateStudent_success (id : nat) (b : StudentBody.t) (db : Db) :
  status (snd (updateStudent id b db)) = 200 ->
  let db1 :=
    update_users (users.is_student id)
      (users.set_account (JS.str (StudentBody.firstName b))
         (JS.str (StudentBody.lastName b)) (JS.str (StudentBody.email b))
         (JS.or_null (StudentBody.phone b))
         (JS.not_false (StudentBody.isActive b))) db in
  updateStudent id b db
  = (catch (update_profile id b db1) (fun _ => db1),
     mkResponse 200 (Message true "Student updated successfully")).
Proof.
  unfold updateStudent.
  destruct (_ || _); [discriminate|].
  destruct (_ =? 0)%nat; [discriminate|].
  destruct (0 <? _)%nat; [discriminate|]. reflexivity.
Qed.

(** C10: when updateStudent succeeds and the profile and class tables are
    readable, every profile row of the account gets its roll number,
    class link and parent name overwritten with the values derived from
    the request: an absent (or empty) rollNo or parentName stores NULL,
    and the class link is NULL whenever grade or section is missing or no
    active class matches; whatever these columns held before is lost. *)
Theorem updateStudent_overwrites_profile (id : nat) (b : StudentBody.t)
    (db : Db) (ss : list students.row) (cs : list classes.row) :
  status (snd (updateStudent id b db)) = 200 ->
  students_tbl db = Ok ss -> classes_tbl db = Ok cs ->
  let rollNo := StudentBody.rollNo b in
  let parentName := StudentBody.parentName b in
  let grade := StudentBody.grade b in
  let section := StudentBody.section b in
  let classId := resolved_class grade section cs in
  exists ss',
    students_tbl (fst (updateStudent id b db)) = Ok ss'
    /\ map students.id ss' = map students.id ss
    /\ (forall s, In s ss -> students.user_id s = id ->
          In (students.set_profile (JS.or_null rollNo) classId
                (JS.or_null parentName) s) ss')
    /\ (forall s', In s' ss' -> students.user_id s' = id ->
          students.roll_number s' = JS.or_null rollNo
          /\ students.class_id s' = classId
          /\ students.parent_name s' = JS.or_null parentName
          /\ (JS.truthy rollNo = false -> students.roll_number s' = None)
          /\ (JS.truthy parentName = false -> students.parent_name s' = None)
          /\ (JS.truthy grade = false \/ JS.truthy section = false
              \/ (forall c, In c cs -> classes.grade c = JS.str grade ->
                            classes.section c = JS.str section ->
                            classes.is_active c = false) ->
              students.class_id s' = None)).
Proof.
  intros Hok Hs Hc rollNo parentName grade section classId.
  rewrite (updateStudent_success id b db Hok). cbn [fst].
  unfold update_profile.
  rewrite (find_class_id_resolved _ _ _ cs) by exact Hc.
  cbn [bind]. unfold update_students, update_users.
  cbn [students_tbl]. rewrite Hs. cbn [bind catch students_tbl].
  fold rollNo parentName grade section classId.
  eexists. split; [reflexivity|]. split; [|split].
  - now apply map_update_keeps.
  - intros s Hin Hid.
    apply in_map_iff. exists s. split; [|exact Hin].
    unfold students.of_user. rewrite Hid, Nat.eqb_refl. reflexivity.
  - intros s' Hin Hid.
    apply in_map_iff in Hin as (s & Hs' & _).
    assert (s' = students.set_profile (JS.or_null rollNo) classId
                   (JS.or_null parentName) s) as ->.
    { destruct (students.of_user id s) eqn:Hp; [now subst s'|].
      subst s'. unfold students.of_user in Hp.
      rewrite Hid, Nat.eqb_refl in Hp. discriminate. }
    cbn [students.set_profile students.roll_number students.class_id
         students.parent_name].
    repeat split.
    + apply or_null_falsy.
    + apply or_null_falsy.
    + apply resolved_class_none.
Qed.

(** When the class lookup of the second step is rejected, the profile
    update is skipped and the profile rows stay as they were. *)
Lemma updateStudent_class_lookup_rejected (id : nat) (b : StudentBody.t)
    (db : Db) (message : string) :
  status (snd (updateStudent id b db)) = 200 ->
  classes_tbl db = Err message ->
  JS.truthy (StudentBody.grade b) = true ->
  JS.truthy (StudentBody.section b) = true ->
  students_tbl (fst (updateStudent id b db)) = students_tbl db.
Proof.
  intros Hok Hc Hg Hsec.
  rewrite (updateStudent_success id b db Hok). cbn [fst].
  unfold update_profile, find_class_id, select_class.
  rewrite Hg, Hsec. cbn [andb update_users classes_tbl]. rewrite Hc.
  reflexivity.
Qed.

Lemma updateStudent_overwrites_profile_witness :
  exists ss',
    students_tbl
      (fst (updateStudent 3
              (StudentBody.mk (Some "Jo") (Some "Doe") (Some "jo@x.com")
                              None None None None None None)
              Sample.db)) = Ok ss'
    /\ map students.id ss' = map students.id [Sample.jo_profile]
    /\ (forall s, In s [Sample.jo_profile] -> students.user_id s = 3 ->
          In (students.set_profile None None None s) ss')
    /\ (forall s', In s' ss' -> students.user_id s' = 3 ->
          students.roll_number s' = None
          /\ students.class_id s' = None
          /\ students.parent_name s' = None
          /\ (false = false -> students.roll_number s' = None)
          /\ (false = false -> students.parent_name s' = None)
          /\ (false = false \/ false = false
              \/ (forall c, In c [Sample.class_5A] -> classes.grade c = "" ->
                            classes.section c = "" ->
                            classes.is_active c = false) ->
              students.class_id s' = None)).
Proof.
  apply (updateStudent_overwrites_profile 3
           (StudentBody.mk (Some "Jo") (Some "Doe") (Some "jo@x.com")
                           None None None None None None)
           Sample.db [Sample.jo_profile] [Sample.class_5A]);
    reflexivity.
Defined.

(* ================================================================== *)
(** ** The handlers on the sample data *)
(* ================================================================== *)

Example studentId_of_7 : studentId_of 7 = "STU007".
Proof. reflexivity. Qed.

Example studentId_of_1234 : studentId_of 1234 = "STU1234".
Proof. reflexivity. Qed.

Example fallback_student_id_1234 : fallback_student_id 1234 = "STU123".
Proof. reflexivity. Qed.

Example split_bearer : JS.split " " "Bearer abc.def" = ["Bearer"; "abc.def"].
Proof. reflexivity. Qed.

Example header_without_scheme :
  @authenticateToken Sample.jwt_ Sample.env (Some "good.token")
  = Respond (mkResponse 401 (Message false "Access token required")).
Proof. reflexivity. Qed.

Example list_sample :
  exists v, listActiveStudents Sample.db = mkResponse 200 (StudentList [v])
            /\ StudentView.id v = 3
            /\ StudentView.student_id v = "STU003"
            /\ StudentView.class_name v = Some "Grade 5 A".
Proof. eexists. repeat split. Qed.

Example get_deleted_sample :
  exists v, getStudent 4 Sample.db = mkResponse 200 (Student v)
            /\ StudentView.is_active v = false
            /\ StudentView.student_id v = "STU004".
Proof. eexists. repeat split. Qed.

Example update_clears_profile :
  students_tbl
    (fst (updateStudent 3
            (StudentBody.mk (Some "Jo") (Some "Doe") (Some "jo@x.com")
                            None None None None None None)
            Sample.db))
  = Ok [students.mk 1 3 (Some "STU003") None None None None None (Some 30)
                    None true].
Proof. reflexivity. Qed.

Example create_links_class :
  students_tbl (fst (@createStudent Sample.bcrypt 50 Sample.new_student Sample.db))
  = Ok [Sample.jo_profile;
        students.mk 2 5 (Some "STU005") None (Some 1) None None None (Some 50)
                    None true].
Proof. reflexivity. Qed.

Example login_hashed_sample :
  status (@login Sample.bcrypt Sample.jwt_ Sample.env
            (LoginBody.mk (Some "admin@x.com") (JS.Str "root")) Sample.db) = 200.
Proof. reflexivity. Qed.

Example register_twice :
  let '(db1, r1) :=
    @register Sample.bcrypt Sample.jwt_ Sample.env 1 Sample.new_account
              Sample.fresh in
  status r1 = 201
  /\ @register Sample.bcrypt Sample.jwt_ Sample.env 2 Sample.new_account db1
     = (db1, email_exists).
Proof. split; reflexivity. Qed.

(* ================================================================== *)
(** ** Error responses write nothing *)
(* ================================================================== *)

(** X1: whatever the request, when the answer carries an error status
    (400 and above) the database is exactly what it was before. *)
Theorem error_response_leaves_database {bc : Bcrypt} {jw : Jwt} {en : Env}
    (rq : Request) (db : Db) :
  400 <= status (snd (handle rq db)) ->
  fst (handle rq db) = db.
Proof.
  destruct rq as [b|now b| |now b|id b|id|id|now]; cbn [handle fst snd];
    try reflexivity.
  - unfold register.
    destruct (_ || _); [reflexivity|].
    destruct (0 <? _)%nat; [reflexivity|].
    unfold insert_user. cbn [fst snd status]. lia.
  - unfold createStudent.
    destruct (_ || _); [reflexivity|].
    destruct (0 <? _)%nat; [reflexivity|].
    unfold insert_user. cbn [fst snd status]. lia.
  - unfold updateStudent.
    destruct (_ || _); [reflexivity|].
    destruct (_ =? 0)%nat; [reflexivity|].
    destruct (0 <? _)%nat; [reflexivity|].
    cbn [fst snd status]. lia.
  - unfold deleteStudent.
    destruct (_ =? 0)%nat; [reflexivity|].
    cbn [fst snd status]. lia.
  - unfold createTestStudent.
    destruct (select_users _ db); [|reflexivity].
    unfold insert_user. cbn [fst snd status]. lia.
Qed.

Lemma error_response_leaves_database_witness :
  fst (@handle Sample.bcrypt Sample.jwt_ Sample.env (DeleteStudent 1) Sample.db)
  = Sample.db.
Proof.
  apply (@error_response_leaves_database Sample.bcrypt Sample.jwt_ Sample.env
           (DeleteStudent 1) Sample.db).
  simpl. lia.
Defined.

(* ================================================================== *)
(** ** Accounts that were just created can log in *)
(* ================================================================== *)

Lemma find_none_iff {A : Type} (p : A -> bool) (l : list A) :
  find p l = None <-> forall x, In x l -> p x = false.
Proof.
  rewrite <- filter_hd_find, <- filter_nil_iff.
  destruct (filter p l); simpl; split; congruence.
Qed.

Lemma find_last {A : Type} (p : A -> bool) (l : list A) (x : A) :
  (forall y, In y l -> p y = false) -> p x = true ->
  find p (l ++ [x]) = Some x.
Proof.
  intros Hl Hx. induction l as [|a l IH]; simpl.
  - now rewrite Hx.
  - rewrite (Hl a (or_introl eq_refl)). apply IH.
    intros y Hy. apply Hl. now right.
Qed.

Lemma not_taken_no_match (e : string) (db : Db) :
  ~ email_taken e db ->
  forall u, In u (users_tbl db) ->
            (users.email u =? e) && users.is_active u = false.
Proof.
  intros Hfresh u Hu. destruct (users.email u =? e) eqn:E; [|reflexivity].
  apply String.eqb_eq in E. elim Hfresh. now exists u.
Qed.

(** What a successful register writes and answers. *)
Lemma register_success {bc : Bcrypt} {jw : Jwt} {en : Env}
    (now : nat) (b : RegisterBody.t) (db : Db) :
  register_body_valid b = true ->
  ~ email_taken (JS.str (RegisterBody.email b)) db ->
  let userId := users_auto_increment db in
  let email := JS.str (RegisterBody.email b) in
  let role := JS.str (RegisterBody.role b) in
  register now b db
  = (mkDb (users_tbl db
           ++ [users.mk userId email
                 (bcrypt_hash (JS.str (RegisterBody.password b)) 12) role
                 (JS.str (RegisterBody.firstName b))
                 (JS.str (RegisterBody.lastName b))
                 (JS.or_null (RegisterBody.phone b)) true now])%list
          (S userId) (students_tbl db) (students_auto_increment db)
          (classes_tbl db),
     mkResponse 201
       (Auth true "Registration successful!"
          (jwt_sign (jwt.mk userId email role) secret "24h")
          (AuthUser.mk userId email role (JS.str (RegisterBody.firstName b))
                       (JS.str (RegisterBody.lastName b))))).
Proof.
  unfold register_body_valid. intros Hv Hfresh.
  repeat (apply andb_prop in Hv as [Hv ?]).
  unfold register.
  repeat match goal with Hx : JS.truthy _ = true |- _ => rewrite Hx; clear Hx end.
  simpl negb. simpl orb. cbv iota.
  destruct (0 <? _)%nat eqn:Hlen.
  { apply length_pos_cons, email_taken_select in Hlen. contradiction. }
  reflexivity.
Qed.

(** X2: after a successful register (complete body, fresh email), and
    with a bcrypt whose digests carry the ['$2'] marker and verify, the
    account is stored with the digest, never the password itself, and a
    login with the same email and password answers 200 with the same
    token payload and user object as the registration. *)
Theorem register_then_login {bc : Bcrypt} {jw : Jwt} {en : Env}
    (now : nat) (b : RegisterBody.t) (db : Db) :
  bcrypt_lawful ->
  register_body_valid b = true ->
  ~ email_taken (JS.str (RegisterBody.email b)) db ->
  let db1 := fst (register now b db) in
  let userId := users_auto_increment db in
  let email := JS.str (RegisterBody.email b) in
  let role := JS.str (RegisterBody.role b) in
  let token := jwt_sign (jwt.mk userId email role) secret "24h" in
  let user := AuthUser.mk userId email role (JS.str (RegisterBody.firstName b))
                          (JS.str (RegisterBody.lastName b)) in
  snd (register now b db)
  = mkResponse 201 (Auth true "Registration successful!" token user)
  /\ login_account email db1
     = Some (users.mk userId email
               (bcrypt_hash (JS.str (RegisterBody.password b)) 12) role
               (JS.str (RegisterBody.firstName b))
               (JS.str (RegisterBody.lastName b))
               (JS.or_null (RegisterBody.phone b)) true now)
  /\ login (LoginBody.mk (RegisterBody.email b)
                          (JS.of_field (RegisterBody.password b))) db1
     = mkResponse 200 (Auth true "Login successful" token user).
Proof.
  intros Hlaw Hv Hfresh db1 userId email role token user.
  assert (login_account email db1
          = Some (users.mk userId email
                    (bcrypt_hash (JS.str (RegisterBody.password b)) 12) role
                    (JS.str (RegisterBody.firstName b))
                    (JS.str (RegisterBody.lastName b))
                    (JS.or_null (RegisterBody.phone b)) true now)) as Hacc.
  { subst db1. rewrite (register_success now b db Hv Hfresh).
    unfold login_account. cbn [fst users_tbl].
    apply find_last.
    - now apply not_taken_no_match.
    - cbn [users.email users.is_active]. fold email.
      now rewrite String.eqb_refl. }
  split; [now rewrite (register_success now b db Hv Hfresh)|].
  split; [exact Hacc|].
  unfold register_body_valid in Hv.
  repeat (apply andb_prop in Hv as [Hv ?]).
  assert (JS.of_field (RegisterBody.password b)
          = JS.Str (JS.str (RegisterBody.password b))) as Hpw.
  { destruct (RegisterBody.password b); [reflexivity|discriminate]. }
  rewrite login_present
    by (cbn [LoginBody.email LoginBody.password];
        rewrite ?truthy_of_field; assumption).
  cbn [LoginBody.email LoginBody.password]. fold email. rewrite Hacc, Hpw.
  cbn [users.password].
  unfold isPasswordValid.
  destruct (Hlaw (JS.str (RegisterBody.password b))) as [-> ->].
  reflexivity.
Qed.

Lemma register_then_login_witness :
  @login Sample.bcrypt Sample.jwt_ Sample.env
    (LoginBody.mk (Some "a@x.com") (JS.Str "pw"))
    (fst (@register Sample.bcrypt Sample.jwt_ Sample.env 7 Sample.new_account
            Sample.fresh))
  = mkResponse 200
      (Auth true "Login successful" "fallback-secret-key.a@x.com"
         (AuthUser.mk 1 "a@x.com" "student" "A" "B")).
Proof.
  apply (@register_then_login Sample.bcrypt Sample.jwt_ Sample.env 7
           Sample.new_account Sample.fresh).
  - intros password. split; [reflexivity|]. simpl.
    now rewrite String.eqb_refl.
  - reflexivity.
  - intros (u & Hu & _). exact Hu.
Defined.

(** X3: after a successful createStudent, a login with the student's
    email and the default password "student123" answers 200 for the new
    account when the body's isActive was not false, and the 401 of
    invalid credentials when the student was created inactive. *)
Theorem createStudent_then_login {bc : Bcrypt} {jw : Jwt} {en : Env}
    (now : nat) (b : StudentBody.t) (db : Db) :
  bcrypt_lawful ->
  student_body_valid b = true ->
  ~ email_taken (JS.str (StudentBody.email b)) db ->
  let db1 := fst (createStudent now b db) in
  let userId := users_auto_increment db in
  let email := JS.str (StudentBody.email b) in
  login (LoginBody.mk (StudentBody.email b) (JS.Str "student123")) db1
  = if JS.not_false (StudentBody.isActive b)
    then mkResponse 200
           (Auth true "Login successful"
              (jwt_sign (jwt.mk userId email "student") secret "24h")
              (AuthUser.mk userId email "student"
                 (JS.str (StudentBody.firstName b))
                 (JS.str (StudentBody.lastName b))))
    else invalid_credentials.
Proof.
  intros Hlaw Hv Hfresh db1 userId email.
  destruct (createStudent_users now b db Hv Hfresh) as (Hu & _ & _).
  fold db1 in Hu.
  unfold student_body_valid in Hv.
  repeat (apply andb_prop in Hv as [Hv ?]).
  rewrite login_present by (assumption || reflexivity).
  cbn [LoginBody.email LoginBody.password]. fold email.
  unfold login_account. rewrite Hu.
  destruct (JS.not_false (StudentBody.isActive b)) eqn:Hact.
  - rewrite find_last.
    + cbn [users.password].
      unfold isPasswordValid.
      destruct (Hlaw "student123") as [-> ->]. reflexivity.
    + now apply not_taken_no_match.
    + cbn [users.email users.is_active]. now rewrite String.eqb_refl.
  - match goal with
    | |- context [find ?p ?l] => assert (find p l = None) as ->; [|reflexivity]
    end.
    apply find_none_iff. intros u Hin.
    apply in_app_or in Hin as [Hin|[<-|[]]].
    + now apply (not_taken_no_match email db).
    + cbn [users.is_active]. apply andb_false_r.
Qed.

Lemma createStudent_then_login_witness :
  @login Sample.bcrypt Sample.jwt_ Sample.env
    (LoginBody.mk (Some "kim@x.com") (JS.Str "student123"))
    (fst (@createStudent Sample.bcrypt 50 Sample.new_student Sample.db))
  = mkResponse 200
      (Auth true "Login successful" "fallback-secret-key.kim@x.com"
         (AuthUser.mk 5 "kim@x.com" "student" "Kim" "Lee")).
Proof.
  apply (@createStudent_then_login Sample.bcrypt Sample.jwt_ Sample.env 50
           Sample.new_student Sample.db).
  - intros password. split; [reflexivity|]. simpl.
    now rewrite String.eqb_refl.
  - reflexivity.
  - intros (u & Hu & He). simpl in Hu.
    repeat destruct Hu as [<-|Hu]; try discriminate; try contradiction.
Defined.

(* ================================================================== *)
(** ** Deleting and updating one account *)
(* ================================================================== *)

Lemma NoDup_map_eq {A B : Type} (f : A -> B) (l : list A) (a b : A) :
  NoDup (map f l) -> In a l -> In b l -> f a = f b -> a = b.
Proof.
  induction l as [|x l IH]; simpl; intros Hnd Ha Hb Hf; [contradiction|].
  inversion Hnd as [|? ? Hx Hnd']; subst.
  destruct Ha as [<-|Ha], Hb as [<-|Hb]; auto.
  - elim Hx. rewrite Hf. now apply in_map.
  - elim Hx. rewrite <- Hf. now apply in_map.
Qed.

(** X4: once deleteStudent has answered for a student account, no login
    with that account's email succeeds, whatever the password (the emails
    being pairwise distinct). *)
Theorem deleteStudent_then_login_fails {bc : Bcrypt} {jw : Jwt} {en : Env}
    (db : Db) (u : users.row) (password : JS.value) :
  unique_emails db ->
  In u (users_tbl db) -> users.role u = "student" ->
  let db1 := fst (deleteStudent (users.id u) db) in
  login_account (users.email u) db1 = None
  /\ status (login (LoginBody.mk (Some (users.email u)) password) db1) <> 200
  /\ (JS.truthy (Some (users.email u)) = true ->
      JS.truthy_value password = true ->
      login (LoginBody.mk (Some (users.email u)) password) db1
      = invalid_credentials).
Proof.
  intros Hun Hu Hrole db1.
  assert (student_row (users.id u) db) as Hrow by (now exists u).
  assert (login_account (users.email u) db1 = None) as Hnone.
  { subst db1. rewrite (deleteStudent_found _ db Hrow).
    unfold login_account. cbn [fst users_tbl].
    apply find_none_iff. intros r Hr.
    apply in_map_iff in Hr as (r0 & <- & Hr0).
    destruct (users.email r0 =? users.email u) eqn:E.
    - apply String.eqb_eq in E.
      assert (r0 = u) as -> by (apply (NoDup_map_eq users.email _ _ _ Hun); auto).
      unfold users.is_student. rewrite Nat.eqb_refl, Hrole. simpl.
      now rewrite String.eqb_refl.
    - destruct (users.is_student (users.id u) r0); cbn [users.set_is_active users.email];
        now rewrite E. }
  split; [exact Hnone|].
  assert (forall pw, JS.truthy (Some (users.email u)) = true ->
                     JS.truthy_value pw = true ->
                     login (LoginBody.mk (Some (users.email u)) pw) db1
                     = invalid_credentials) as Hfail.
  { intros pw He Hp. rewrite login_present by assumption.
    cbn [LoginBody.email JS.str]. now rewrite Hnone. }
  split; [|apply Hfail].
  destruct (JS.truthy (Some (users.email u)) && JS.truthy_value password)
    eqn:Hboth.
  - apply andb_prop in Hboth as [He Hp].
    rewrite (Hfail password He Hp). discriminate.
  - rewrite login_missing by exact Hboth. discriminate.
Qed.

Lemma deleteStudent_then_login_fails_witness :
  login_account "jo@x.com" (fst (deleteStudent 3 Sample.db)) = None.
Proof.
  apply (@deleteStudent_then_login_fails Sample.bcrypt Sample.jwt_ Sample.env
           Sample.db Sample.jo (JS.Str "student123")).
  - unfold unique_emails. simpl.
    repeat constructor; simpl; intuition discriminate.
  - simpl. auto.
  - reflexivity.
Defined.

(** X5: deleteStudent touches nothing but its target: every account row
    that is not a student row of the identifier, and every profile row of
    another account, is in the store afterwards exactly as it was, no row
    is added, and the classes are left alone. *)
Theorem deleteStudent_spares_others (id : nat) (db : Db) :
  let db1 := fst (deleteStudent id db) in
  (forall u, In u (users_tbl db) -> users.is_student id u = false ->
             In u (users_tbl db1))
  /\ List.length (users_tbl db1) = List.length (users_tbl db)
  /\ users_auto_increment db1 = users_auto_increment db
  /\ classes_tbl db1 = classes_tbl db
  /\ match students_tbl db with
     | Ok ss =>
         exists ss', students_tbl db1 = Ok ss'
                     /\ List.length ss' = List.length ss
                     /\ forall s, In s ss -> students.user_id s <> id ->
                                  In s ss'
     | Err message => students_tbl db1 = Err message
     end.
Proof.
  intros db1. subst db1. unfold deleteStudent.
  destruct (_ =? 0)%nat.
  - cbn [fst]. repeat split; auto.
    destruct (students_tbl db) as [ss|message]; [|reflexivity].
    exists ss. auto.
  - cbn [fst]. unfold update_students, update_users. cbn [students_tbl].
    destruct (students_tbl db) as [ss|message];
      cbn [bind catch users_tbl users_auto_increment students_tbl classes_tbl].
    + repeat split.
      * intros u Hu Hp. apply in_map_iff. exists u. now rewrite Hp.
      * apply length_map.
      * eexists. split; [reflexivity|]. split; [apply length_map|].
        intros s Hs Hid. apply in_map_iff. exists s. split; [|exact Hs].
        unfold students.of_user.
        destruct (students.user_id s =? id)%nat eqn:E; [|reflexivity].
        apply Nat.eqb_eq in E. contradiction.
    + repeat split.
      * intros u Hu Hp. apply in_map_iff. exists u. now rewrite Hp.
      * apply length_map.
Qed.

(** X6: with pairwise distinct emails, a student account can be updated
    while keeping its own email: the email check does not count the row
    being updated, and the call answers 200. *)
Theorem updateStudent_keeps_own_email (b : StudentBody.t) (db : Db)
    (u : users.row) :
  unique_emails db ->
  In u (users_tbl db) -> users.role u = "student" ->
  student_body_valid b = true ->
  JS.str (StudentBody.email b) = users.email u ->
  snd (updateStudent (users.id u) b db)
  = mkResponse 200 (Message true "Student updated successfully").
Proof.
  intros Hun Hu Hrole Hv He.
  assert (student_row (users.id u) db) as Hrow by (now exists u).
  unfold student_body_valid in Hv.
  repeat (apply andb_prop in Hv as [Hv ?]).
  unfold updateStudent.
  repeat match goal with Hx : JS.truthy _ = true |- _ => rewrite Hx; clear Hx end.
  simpl negb. simpl orb. cbv iota.
  rewrite (student_check_found _ db Hrow).
  assert (select_users
            (fun r => (users.email r =? JS.str (StudentBody.email b))
                      && negb (users.id r =? users.id u)%nat) db = []) as ->.
  { apply select_users_nil. intros r Hr.
    destruct (users.email r =? JS.str (StudentBody.email b)) eqn:E;
      [|reflexivity].
    apply String.eqb_eq in E. rewrite He in E.
    assert (r = u) as -> by (apply (NoDup_map_eq users.email _ _ _ Hun); auto).
    now rewrite Nat.eqb_refl. }
  reflexivity.
Qed.

Lemma updateStudent_keeps_own_email_witness :
  snd (updateStudent 3
         (StudentBody.mk (Some "Joan") (Some "Doe") (Some "jo@x.com")
                         None None None None None None)
         Sample.db)
  = mkResponse 200 (Message true "Student updated successfully").
Proof.
  apply (updateStudent_keeps_own_email
           (StudentBody.mk (Some "Joan") (Some "Doe") (Some "jo@x.com")
                           None None None None None None)
           Sample.db Sample.jo).
  - unfold unique_emails. simpl.
    repeat constructor; simpl; intuition discriminate.
  - simpl. auto.
  - reflexivity.
  - reflexivity.
  - reflexivity.
Defined.

(** X7: the debug route creates the test student once: after any call a
    further call writes nothing and answers "Test student already exists"
    with the identifier the first call reported. *)
Theorem createTestStudent_once {bc : Bcrypt} (now now' : nat) (db : Db) :
  let db1 := fst (createTestStudent now db) in
  exists message id,
    snd (createTestStudent now db)
    = mkResponse 200 (TestStudent true message id)
    /\ createTestStudent now' db1
       = (db1, mkResponse 200 (TestStudent true "Test student already exists" id)).
Proof.
  intros db1. subst db1.
  destruct (select_users (fun u => users.email u =? "test.student@example.com")
                         db) as [|e rest] eqn:Hsel.
  - unfold createTestStudent. rewrite Hsel.
    unfold insert_user. cbn [fst snd].
    do 2 eexists. split; [reflexivity|].
    unfold select_users in *. cbn [users_tbl].
    rewrite filter_app, Hsel. reflexivity.
  - unfold createTestStudent. rewrite Hsel. cbn [fst snd].
    do 2 eexists. split; [reflexivity|]. now rewrite Hsel.
Qed.

(* ================================================================== *)
(** ** The student code identifies the account *)
(* ================================================================== *)

Lemma append_same_head (s x y : string) : s ++ x = s ++ y -> x = y.
Proof.
  induction s as [|c s IH]; simpl; intros E; [exact E|].
  injection E as E. now apply IH.
Qed.

Lemma parse_padded (k : nat) (cur : string) (d : Decimal.uint) :
  cur = "" \/ cur = "0" ->
  exists z,
    NilEmpty.uint_of_string (JS.cycle k cur "0" ++ NilEmpty.string_of_uint d)
    = Some z
    /\ Nat.of_uint z = Nat.of_uint d.
Proof.
  revert cur. induction k as [|k IH]; intros cur Hcur.
  - exists d. split; [apply NilEmpty.usu|reflexivity].
  - destruct (IH "" (or_introl eq_refl)) as (z & Hz & Hv).
    exists (Decimal.D0 z).
    destruct Hcur as [->| ->]; cbn [JS.cycle append];
      cbn [NilEmpty.uint_of_string]; rewrite Hz; (split; [reflexivity|]);
      rewrite <- Hv; reflexivity.
Qed.

(** X8: the code createStudent hands out determines the account: two
    identifiers with the same code are the same identifier. *)
Theorem studentId_of_injective (a b : nat) :
  studentId_of a = studentId_of b -> a = b.
Proof.
  rewrite !studentId_of_spec. intros E.
  apply append_same_head in E.
  destruct (parse_padded (3 - String.length (JS.String_ a)) "0" (Nat.to_uint a)
              (or_intror eq_refl)) as (za & Hza & Hva).
  destruct (parse_padded (3 - String.length (JS.String_ b)) "0" (Nat.to_uint b)
              (or_intror eq_refl)) as (zb & Hzb & Hvb).
  change (NilEmpty.string_of_uint (Nat.to_uint a)) with (JS.String_ a) in Hza.
  change (NilEmpty.string_of_uint (Nat.to_uint b)) with (JS.String_ b) in Hzb.
  rewrite E in Hza. rewrite Hza in Hzb.
  injection Hzb as ->.
  rewrite <- (DecimalNat.Unsigned.of_to a), <- (DecimalNat.Unsigned.of_to b).
  congruence.
Qed.

Lemma studentId_of_injective_witness : 1000 = 1000.
Proof.
  apply (studentId_of_injective 1000 1000). reflexivity.
Defined.

(* ================================================================== *)
(** ** What the token middleware reads *)
(* ================================================================== *)

Lemma split_three (a b c : string) :
  no_space a = true -> no_space b = true ->
  exists rest, JS.split " " (a ++ String " " (b ++ String " " c)) = a :: b :: rest.
Proof.
  intros Ha Hb. rewrite split_space_app by assumption.
  rewrite split_space_app by assumption. eauto.
Qed.

(** X9: the middleware decides on the header's second space-separated
    field alone: the scheme word in front of it is not examined, and
    whatever follows a further space is ignored. *)
Theorem authenticateToken_second_field {jw : Jwt} {en : Env}
    (scheme token trailer : string) :
  scheme <> "" -> no_space scheme = true -> no_space token = true ->
  authenticateToken (Some (scheme ++ String " " token))
  = authenticateToken (Some ("Bearer " ++ token))
  /\ authenticateToken (Some (scheme ++ String " " (token ++ String " " trailer)))
     = authenticateToken (Some ("Bearer " ++ token)).
Proof.
  intros Hne Hs Ht.
  assert (token_of (Some ("Bearer " ++ token)) = Some token) as Hb
    by (apply (token_of_bearer "Bearer"); auto; discriminate).
  assert (token_of (Some (scheme ++ String " " token)) = Some token) as H1
    by (now apply token_of_bearer).
  assert (token_of (Some (scheme ++ String " " (token ++ String " " trailer)))
          = Some token) as H2.
  { unfold token_of.
    assert (JS.truthy (Some (scheme ++ String " " (token ++ String " " trailer)))
            = true) as ->.
    { apply truthy_Some. destruct scheme; [congruence|discriminate]. }
    cbn [JS.str].
    destruct (split_three scheme token trailer Hs Ht) as (rest & ->).
    reflexivity. }
  unfold authenticateToken. now rewrite Hb, H1, H2.
Qed.

Lemma authenticateToken_second_field_witness :
  @authenticateToken Sample.jwt_ Sample.env (Some "Basic good.token")
  = @authenticateToken Sample.jwt_ Sample.env (Some "Bearer good.token").
Proof.
  apply (@authenticateToken_second_field Sample.jwt_ Sample.env
           "Basic" "good.token" "ignored");
    [discriminate|reflexivity|reflexivity].
Defined.

(** X10: the token of a successful login opens the protected route: when
    [jwt.verify] accepts the token it signed for the account's payload,
    presenting the login response's token as a bearer credential makes
    the middleware call [next()] with the identifier, email and role of
    the user object of that same response. *)
Theorem login_token_authenticates {bc : Bcrypt} {jw : Jwt} {en : Env}
    (b : LoginBody.t) (db : Db) (success : bool) (message token : string)
    (user : AuthUser.t) :
  login b db = mkResponse 200 (Auth success message token user) ->
  let payload := jwt.mk (AuthUser.id user) (AuthUser.email user)
                        (AuthUser.role user) in
  jwt_verify (jwt_sign payload secret "24h") secret = Ok payload ->
  token <> "" -> no_space token = true ->
  token = jwt_sign payload secret "24h"
  /\ authenticateToken (Some ("Bearer " ++ token)) = Next payload.
Proof.
  intros Hlogin payload Hverify Hne Hns.
  assert (token = jwt_sign payload secret "24h") as Htok.
  { unfold login in Hlogin.
    destruct (_ || _); [discriminate|].
    destruct (select_users _ db) as [|u rest]; [discriminate|].
    destruct (isPasswordValid _ _) as [[|]|]; try discriminate.
    cbn in Hlogin. injection Hlogin as _ _ <- <-. reflexivity. }
  split; [exact Htok|].
  assert (token_of (Some ("Bearer " ++ token)) = Some token) as Hb
    by (apply (token_of_bearer "Bearer"); auto; discriminate).
  unfold authenticateToken. rewrite Hb.
  rewrite (proj2 (truthy_Some token) Hne). cbn [negb JS.str].
  now rewrite Htok, Hverify.
Qed.

Lemma login_token_authenticates_witness :
  @authenticateToken Sample.jwt_admin Sample.env (Some "Bearer good.token")
  = Next (jwt.mk 1 "admin@x.com" "admin").
Proof.
  apply (@login_token_authenticates Sample.bcrypt Sample.jwt_admin Sample.env
           (LoginBody.mk (Some "admin@x.com") (JS.Str "root")) Sample.db
           true "Login successful" "good.token"
           (AuthUser.mk 1 "admin@x.com" "admin" "Ada" "Min"));
    [reflexivity|reflexivity|discriminate|reflexivity].
Defined.

(* ================================================================== *)
(** ** More on the two read routes *)
(* ================================================================== *)

Lemma insert_desc_sorted {A : Type} (key : A -> nat) (x : A) (l : list A) :
  StronglySorted (fun a b => key b <= key a) l ->
  StronglySorted (fun a b => key b <= key a) (insert_desc key x l).
Proof.
  induction l as [|y t IH]; intros Hs; simpl.
  - constructor; constructor.
  - inversion Hs as [|? ? Ht Hy]; subst.
    destruct (key y <? key x)%nat eqn:E.
    + apply Nat.ltb_lt in E. constructor; [exact Hs|].
      constructor; [lia|].
      rewrite Forall_forall in *. intros z Hz. specialize (Hy z Hz). lia.
    + apply Nat.ltb_ge in E. constructor; [now apply IH|].
      rewrite Forall_forall in *. intros z Hz.
      apply insert_desc_In in Hz as [->|Hz]; [exact E|now apply Hy].
Qed.

Lemma order_by_desc_sorted {A : Type} (key : A -> nat) (l : list A) :
  StronglySorted (fun a b => key b <= key a) (order_by_desc key l).
Proof.
  induction l as [|x t IH]; simpl; [constructor|].
  now apply insert_desc_sorted.
Qed.

Lemma StronglySorted_map {A B : Type} (f : A -> B) (R : B -> B -> Prop)
    (l : list A) :
  StronglySorted (fun a b => R (f a) (f b)) l -> StronglySorted R (map f l).
Proof.
  induction 1 as [|a l Hl IH Ha]; simpl; constructor; [exact IH|].
  rewrite Forall_forall in *. intros y Hy.
  apply in_map_iff in Hy as (x & <- & Hx). now apply Ha.
Qed.

Lemma student_view_created_at (r : joined) :
  StudentView.created_at (student_view r) = users.created_at (fst (fst r)).
Proof.
  destruct r as [[u s] c]. reflexivity.
Qed.

Lemma StronglySorted_impl {A : Type} (R R' : A -> A -> Prop) (l : list A) :
  (forall a b, R a b -> R' a b) -> StronglySorted R l -> StronglySorted R' l.
Proof.
  intros HR. induction 1 as [|a l Hl IH Ha]; constructor; [exact IH|].
  rewrite Forall_forall in *. intros y Hy. apply HR. now apply Ha.
Qed.

(** X11: whenever listActiveStudents answers with a list, the list is
    newest first: no row has a later [created_at] than a row before it. *)
Theorem listActiveStudents_newest_first (db : Db) (rows : list StudentView.t) :
  listActiveStudents db = mkResponse 200 (StudentList rows) ->
  newest_first rows.
Proof.
  unfold listActiveStudents.
  destruct (students_join db) as [joined_rows|message]; cbn [bind catch];
    [|discriminate].
  intros [= <-]. unfold newest_first.
  apply StronglySorted_map.
  eapply StronglySorted_impl; [|apply order_by_desc_sorted].
  intros a b. cbn beta. now rewrite !student_view_created_at.
Qed.

(** Three active students stored oldest first are listed newest first. *)
Lemma listActiveStudents_newest_first_witness :
  listActiveStudents Sample.roster
  = mkResponse 200
      (StudentList
         (map student_view
            [((Sample.kim, Some Sample.kim_profile), Some Sample.class_5A);
             ((Sample.lou, None), None);
             ((Sample.jo, Some Sample.jo_profile), Some Sample.class_5A)]))
  /\ map StudentView.created_at
       (map student_view
          [((Sample.kim, Some Sample.kim_profile), Some Sample.class_5A);
           ((Sample.lou, None), None);
           ((Sample.jo, Some Sample.jo_profile), Some Sample.class_5A)])
     = [50; 45; 30]
  /\ newest_first
       (map student_view
          [((Sample.kim, Some Sample.kim_profile), Some Sample.class_5A);
           ((Sample.lou, None), None);
           ((Sample.jo, Some Sample.jo_profile), Some Sample.class_5A)]).
Proof.
  split; [reflexivity|split; [reflexivity|]].
  apply (listActiveStudents_newest_first Sample.roster). reflexivity.
Defined.



Lemma left_join_snd {A B : Type} (on : A -> B -> bool) (l : list A)
    (r : list B) (a : A) (ob : option B) :
  In (a, ob) (left_join on l r) ->
  match ob with
  | Some b => In b r /\ on a b = true
  | None => forall b, In b r -> on a b = false
  end.
Proof.
  unfold left_join. intros Hin. apply in_flat_map in Hin as (a0 & Ha0 & Hx).
  destruct (filter (on a0) r) as [|b m] eqn:Hf.
  - destruct Hx as [[= <- <-]|[]]. now apply filter_nil_iff.
  - apply in_map_iff in Hx as (b' & [= <- <-] & Hb').
    rewrite <- Hf in Hb'. now apply filter_In in Hb'.
Qed.

(** The joined row behind getStudent's answer. *)
Lemma getStudent_joined (id : nat) (db : Db) (ss : list students.row)
    (cs : list classes.row) :
  students_tbl db = Ok ss -> classes_tbl db = Ok cs ->
  student_row id db ->
  exists u s c,
    getStudent id db = mkResponse 200 (Student (student_view ((u, s), c)))
    /\ In u (users_tbl db) /\ users.id u = id /\ users.role u = "student"
    /\ match s with
       | Some p => In p ss /\ students.user_id p = id
       | None => forall p, In p ss -> students.user_id p <> id
       end.
Proof.
  intros Hs Hc (u & Hu & Hid & Hrole).
  unfold getStudent, students_join. rewrite Hs, Hc. cbn [bind catch].
  match goal with
  | |- context [filter ?p (left_join ?on2 (left_join ?on1 ?l ss) cs)] =>
      destruct (filter p (left_join on2 (left_join on1 l ss) cs))
        as [|r0 rest] eqn:Hf;
      [ exfalso;
        destruct (left_join_covers on1 l ss u Hu) as [s Hs1];
        destruct (left_join_covers on2 _ cs (u, s) Hs1) as [c Hc1];
        apply (filter_not_nil _ _ _ Hc1) in Hf; [exact Hf|];
        cbn [fst]; rewrite Hid, Hrole, Nat.eqb_refl; reflexivity
      | assert (In r0 (filter p (left_join on2 (left_join on1 l ss) cs)))
          as Hin by (rewrite Hf; now left) ]
  end.
  apply filter_In in Hin as [Hin Hp].
  destruct r0 as [[u0 s0] c0]. cbn [fst] in Hp.
  apply andb_prop in Hp as [Hid0 Hrole0].
  apply Nat.eqb_eq in Hid0. apply String.eqb_eq in Hrole0.
  apply left_join_fst in Hin. cbn [fst] in Hin.
  pose proof (left_join_fst _ _ _ _ Hin) as Hu0. cbn [fst] in Hu0.
  apply left_join_snd in Hin.
  exists u0, s0, c0. cbn [map]. repeat split; auto.
  destruct s0 as [p|].
  - destruct Hin as [Hp Hon]. apply Nat.eqb_eq in Hon. split; congruence.
  - intros p Hp E. specialize (Hin p Hp). apply Nat.eqb_neq in Hin. congruence.
Qed.

Lemma updateStudent_ok_row (id : nat) (b : StudentBody.t) (db : Db) :
  status (snd (updateStudent id b db)) = 200 -> student_row id db.
Proof.
  unfold updateStudent.
  destruct (_ || _); [discriminate|].
  destruct (List.length (select_users _ db) =? 0)%nat eqn:E; [discriminate|].
  intros _. apply student_row_select. intros Hnil.
  apply length_zero_nil in Hnil. congruence.
Qed.

(** The database a successful updateStudent leaves when the two secondary
    tables are readable. *)
Lemma updateStudent_result (id : nat) (b : StudentBody.t) (db : Db)
    (ss : list students.row) (cs : list classes.row) :
  status (snd (updateStudent id b db)) = 200 ->
  students_tbl db = Ok ss -> classes_tbl db = Ok cs ->
  fst (updateStudent id b db)
  = mkDb (map (fun u =>
                 if users.is_student id u
                 then users.set_account (JS.str (StudentBody.firstName b))
                        (JS.str (StudentBody.lastName b))
                        (JS.str (StudentBody.email b))
                        (JS.or_null (StudentBody.phone b))
                        (JS.not_false (StudentBody.isActive b)) u
                 else u) (users_tbl db))
         (users_auto_increment db)
         (Ok (map (fun s =>
                     if students.of_user id s
                     then students.set_profile
                            (JS.or_null (StudentBody.rollNo b))
                            (resolved_class (StudentBody.grade b)
                                            (StudentBody.section b) cs)
                            (JS.or_null (StudentBody.parentName b)) s
                     else s) ss))
         (students_auto_increment db) (Ok cs).
Proof.
  intros Hok Hs Hc. rewrite (updateStudent_success id b db Hok). cbn [fst].
  unfold update_profile.
  rewrite (find_class_id_resolved _ _ _ cs) by exact Hc.
  cbn [bind]. unfold update_students, update_users.
  cbn [students_tbl]. rewrite Hs, Hc. reflexivity.
Qed.

(** X13: after a successful updateStudent (the profile and class tables
    readable), getStudent of the same identifier returns the values of
    the request: both names, the email, the phone (NULL when absent), the
    active flag [isActive !== false], and, when the account has a profile
    row, the request's roll number and parent name (NULL when absent). *)
Theorem updateStudent_then_getStudent (id : nat) (b : StudentBody.t) (db : Db)
    (ss : list students.row) (cs : list classes.row) :
  status (snd (updateStudent id b db)) = 200 ->
  students_tbl db = Ok ss -> classes_tbl db = Ok cs ->
  exists v,
    getStudent id (fst (updateStudent id b db)) = mkResponse 200 (Student v)
    /\ StudentView.id v = id
    /\ StudentView.first_name v = JS.str (StudentBody.firstName b)
    /\ StudentView.last_name v = JS.str (StudentBody.lastName b)
    /\ StudentView.email v = JS.str (StudentBody.email b)
    /\ StudentView.phone v = JS.or_null (StudentBody.phone b)
    /\ StudentView.is_active v = JS.not_false (StudentBody.isActive b)
    /\ ((exists p, In p ss /\ students.user_id p = id) ->
        StudentView.roll_no v = JS.or_null (StudentBody.rollNo b)
        /\ StudentView.parent_name v = JS.or_null (StudentBody.parentName b))
    /\ ((forall p, In p ss -> students.user_id p <> id) ->
        StudentView.roll_no v = None
        /\ StudentView.student_id v = fallback_student_id id).
Proof.
  intros Hok Hs Hc.
  pose proof (updateStudent_ok_row id b db Hok) as (u0 & Hu0 & Hid0 & Hrole0).
  rewrite (updateStudent_result id b db ss cs Hok Hs Hc).
  match goal with
  | |- context [getStudent id ?d] =>
      destruct (getStudent_joined id d _ cs eq_refl eq_refl)
        as (u & s & c & Hget & Hu & Hid & Hrole & Hprof)
  end.
  { exists (users.set_account (JS.str (StudentBody.firstName b))
              (JS.str (StudentBody.lastName b)) (JS.str (StudentBody.email b))
              (JS.or_null (StudentBody.phone b))
              (JS.not_false (StudentBody.isActive b)) u0).
    split; [|now split].
    cbn [users_tbl]. apply in_map_iff. exists u0. split; [|exact Hu0].
    unfold users.is_student. now rewrite Hid0, Hrole0, Nat.eqb_refl. }
  cbn [users_tbl] in Hu. apply in_map_iff in Hu as (u1 & Hu1 & _).
  assert (u = users.set_account (JS.str (StudentBody.firstName b))
                (JS.str (StudentBody.lastName b)) (JS.str (StudentBody.email b))
                (JS.or_null (StudentBody.phone b))
                (JS.not_false (StudentBody.isActive b)) u1) as Eu.
  { destruct (users.is_student id u1) eqn:Hp; [now subst u|].
    subst u1. unfold users.is_student in Hp.
    rewrite Hid, Hrole, Nat.eqb_refl in Hp. discriminate. }
  eexists. split; [exact Hget|].
  rewrite Eu. cbn [student_view StudentView.id StudentView.first_name
                   StudentView.last_name StudentView.email StudentView.phone
                   StudentView.is_active users.set_account users.id
                   users.first_name users.last_name users.email users.phone
                   users.is_active].
  rewrite Eu in Hid. cbn [users.set_account users.id] in Hid.
  repeat (split; [auto; fail|]).
  split.
  - intros (p & Hp & Hpid). destruct s as [p'|].
    + destruct Hprof as [Hp' Hp'id].
      apply in_map_iff in Hp' as (p0 & Hp0 & _).
      assert (p' = students.set_profile (JS.or_null (StudentBody.rollNo b))
                     (resolved_class (StudentBody.grade b)
                                     (StudentBody.section b) cs)
                     (JS.or_null (StudentBody.parentName b)) p0) as ->.
      { destruct (students.of_user id p0) eqn:Ho; [now subst p'|].
        subst p0. unfold students.of_user in Ho.
        rewrite Hp'id, Nat.eqb_refl in Ho. discriminate. }
      split; reflexivity.
    + exfalso.
      apply (Hprof (if students.of_user id p
                    then students.set_profile
                           (JS.or_null (StudentBody.rollNo b))
                           (resolved_class (StudentBody.grade b)
                                           (StudentBody.section b) cs)
                           (JS.or_null (StudentBody.parentName b)) p
                    else p)).
      * apply (in_map (fun s =>
                         if students.of_user id s
                         then students.set_profile
                                (JS.or_null (StudentBody.rollNo b))
                                (resolved_class (StudentBody.grade b)
                                                (StudentBody.section b) cs)
                                (JS.or_null (StudentBody.parentName b)) s
                         else s)). exact Hp.
      * destruct (students.of_user id p); exact Hpid.
  - intros Hnone. destruct s as [p'|]; [|split; [reflexivity|]].
    + exfalso. destruct Hprof as [Hp' Hp'id].
      apply in_map_iff in Hp' as (p0 & Hp0 & Hin0).
      apply (Hnone p0 Hin0).
      destruct (students.of_user id p0); subst p'; exact Hp'id.
    + cbn [StudentView.student_id SQL.COALESCE]. now rewrite Hid.
Qed.

Lemma updateStudent_then_getStudent_witness :
  exists v,
    getStudent 3
      (fst (updateStudent 3
              (StudentBody.mk (Some "Joan") (Some "Doe") (Some "joan@x.com")
                              (Some "555") None None (Some "R-1") None None)
              Sample.db))
    = mkResponse 200 (Student v)
    /\ StudentView.id v = 3
    /\ StudentView.first_name v = "Joan"
    /\ StudentView.last_name v = "Doe"
    /\ StudentView.email v = "joan@x.com"
    /\ StudentView.phone v = Some "555"
    /\ StudentView.is_active v = true
    /\ ((exists p, In p [Sample.jo_profile] /\ students.user_id p = 3) ->
        StudentView.roll_no v = Some "R-1"
        /\ StudentView.parent_name v = None)
    /\ ((forall p, In p [Sample.jo_profile] -> students.user_id p <> 3) ->
        StudentView.roll_no v = None
        /\ StudentView.student_id v = fallback_student_id 3).
Proof.
  apply (updateStudent_then_getStudent 3
           (StudentBody.mk (Some "Joan") (Some "Doe") (Some "joan@x.com")
                           (Some "555") None None (Some "R-1") None None)
           Sample.db [Sample.jo_profile] [Sample.class_5A]);
    reflexivity.
Defined.

(** X14: a successful updateStudent sets the active flag to
    [isActive !== false]: unless the body says [isActive: false] the
    account is listed by listActiveStudents afterwards, also when
    deleteStudent had deactivated it before; with [isActive: false] it is
    not listed. *)
Theorem updateStudent_sets_active (id : nat) (b : StudentBody.t) (db : Db)
    (ss : list students.row) (cs : list classes.row) :
  status (snd (updateStudent id b db)) = 200 ->
  students_tbl db = Ok ss -> classes_tbl db = Ok cs ->
  exists rows,
    listActiveStudents (fst (updateStudent id b db))
    = mkResponse 200 (StudentList rows)
    /\ (StudentBody.isActive b <> Some false ->
        exists v, In v rows /\ StudentView.id v = id)
    /\ (StudentBody.isActive b = Some false ->
        forall v, In v rows -> StudentView.id v <> id).
Proof.
  intros Hok Hs Hc.
  pose proof (updateStudent_ok_row id b db Hok) as (u0 & Hu0 & Hid0 & Hrole0).
  rewrite (updateStudent_result id b db ss cs Hok Hs Hc).
  match goal with
  | |- context [listActiveStudents ?d] =>
      destruct (listActiveStudents_rows d _ cs eq_refl eq_refl)
        as (rows & Hlist & Hsound & Hcomplete)
  end.
  exists rows. split; [exact Hlist|]. cbn [users_tbl] in Hsound, Hcomplete.
  split.
  - intros Hact.
    destruct (Hcomplete
                (users.set_account (JS.str (StudentBody.firstName b))
                   (JS.str (StudentBody.lastName b))
                   (JS.str (StudentBody.email b))
                   (JS.or_null (StudentBody.phone b))
                   (JS.not_false (StudentBody.isActive b)) u0))
      as (v & Hv & Hvid).
    + apply in_map_iff. exists u0. split; [|exact Hu0].
      unfold users.is_student. now rewrite Hid0, Hrole0, Nat.eqb_refl.
    + exact Hrole0.
    + cbn [users.set_account users.is_active].
      destruct (StudentBody.isActive b) as [[|]|]; try reflexivity;
        now elim Hact.
    + exists v. split; [exact Hv|]. now rewrite Hvid.
  - intros Hact v Hv Hvid.
    destruct (Hsound v Hv) as (_ & u & Hu & Hid & Hrole & Hactive).
    apply in_map_iff in Hu as (u1 & Hu1 & _).
    destruct (users.is_student id u1) eqn:Hp.
    + subst u. cbn [users.set_account users.is_active] in Hactive.
      rewrite Hact in Hactive. discriminate.
    + subst u1. unfold users.is_student in Hp.
      rewrite Hid, Hvid, Hrole, Nat.eqb_refl in Hp. discriminate.
Qed.

(** The update after a deletion: the soft-deleted sample account is
    listed again. *)
Lemma updateStudent_sets_active_witness :
  exists rows,
    listActiveStudents
      (fst (updateStudent 4
              (StudentBody.mk (Some "Gone") (Some "Away") (Some "gone@x.com")
                              None None None None None None)
              (fst (deleteStudent 4 Sample.db))))
    = mkResponse 200 (StudentList rows)
    /\ (None <> Some false -> exists v, In v rows /\ StudentView.id v = 4)
    /\ (None = Some false -> forall v, In v rows -> StudentView.id v <> 4).
Proof.
  apply (updateStudent_sets_active 4
           (StudentBody.mk (Some "Gone") (Some "Away") (Some "gone@x.com")
                           None None None None None None)
           (fst (deleteStudent 4 Sample.db))
           [Sample.jo_profile] [Sample.class_5A]);
    reflexivity.
Defined.

(* ================================================================== *)
(** ** createStudent and the secondary tables *)
(* ================================================================== *)

(** The database and the profile row a successful createStudent leaves
    when the profile table takes the insert. *)
Lemma createStudent_result {bc : Bcrypt} (now : nat) (b : StudentBody.t)
    (db : Db) (ss : list students.row) :
  student_body_valid b = true ->
  ~ email_taken (JS.str (StudentBody.email b)) db ->
  students_tbl db = Ok ss ->
  let userId := users_auto_increment db in
  fst (createStudent now b db)
  = mkDb (users_tbl db
          ++ [users.mk userId (JS.str (StudentBody.email b))
                (bcrypt_hash "student123" 12) "student"
                (JS.str (StudentBody.firstName b))
                (JS.str (StudentBody.lastName b))
                (JS.or_null (StudentBody.phone b))
                (JS.not_false (StudentBody.isActive b)) now])%list
         (S userId)
         (Ok (ss ++ [students.mk (students_auto_increment db) userId
                       (Some (studentId_of userId))
                       (JS.or_null (StudentBody.rollNo b))
                       (match classes_tbl db with
                        | Ok cs => resolved_class (StudentBody.grade b)
                                                  (StudentBody.section b) cs
                        | Err _ => None
                        end)
                       (JS.or_null (StudentBody.parentName b))
                       None None (Some now) None true])%list)
         (S (students_auto_increment db)) (classes_tbl db).
Proof.
  intros Hv Hfresh Hs userId. subst userId. unfold student_body_valid in Hv.
  repeat (apply andb_prop in Hv as [Hv ?]).
  unfold createStudent.
  repeat match goal with Hx : JS.truthy _ = true |- _ => rewrite Hx; clear Hx end.
  simpl negb. simpl orb. cbv iota.
  destruct (0 <? _)%nat eqn:Hlen.
  { apply length_pos_cons, email_taken_select in Hlen. contradiction. }
  unfold insert_user, insert_student. cbv zeta. cbv iota.
  cbn [students_tbl]. rewrite Hs. cbn [bind catch fst].
  cbn [users_tbl users_auto_increment students_tbl students_auto_increment
       classes_tbl].
  f_equal. f_equal. f_equal. f_equal.
  destruct (classes_tbl db) as [cs|message] eqn:Hc.
  - match goal with
    | |- context [find_class_id ?g ?s ?d] =>
        rewrite (find_class_id_resolved g s d cs) by reflexivity
    end. reflexivity.
  - unfold find_class_id, select_class. cbn [classes_tbl bind].
    destruct (_ && _); reflexivity.
Qed.

(** X15: when the profile table takes the insert, createStudent stores
    one profile row for the new account carrying the returned student
    code, the request's roll number and parent name (NULL when absent)
    and, as class link, the first active class of the given grade and
    section; the link is NULL when grade or section is missing, when no
    active class matches, and also when the class lookup itself is
    rejected, in which case the profile is still written. *)
Theorem createStudent_writes_profile {bc : Bcrypt} (now : nat)
    (b : StudentBody.t) (db : Db) (ss : list students.row) :
  student_body_valid b = true ->
  ~ email_taken (JS.str (StudentBody.email b)) db ->
  students_tbl db = Ok ss ->
  let userId := users_auto_increment db in
  exists p,
    students_tbl (fst (createStudent now b db)) = Ok (ss ++ [p])%list
    /\ students.user_id p = userId
    /\ students.student_id p = Some (studentId_of userId)
    /\ students.roll_number p = JS.or_null (StudentBody.rollNo b)
    /\ students.parent_name p = JS.or_null (StudentBody.parentName b)
    /\ students.is_active p = true
    /\ (forall cs, classes_tbl db = Ok cs ->
          students.class_id p
          = resolved_class (StudentBody.grade b) (StudentBody.section b) cs)
    /\ (forall message, classes_tbl db = Err message ->
          students.class_id p = None).
Proof.
  intros Hv Hfresh Hs userId.
  rewrite (createStudent_result now b db ss Hv Hfresh Hs).
  cbn [students_tbl]. eexists. split; [reflexivity|].
  cbn [students.user_id students.student_id students.roll_number
       students.parent_name students.is_active students.class_id].
  repeat split; try reflexivity.
  - intros cs ->. reflexivity.
  - intros message ->. reflexivity.
Qed.

Lemma createStudent_writes_profile_witness :
  exists p,
    students_tbl (fst (@createStudent Sample.bcrypt 50 Sample.new_student
                         Sample.db))
    = Ok ([Sample.jo_profile] ++ [p])%list
    /\ students.user_id p = 5
    /\ students.student_id p = Some (studentId_of 5)
    /\ students.roll_number p = None
    /\ students.parent_name p = None
    /\ students.is_active p = true
    /\ (forall cs, classes_tbl Sample.db = Ok cs ->
          students.class_id p = resolved_class (Some "5") (Some "A") cs)
    /\ (forall message, classes_tbl Sample.db = Err message ->
          students.class_id p = None).
Proof.
  apply (@createStudent_writes_profile Sample.bcrypt 50 Sample.new_student
           Sample.db [Sample.jo_profile]).
  - reflexivity.
  - intros (u & Hu & He). simpl in Hu.
    repeat destruct Hu as [<-|Hu]; try discriminate; try contradiction.
  - reflexivity.
Defined.

(** X16: after a successful createStudent whose profile insert was
    taken, getStudent of the returned identifier answers 200 with the
    request's names, email, phone, active flag, roll number and parent
    name, and with the very student code createStudent returned (the
    stored code, for every identifier); the identifiers being below the
    AUTO_INCREMENT counter and no profile row referring to the new one. *)
Theorem createStudent_then_getStudent {bc : Bcrypt} (now : nat)
    (b : StudentBody.t) (db : Db) (ss : list students.row)
    (cs : list classes.row) :
  student_body_valid b = true ->
  ~ email_taken (JS.str (StudentBody.email b)) db ->
  primary_key db ->
  students_tbl db = Ok ss -> classes_tbl db = Ok cs ->
  (forall p, In p ss -> students.user_id p <> users_auto_increment db) ->
  let userId := users_auto_increment db in
  exists v,
    getStudent userId (fst (createStudent now b db))
    = mkResponse 200 (Student v)
    /\ StudentView.id v = userId
    /\ StudentView.first_name v = JS.str (StudentBody.firstName b)
    /\ StudentView.last_name v = JS.str (StudentBody.lastName b)
    /\ StudentView.email v = JS.str (StudentBody.email b)
    /\ StudentView.phone v = JS.or_null (StudentBody.phone b)
    /\ StudentView.is_active v = JS.not_false (StudentBody.isActive b)
    /\ StudentView.created_at v = now
    /\ StudentView.student_id v = studentId_of userId
    /\ StudentView.roll_no v = JS.or_null (StudentBody.rollNo b)
    /\ StudentView.parent_name v = JS.or_null (StudentBody.parentName b).
Proof.
  intros Hv Hfresh [_ Hlt] Hs Hc Horphan userId.
  rewrite (createStudent_result now b db ss Hv Hfresh Hs). rewrite Hc.
  match goal with
  | |- context [getStudent userId ?d] =>
      destruct (getStudent_joined userId d _ cs eq_refl eq_refl)
        as (u & s & c & Hget & Hu & Hid & Hrole & Hprof)
  end.
  { eexists. split.
    - cbn [users_tbl]. apply in_or_app. right. left. reflexivity.
    - split; reflexivity. }
  cbn [users_tbl] in Hu.
  apply in_app_or in Hu as [Hu|[<-|[]]].
  { apply Hlt in Hu. fold userId in Hu. lia. }
  destruct s as [p|].
  - destruct Hprof as [Hp Hpid].
    apply in_app_or in Hp as [Hp|[<-|[]]].
    { elim (Horphan p Hp). exact Hpid. }
    eexists. split; [exact Hget|]. repeat split.
  - exfalso. eapply Hprof; [apply in_or_app; right; left; reflexivity|].
    reflexivity.
Qed.

Lemma createStudent_then_getStudent_witness :
  exists v,
    getStudent 5 (fst (@createStudent Sample.bcrypt 50 Sample.new_student
                         Sample.db))
    = mkResponse 200 (Student v)
    /\ StudentView.id v = 5
    /\ StudentView.first_name v = "Kim"
    /\ StudentView.last_name v = "Lee"
    /\ StudentView.email v = "kim@x.com"
    /\ StudentView.phone v = None
    /\ StudentView.is_active v = true
    /\ StudentView.created_at v = 50
    /\ StudentView.student_id v = studentId_of 5
    /\ StudentView.roll_no v = None
    /\ StudentView.parent_name v = None.
Proof.
  apply (@createStudent_then_getStudent Sample.bcrypt 50 Sample.new_student
           Sample.db [Sample.jo_profile] [Sample.class_5A]).
  - reflexivity.
  - intros (u & Hu & He). simpl in Hu.
    repeat destruct Hu as [<-|Hu]; try discriminate; try contradiction.
  - split.
    + simpl. repeat constructor; simpl; intuition discriminate.
    + simpl. intros u Hu.
      repeat destruct Hu as [<-|Hu]; simpl; try lia; try contradiction.
  - reflexivity.
  - reflexivity.
  - simpl. intros p [<-|[]]. simpl. lia.
Defined.

(** X17: the read routes are not best-effort: while the profile table
    rejects statements, createStudent still answers 201 for a complete
    body with a fresh email, but getStudent of the identifier it returned
    and listActiveStudents both answer 500 with the engine's message. *)
Theorem reads_fail_without_profile_table {bc : Bcrypt} (now : nat)
    (b : StudentBody.t) (db : Db) (message : string) :
  student_body_valid b = true ->
  ~ email_taken (JS.str (StudentBody.email b)) db ->
  students_tbl db = Err message ->
  let db1 := fst (createStudent now b db) in
  status (snd (createStudent now b db)) = 201
  /\ getStudent (users_auto_increment db) db1
     = mkResponse 500 (Message false ("Error fetching student: " ++ message))
  /\ listActiveStudents db1
     = mkResponse 500 (Message false ("Error fetching students: " ++ message)).
Proof.
  intros Hv Hfresh Hs db1.
  destruct (createStudent_users now b db Hv Hfresh) as (_ & _ & Hr).
  split; [now rewrite Hr|].
  assert (students_tbl db1 = Err message) as Hs1.
  { subst db1. unfold student_body_valid in Hv.
    repeat (apply andb_prop in Hv as [Hv ?]).
    unfold createStudent.
    repeat match goal with Hx : JS.truthy _ = true |- _ => rewrite Hx; clear Hx end.
    simpl negb. simpl orb. cbv iota.
    destruct (0 <? _)%nat eqn:Hlen.
    { apply length_pos_cons, email_taken_select in Hlen. contradiction. }
    unfold insert_user, insert_student. cbv zeta. cbv iota.
    cbn [students_tbl]. rewrite Hs. reflexivity. }
  unfold getStudent, listActiveStudents, students_join. rewrite Hs1.
  split; reflexivity.
Qed.

Lemma reads_fail_without_profile_table_witness :
  getStudent 5 (fst (@createStudent Sample.bcrypt 50 Sample.new_student
                       Sample.db_no_profiles))
  = mkResponse 500
      (Message false "Error fetching student: Table 'students' doesn't exist").
Proof.
  apply (@reads_fail_without_profile_table Sample.bcrypt 50 Sample.new_student
           Sample.db_no_profiles "Table 'students' doesn't exist").
  - reflexivity.
  - intros (u & Hu & He). simpl in Hu.
    repeat destruct Hu as [<-|Hu]; try discriminate; try contradiction.
  - reflexivity.
Defined.

(* ================================================================== *)
(** ** The class management route *)
(* ================================================================== *)

Lemma distinct_In (l : list nat) (k : nat) : In k (distinct l) <-> In k l.
Proof.
  induction l as [|a l IH]; simpl; [tauto|].
  rewrite filter_In, IH, negb_true_iff, Nat.eqb_neq.
  destruct (Nat.eq_dec a k) as [->|Hne]; [tauto|].
  split; [tauto|]. intros [E|Hin]; [contradiction|]. right. split; auto.
Qed.

Lemma distinct_NoDup (l : list nat) : NoDup (distinct l).
Proof.
  induction l as [|a l IH]; simpl; constructor.
  - intros Hin. apply filter_In in Hin as [_ Hne].
    now rewrite Nat.eqb_refl in Hne.
  - now apply NoDup_filter.
Qed.

Lemma insert_by_perm {A : Type} (before : A -> A -> bool) (x : A) (l : list A) :
  Permutation (insert_by before x l) (x :: l).
Proof.
  induction l as [|y t IH]; simpl; [reflexivity|].
  destruct (before y x); [|reflexivity].
  rewrite IH. apply perm_swap.
Qed.

Lemma order_by_perm {A : Type} (before : A -> A -> bool) (l : list A) :
  Permutation (order_by before l) l.
Proof.
  induction l as [|x t IH]; simpl; [reflexivity|].
  rewrite insert_by_perm. now constructor.
Qed.

Lemma filter_const {A : Type} (p : A -> bool) (b : bool) (l : list A) :
  (forall x, In x l -> p x = b) -> filter p l = if b then l else [].
Proof.
  induction l as [|a l IH]; intros Hall; simpl.
  - now destruct b.
  - rewrite (Hall a (or_introl eq_refl)), IH
      by (intros x Hx; apply Hall; now right).
    now destruct b.
Qed.

Lemma NoDup_map_filter {V K : Type} (key : V -> K) (keep : V -> bool)
    (rows : list V) (Hkey : NoDup (map key rows)) :
  NoDup (map key (filter keep rows)).
Proof.
  induction rows as [|r rows IH]; simpl; [constructor|].
  inversion Hkey as [|? ? Hr Hrest]; subst.
  destruct (keep r); simpl; [constructor|]; auto.
  intros Hin. apply Hr. apply in_map_iff in Hin as (x & Hx & Hin).
  apply filter_In in Hin as [Hin _]. rewrite <- Hx. now apply in_map.
Qed.

Lemma flat_map_singletons {A B : Type} (f : A -> list B) (l : list A) :
  (forall a, In a l -> List.length (f a) = 1) ->
  List.length (flat_map f l) = List.length l.
Proof.
  induction l as [|a l IH]; intros Hall; simpl; [reflexivity|].
  rewrite length_app, (Hall a (or_introl eq_refl)), IH; [reflexivity|].
  intros x Hx. apply Hall. now right.
Qed.

(** With a key on the right, a left join attaches at most one row. *)
Lemma left_join_functional {A B : Type} (on : A -> B -> bool) (l : list A)
    (r : list B) :
  (forall a, In a l -> List.length (filter (on a) r) <= 1) ->
  left_join on l r = map (fun a => (a, hd_error (filter (on a) r))) l.
Proof.
  induction l as [|a l IH]; intros Hone; [reflexivity|].
  change (left_join on (a :: l) r)
    with ((match filter (on a) r with
           | [] => [(a, None)]
           | m => map (fun b => (a, Some b)) m
           end ++ left_join on l r)%list).
  rewrite IH by (intros x Hx; apply Hone; now right).
  pose proof (Hone a (or_introl eq_refl)) as Ha. cbn [map].
  destruct (filter (on a) r) as [|b [|b' m]]; simpl in *; try reflexivity.
  lia.
Qed.

Lemma teacher_at_most_one (us : list users.row)
    (x : classes.row * option students.row) :
  NoDup (map users.id us) ->
  List.length (filter (on_class_teacher x) us) <= 1.
Proof.
  unfold on_class_teacher. destruct (classes.teacher_id (fst x)) as [t|].
  - induction us as [|a l IH]; simpl; intros Hnd; [lia|].
    inversion Hnd as [|? ? Ha Hnd']; subst.
    destruct (t =? users.id a)%nat eqn:E; [|now apply IH].
    apply Nat.eqb_eq in E. subst t.
    rewrite (proj2 (filter_nil_iff _ l)); [simpl; lia|].
    intros u Hu. apply Nat.eqb_neq. intros Heq. apply Ha.
    rewrite Heq. now apply in_map.
  - intros _. rewrite (proj2 (filter_nil_iff _ us)); [simpl; lia|]. reflexivity.
Qed.

Lemma teacher_found (us : list users.row) (c : classes.row)
    (s : option students.row) :
  hd_error (filter (on_class_teacher (c, s)) us) = class_teacher c us.
Proof.
  rewrite filter_hd_find. unfold on_class_teacher, class_teacher. cbn [fst].
  destruct (classes.teacher_id c) as [t|].
  - induction us as [|u us IH]; simpl; [reflexivity|].
    rewrite (Nat.eqb_sym t (users.id u)).
    destruct (users.id u =? t)%nat; [reflexivity|exact IH].
  - induction us; simpl; auto.
Qed.

Lemma class_rows_fst (ss : list students.row) (c : classes.row)
    (x : classes.row * option students.row) :
  In x (class_rows ss c) -> fst x = c.
Proof.
  unfold class_rows. destruct (filter _ ss) as [|s m].
  - now intros [<-|[]].
  - intros Hin. apply in_map_iff in Hin as (s' & <- & _). reflexivity.
Qed.

Lemma class_rows_head (ss : list students.row) (c : classes.row) :
  exists s rest, class_rows ss c = (c, s) :: rest.
Proof.
  unfold class_rows. destruct (filter _ ss) as [|s m]; simpl; eauto.
Qed.

Lemma left_join_class_rows (cs : list classes.row) (ss : list students.row) :
  left_join on_class_profile cs ss = flat_map (class_rows ss) cs.
Proof.
  reflexivity.
Qed.

(** The rows of the class query before grouping, with keys on both
    sides. *)
Lemma classes_joined_rows (us : list users.row) (cs : list classes.row)
    (ss : list students.row) :
  NoDup (map users.id us) ->
  left_join on_class_teacher (left_join on_class_profile cs ss) us
  = map (with_teacher us) (flat_map (class_rows ss) cs).
Proof.
  intros Hnd. rewrite left_join_class_rows.
  apply left_join_functional. intros x _. now apply teacher_at_most_one.
Qed.

Lemma group_absent (us : list users.row) (ss : list students.row)
    (l : list classes.row) (k : nat) :
  (forall a, In a l -> classes.id a <> k) ->
  filter (fun r : class_joined => (classes.id (fst (fst r)) =? k)%nat)
         (filter (fun r : class_joined => classes.is_active (fst (fst r)))
                 (map (with_teacher us) (flat_map (class_rows ss) l)))
  = [].
Proof.
  intros Hl. apply filter_nil_iff. intros r Hr.
  apply filter_In in Hr as [Hr _].
  apply in_map_iff in Hr as (x & <- & Hx).
  apply in_flat_map in Hx as (a & Ha & Hx).
  apply class_rows_fst in Hx. cbn [with_teacher fst]. rewrite Hx.
  apply Nat.eqb_neq. now apply Hl.
Qed.

Lemma group_own (us : list users.row) (ss : list students.row)
    (c : classes.row) :
  filter (fun r : class_joined => (classes.id (fst (fst r)) =? classes.id c)%nat)
         (filter (fun r : class_joined => classes.is_active (fst (fst r)))
                 (map (with_teacher us) (class_rows ss c)))
  = if classes.is_active c then map (with_teacher us) (class_rows ss c) else [].
Proof.
  rewrite (filter_const (fun r : class_joined => classes.is_active (fst (fst r)))
             (classes.is_active c)).
  - destruct (classes.is_active c); [|reflexivity].
    rewrite (filter_const _ true); [reflexivity|].
    intros r Hr. apply in_map_iff in Hr as (x & <- & Hx).
    apply class_rows_fst in Hx. cbn [with_teacher fst]. rewrite Hx.
    apply Nat.eqb_refl.
  - intros r Hr. apply in_map_iff in Hr as (x & <- & Hx).
    apply class_rows_fst in Hx. cbn [with_teacher fst]. now rewrite Hx.
Qed.

(** The group of a class under a key on [classes.id]. *)
Lemma group_of_class (us : list users.row) (ss : list students.row)
    (cs : list classes.row) (c : classes.row) :
  NoDup (map classes.id cs) -> In c cs ->
  filter (fun r : class_joined => (classes.id (fst (fst r)) =? classes.id c)%nat)
         (filter (fun r : class_joined => classes.is_active (fst (fst r)))
                 (map (with_teacher us) (flat_map (class_rows ss) cs)))
  = if classes.is_active c then map (with_teacher us) (class_rows ss c) else [].
Proof.
  induction cs as [|a l IH]; intros Hnd Hc; [contradiction|].
  inversion Hnd as [|? ? Ha Hnd']; subst.
  cbn [flat_map]. rewrite map_app, !filter_app.
  destruct Hc as [->|Hc].
  - rewrite group_own, group_absent; [apply app_nil_r|].
    intros x Hx E. apply Ha. rewrite <- E. now apply in_map.
  - rewrite (IH Hnd' Hc).
    match goal with
    | |- (?head ++ _)%list = _ => assert (head = []) as ->; [|reflexivity]
    end.
    apply filter_nil_iff. intros r Hr.
    apply filter_In in Hr as [Hr _].
    apply in_map_iff in Hr as (x & <- & Hx).
    apply class_rows_fst in Hx. cbn [with_teacher fst]. rewrite Hx.
    apply Nat.eqb_neq. intros E. apply Ha. rewrite E. now apply in_map.
Qed.

Lemma count_class_rows (us : list users.row) (ss : list students.row)
    (c : classes.row) :
  count_profiles (map (with_teacher us) (class_rows ss c))
  = List.length (active_profiles_of c ss).
Proof.
  assert (List.length (filter (on_class_profile c) ss)
          = List.length (active_profiles_of c ss)) as <-.
  { unfold active_profiles_of. f_equal. apply filter_ext. intros s.
    unfold on_class_profile. rewrite andb_comm.
    destruct (students.class_id s) as [k|]; [|reflexivity].
    now rewrite (Nat.eqb_sym k). }
  unfold class_rows. destruct (filter (on_class_profile c) ss) as [|s m];
    [reflexivity|].
  generalize (s :: m). intros l. unfold count_profiles.
  induction l as [|x l IH]; simpl; [reflexivity|]. now rewrite IH.
Qed.

Lemma class_view_of_rows (us : list users.row) (ss : list students.row)
    (c : classes.row) :
  class_view (map (with_teacher us) (class_rows ss c)) = [class_summary us ss c].
Proof.
  pose proof (count_class_rows us ss c) as Hcount.
  destruct (class_rows_head ss c) as (s & rest & E).
  rewrite E in *. cbn [map] in *. unfold class_view. rewrite Hcount.
  cbn [with_teacher fst snd]. now rewrite teacher_found.
Qed.

Lemma find_by_id (cs : list classes.row) (c : classes.row) :
  NoDup (map classes.id cs) -> In c cs ->
  find (fun x => (classes.id x =? classes.id c)%nat) cs = Some c.
Proof.
  induction cs as [|a l IH]; intros Hnd Hc; [contradiction|].
  inversion Hnd as [|? ? Ha Hnd']; subst. simpl.
  destruct Hc as [->|Hc]; [now rewrite Nat.eqb_refl|].
  destruct (classes.id a =? classes.id c)%nat eqn:E; [|now apply IH].
  apply Nat.eqb_eq in E. elim Ha. rewrite E. now apply in_map.
Qed.

Lemma flat_map_ext_in {A B : Type} (f g : A -> list B) (l : list A) :
  (forall a, In a l -> f a = g a) -> flat_map f l = flat_map g l.
Proof.
  induction l as [|a l IH]; intros Hfg; simpl; [reflexivity|].
  rewrite (Hfg a (or_introl eq_refl)), IH; [reflexivity|].
  intros x Hx. apply Hfg. now right.
Qed.

Lemma flat_map_of_map {A B C : Type} (f : B -> list C) (g : A -> B)
    (l : list A) :
  flat_map f (map g l) = flat_map (fun a => f (g a)) l.
Proof.
  induction l as [|a l IH]; simpl; [reflexivity|]. now rewrite IH.
Qed.

(** The keys of the groups are the identifiers of the active classes. *)
Lemma class_keys (us : list users.row) (ss : list students.row)
    (cs : list classes.row) (k : nat) :
  In k (map (fun r : class_joined => classes.id (fst (fst r)))
            (filter (fun r : class_joined => classes.is_active (fst (fst r)))
                    (map (with_teacher us) (flat_map (class_rows ss) cs))))
  <-> In k (map classes.id (filter classes.is_active cs)).
Proof.
  rewrite !in_map_iff. split.
  - intros (r & <- & Hr). apply filter_In in Hr as [Hr Hact].
    apply in_map_iff in Hr as (x & <- & Hx).
    apply in_flat_map in Hx as (a & Ha & Hx).
    apply class_rows_fst in Hx. cbn [with_teacher fst] in *. rewrite Hx in *.
    exists a. split; [reflexivity|]. now apply filter_In.
  - intros (c & <- & Hc). apply filter_In in Hc as [Hc Hact].
    destruct (class_rows_head ss c) as (s & rest & E).
    exists (with_teacher us (c, s)). split; [reflexivity|].
    apply filter_In. split; [|exact Hact].
    apply in_map. apply in_flat_map. exists c. split; [exact Hc|].
    rewrite E. now left.
Qed.

(** What the class query returns when [classes.id] and [users.id] are
    keys: the summaries of the active classes, in some order. *)
Lemma classes_query_summaries {co : Collation} (db : Db)
    (cs : list classes.row) (ss : list students.row) :
  NoDup (map classes.id cs) -> NoDup (map users.id (users_tbl db)) ->
  classes_tbl db = Ok cs -> students_tbl db = Ok ss ->
  exists views,
    classes_query db = Ok views
    /\ Permutation views
         (map (class_summary (users_tbl db) ss) (filter classes.is_active cs)).
Proof.
  intros Hcs Hus Hc Hs. unfold classes_query. rewrite Hc, Hs. cbn [bind].
  eexists. split; [reflexivity|].
  rewrite order_by_perm.
  rewrite (classes_joined_rows (users_tbl db) cs ss Hus).
  unfold group_by. rewrite flat_map_of_map.
  set (W := filter (fun r : class_joined => classes.is_active (fst (fst r)))
                   (map (with_teacher (users_tbl db))
                        (flat_map (class_rows ss) cs))).
  set (F := fun k : nat =>
              match find (fun x => (classes.id x =? k)%nat) cs with
              | Some c => [class_summary (users_tbl db) ss c]
              | None => []
              end).
  rewrite (flat_map_ext_in _ F).
  - assert (Permutation
              (distinct (map (fun r : class_joined => classes.id (fst (fst r))) W))
              (map classes.id (filter classes.is_active cs))) as Hkeys.
    { apply NoDup_Permutation.
      - apply distinct_NoDup.
      - now apply NoDup_map_filter.
      - intros k. rewrite distinct_In. apply class_keys. }
    rewrite Hkeys. rewrite flat_map_of_map.
    assert (forall l, (forall c, In c l -> In c cs) ->
                      flat_map (fun c => F (classes.id c)) l
                      = map (class_summary (users_tbl db) ss) l) as Hmap.
    { induction l as [|c l IH]; intros Hl; simpl; [reflexivity|].
      rewrite IH by (intros x Hx; apply Hl; now right).
      unfold F at 1. rewrite (find_by_id cs c Hcs (Hl c (or_introl eq_refl))).
      reflexivity. }
    rewrite Hmap; [reflexivity|].
    intros c Hin. now apply filter_In in Hin.
  - intros k Hk. apply (proj1 (distinct_In _ _)) in Hk. unfold W in Hk.
    apply (proj1 (class_keys _ _ _ _)) in Hk.
    apply in_map_iff in Hk as (c & <- & Hin).
    apply filter_In in Hin as [Hin Hact].
    unfold F. rewrite (find_by_id cs c Hcs Hin).
    unfold W. rewrite (group_of_class _ ss cs c Hcs Hin), Hact.
    apply class_view_of_rows.
Qed.

(** X18: with [classes.id] and [users.id] as keys and the tables
    readable, the class listing holds exactly the active classes, each
    once, the ones without students included; a class's student_count is
    the number of active profiles that reference it, its teacher_name the
    name of the account its teacher_id names (NULL without one), and
    [count] is the number of listed classes. *)
Theorem classes_listing_counts {co : Collation} (db : Db)
    (cs : list classes.row) (ss : list students.row) :
  NoDup (map classes.id cs) -> NoDup (map users.id (users_tbl db)) ->
  classes_tbl db = Ok cs -> students_tbl db = Ok ss ->
  exists views,
    classesHandler db = ClassesListed true (List.length views) views
    /\ Permutation views
         (map (class_summary (users_tbl db) ss) (filter classes.is_active cs))
    /\ List.length views = List.length (filter classes.is_active cs)
    /\ (forall v, In v views ->
          classes.is_active (ClassView.columns v) = true
          /\ In (ClassView.columns v) cs
          /\ ClassView.student_count v
             = List.length (active_profiles_of (ClassView.columns v) ss))
    /\ (forall c, In c cs -> classes.is_active c = true ->
          In (class_summary (users_tbl db) ss c) views).
Proof.
  intros Hcs Hus Hc Hs.
  destruct (classes_query_summaries db cs ss Hcs Hus Hc Hs)
    as (views & Hq & Hperm).
  exists views. unfold classesHandler. rewrite Hq. cbn [bind catch].
  split; [reflexivity|]. split; [exact Hperm|]. split; [|split].
  - rewrite (Permutation_length Hperm). apply length_map.
  - intros v Hv. apply (Permutation_in _ Hperm) in Hv.
    apply in_map_iff in Hv as (c & <- & Hin).
    apply filter_In in Hin as [Hin Hact]. cbn [class_summary ClassView.columns
                                              ClassView.student_count].
    auto.
  - intros c Hin Hact. apply (Permutation_in _ (Permutation_sym Hperm)).
    apply in_map. now apply filter_In.
Qed.

Lemma classes_listing_counts_witness :
  exists views,
    @classesHandler Sample.collation Sample.school
    = ClassesListed true (List.length views) views
    /\ Permutation views
         (map (class_summary (users_tbl Sample.school) [Sample.jo_profile])
              (filter classes.is_active
                      [Sample.class_6B; Sample.class_5A; Sample.class_4C]))
    /\ List.length views
       = List.length (filter classes.is_active
                         [Sample.class_6B; Sample.class_5A; Sample.class_4C])
    /\ (forall v, In v views ->
          classes.is_active (ClassView.columns v) = true
          /\ In (ClassView.columns v)
                [Sample.class_6B; Sample.class_5A; Sample.class_4C]
          /\ ClassView.student_count v
             = List.length (active_profiles_of (ClassView.columns v)
                              [Sample.jo_profile]))
    /\ (forall c, In c [Sample.class_6B; Sample.class_5A; Sample.class_4C] ->
          classes.is_active c = true ->
          In (class_summary (users_tbl Sample.school) [Sample.jo_profile] c)
             views).
Proof.
  apply (@classes_listing_counts Sample.collation Sample.school
           [Sample.class_6B; Sample.class_5A; Sample.class_4C]
           [Sample.jo_profile]).
  - simpl. repeat constructor; simpl; intuition discriminate.
  - simpl. repeat constructor; simpl; intuition discriminate.
  - reflexivity.
  - reflexivity.
Defined.

Lemma insert_by_HdRel {A : Type} (before : A -> A -> bool) (R : A -> A -> Prop)
    (x y : A) (t : list A) :
  HdRel R y t -> R y x -> HdRel R y (insert_by before x t).
Proof.
  intros Ht Hx. destruct t as [|z t]; simpl; [now constructor|].
  destruct (before z x); constructor; [|exact Hx].
  now inversion Ht.
Qed.

Lemma insert_by_sorted {A : Type} (before : A -> A -> bool) (x : A)
    (l : list A) :
  (forall a b, before a b = true -> before b a = false) ->
  Sorted (fun a b => before b a = false) l ->
  Sorted (fun a b => before b a = false) (insert_by before x l).
Proof.
  intros Hasym. induction l as [|y t IH]; intros Hs; simpl.
  - repeat constructor.
  - inversion Hs as [|? ? Ht Hy]; subst.
    destruct (before y x) eqn:E.
    + constructor; [now apply IH|].
      apply insert_by_HdRel; [exact Hy|]. now apply Hasym.
    + constructor; [exact Hs|]. now constructor.
Qed.

Lemma order_by_sorted {A : Type} (before : A -> A -> bool) (l : list A) :
  (forall a b, before a b = true -> before b a = false) ->
  Sorted (fun a b => before b a = false) (order_by before l).
Proof.
  intros Hasym. induction l as [|x t IH]; simpl; [constructor|].
  now apply insert_by_sorted.
Qed.

Lemma class_before_asym {co : Collation} (a b : ClassView.t) :
  (forall s t, grade_lt s t = true -> grade_lt t s = false) ->
  (forall s t, section_lt s t = true -> section_lt t s = false) ->
  class_before a b = true -> class_before b a = false.
Proof.
  intros Hgrade Hsection. unfold class_before.
  set (ga := classes.grade (ClassView.columns a)).
  set (gb := classes.grade (ClassView.columns b)).
  set (sa := classes.section (ClassView.columns a)).
  set (sb := classes.section (ClassView.columns b)).
  pose proof (Hgrade ga gb) as H1. pose proof (Hgrade gb ga) as H2.
  pose proof (Hsection sa sb) as H3. pose proof (Hsection sb sa) as H4.
  destruct (grade_lt ga gb), (grade_lt gb ga), (section_lt sa sb),
           (section_lt sb sa);
    simpl; intros; auto; try discriminate;
    try (specialize (H1 eq_refl); discriminate);
    try (specialize (H3 eq_refl); discriminate).
Qed.

(** X19: when the two column orders are strict (never both [a] before
    [b] and [b] before [a]), the class listing is in the order of
    [ORDER BY c.grade ASC, c.section ASC]: no listed class has a smaller
    grade, or the same grade and a smaller section, than the class
    listed just before it. *)
Theorem classes_listing_ordered {co : Collation} (db : Db) (success : bool)
    (count : nat) (views : list ClassView.t) :
  (forall s t, grade_lt s t = true -> grade_lt t s = false) ->
  (forall s t, section_lt s t = true -> section_lt t s = false) ->
  classesHandler db = ClassesListed success count views ->
  in_class_order views.
Proof.
  intros Hgrade Hsection. unfold classesHandler, classes_query.
  destruct (classes_tbl db) as [cs|]; cbn [bind catch]; [|discriminate].
  destruct (students_tbl db) as [ss|]; cbn [bind catch]; [|discriminate].
  intros [= _ _ <-]. unfold in_class_order.
  apply order_by_sorted. intros a b. now apply class_before_asym.
Qed.

Lemma classes_listing_ordered_witness :
  @in_class_order Sample.collation
    [class_summary (users_tbl Sample.school) [Sample.jo_profile] Sample.class_5A;
     class_summary (users_tbl Sample.school) [Sample.jo_profile] Sample.class_6B].
Proof.
  apply (@classes_listing_ordered Sample.collation Sample.school true 2).
  - intros s t. simpl. unfold String.ltb.
    rewrite (String.compare_antisym s t).
    destruct (String.compare t s); simpl; intros; congruence.
  - intros s t. simpl. unfold String.ltb.
    rewrite (String.compare_antisym s t).
    destruct (String.compare t s); simpl; intros; congruence.
  - reflexivity.
Defined.

(** X20: the class listing is handed out to verified tokens only, and to
    any of them alike: a listing implies that the header's second field
    verified; without a token the answer is the 401 whatever the
    database holds; and two requests whose tokens verify get the same
    answer, whatever identifier and role their tokens carry. *)
Theorem classesManagement_gate {jw : Jwt} {en : Env} {co : Collation}
    (authHeader : JS.field) (db : Db) :
  (forall success count views,
      classesManagement authHeader db = ClassesListed success count views ->
      exists token claims,
        token_of authHeader = Some token /\ token <> ""
        /\ jwt_verify token secret = Ok claims)
  /\ (JS.truthy (token_of authHeader) = false ->
      classesManagement authHeader db
      = ClassesRejected (mkResponse 401 (Message false "Access token required")))
  /\ (forall other claims claims',
        authenticateToken authHeader = Next claims ->
        authenticateToken other = Next claims' ->
        classesManagement authHeader db = classesManagement other db).
Proof.
  unfold classesManagement. split; [|split].
  - intros success count views.
    unfold authenticateToken.
    destruct (token_of authHeader) as [token|] eqn:Htok; [|discriminate].
    destruct (JS.truthy (Some token)) eqn:Ht; simpl; [|discriminate].
    destruct (jwt_verify token secret) as [claims|] eqn:Hv; [|discriminate].
    intros _. exists token, claims. split; [reflexivity|].
    split; [now apply truthy_Some|exact Hv].
  - intros Hno. unfold authenticateToken. now rewrite Hno.
  - intros other claims claims' -> ->. reflexivity.
Qed.

Lemma classesManagement_gate_witness :
  @classesManagement Sample.jwt_ Sample.env Sample.collation None Sample.school
  = ClassesRejected (mkResponse 401 (Message false "Access token required")).
Proof.
  apply (@classesManagement_gate Sample.jwt_ Sample.env Sample.collation
           None Sample.school).
  reflexivity.
Defined.

(* ================================================================== *)
(** ** An email is given out once *)
(* ================================================================== *)

(** X21: once register or createStudent has created an account, the
    email is taken for both routes: a further register and a further
    createStudent with that email and a complete body answer 409 and
    write nothing. *)
Theorem created_email_is_taken {bc : Bcrypt} {jw : Jwt} {en : Env}
    (rq : Request) (db : Db) (email : string) (now : nat)
    (rb : RegisterBody.t) (sb : StudentBody.t) :
  status (snd (handle rq db)) = 201 ->
  match rq with
  | PostRegister _ b => JS.str (RegisterBody.email b) = email
  | PostStudents _ b => JS.str (StudentBody.email b) = email
  | _ => False
  end ->
  register_body_valid rb = true -> JS.str (RegisterBody.email rb) = email ->
  student_body_valid sb = true -> JS.str (StudentBody.email sb) = email ->
  let db1 := fst (handle rq db) in
  register now rb db1 = (db1, email_exists)
  /\ createStudent now sb db1 = (db1, email_exists).
Proof.
  intros H201 Hrq Hrb Erb Hsb Esb db1.
  assert (email_taken email db1) as Htaken.
  { subst db1. destruct rq as [b|t b| |t b|id b|id|id|t]; try contradiction;
      cbn [handle] in *.
    - destruct (register_body_valid b) eqn:Hv.
      + destruct (select_users (fun u => users.email u =? JS.str (RegisterBody.email b))
                               db) as [|u0 rest] eqn:Hsel.
        * assert (~ email_taken (JS.str (RegisterBody.email b)) db) as Hfresh.
          { intros Ht. apply email_taken_select in Ht. congruence. }
          rewrite (register_success t b db Hv Hfresh). cbn [fst].
          eexists. split; [cbn [users_tbl]; apply in_or_app; right; now left|].
          exact Hrq.
        * rewrite register_conflict in H201; [discriminate|exact Hv|].
          apply email_taken_select. congruence.
      + unfold register, register_body_valid in *.
        rewrite <- !negb_andb, Hv in H201. discriminate.
    - destruct (student_body_valid b) eqn:Hv.
      + destruct (select_users (fun u => users.email u =? JS.str (StudentBody.email b))
                               db) as [|u0 rest] eqn:Hsel.
        * assert (~ email_taken (JS.str (StudentBody.email b)) db) as Hfresh.
          { intros Ht. apply email_taken_select in Ht. congruence. }
          destruct (createStudent_users t b db Hv Hfresh) as (Hu & _ & _).
          eexists. split; [rewrite Hu; apply in_or_app; right; now left|].
          exact Hrq.
        * rewrite createStudent_conflict in H201; [discriminate|exact Hv|].
          apply email_taken_select. congruence.
      + unfold createStudent, student_body_valid in *.
        rewrite <- !negb_andb, Hv in H201. discriminate. }
  split.
  - apply register_conflict; [exact Hrb|now rewrite Erb].
  - apply createStudent_conflict; [exact Hsb|now rewrite Esb].
Qed.

Lemma created_email_is_taken_witness :
  @createStudent Sample.bcrypt 9
    (StudentBody.mk (Some "A") (Some "B") (Some "a@x.com") None None None None
                    None None)
    (fst (@handle Sample.bcrypt Sample.jwt_ Sample.env
            (PostRegister 1 Sample.new_account) Sample.fresh))
  = (fst (@handle Sample.bcrypt Sample.jwt_ Sample.env
            (PostRegister 1 Sample.new_account) Sample.fresh),
     email_exists).
Proof.
  apply (@created_email_is_taken Sample.bcrypt Sample.jwt_ Sample.env
           (PostRegister 1 Sample.new_account) Sample.fresh "a@x.com" 9
           Sample.new_account
           (StudentBody.mk (Some "A") (Some "B") (Some "a@x.com") None None
                           None None None None));
    reflexivity.
Defined.

(* ================================================================== *)
(** ** An email change moves the login *)
(* ================================================================== *)

Lemma find_map {A B : Type} (p : B -> bool) (f : A -> B) (l : list A) :
  find p (map f l) = option_map f (find (fun x => p (f x)) l).
Proof.
  induction l as [|a l IH]; simpl; [reflexivity|].
  destruct (p (f a)); [reflexivity|exact IH].
Qed.

Lemma find_unique {A : Type} (p : A -> bool) (l : list A) (x : A) :
  In x l -> p x = true -> (forall y, In y l -> p y = true -> y = x) ->
  find p l = Some x.
Proof.
  intros Hin Hp Huniq. destruct (find p l) as [y|] eqn:Hf.
  - apply find_some in Hf as [Hy Hpy]. f_equal. now apply Huniq.
  - apply (find_none _ _ Hf) in Hin. congruence.
Qed.

Lemma updateStudent_ok_no_conflict (id : nat) (b : StudentBody.t) (db : Db) :
  status (snd (updateStudent id b db)) = 200 ->
  JS.truthy (StudentBody.email b) = true
  /\ forall r, In r (users_tbl db) ->
               users.email r = JS.str (StudentBody.email b) -> users.id r = id.
Proof.
  unfold updateStudent.
  destruct (JS.truthy (StudentBody.email b)) eqn:He;
    [|rewrite !orb_true_r; discriminate].
  destruct (_ || _); [discriminate|].
  destruct (_ =? 0)%nat; [discriminate|].
  destruct (0 <? List.length (select_users _ db))%nat eqn:Hlen; [discriminate|].
  intros _. split; [reflexivity|]. intros r Hr Hemail.
  destruct (List.length (select_users _ db)) eqn:Hsel in Hlen; [|discriminate].
  apply length_zero_iff_nil in Hsel.
  pose proof (proj1 (select_users_nil _ db) Hsel r Hr) as Hp. cbn beta in Hp.
  rewrite Hemail, String.eqb_refl in Hp. cbn [andb] in Hp.
  apply negb_false_iff in Hp. now apply Nat.eqb_eq.
Qed.

Lemma updateStudent_users (id : nat) (b : StudentBody.t) (db : Db) :
  status (snd (updateStudent id b db)) = 200 ->
  users_tbl (fst (updateStudent id b db))
  = map (fun u =>
           if users.is_student id u
           then users.set_account (JS.str (StudentBody.firstName b))
                  (JS.str (StudentBody.lastName b))
                  (JS.str (StudentBody.email b))
                  (JS.or_null (StudentBody.phone b))
                  (JS.not_false (StudentBody.isActive b)) u
           else u) (users_tbl db).
Proof.
  intros Hok. rewrite (updateStudent_success id b db Hok). cbn [fst].
  now rewrite (proj1 (update_profile_users id b _)).
Qed.

(** X22: with [users.id] and [users.email] as keys, a successful
    updateStudent that leaves the account active moves its login to the
    email of the request: a login with the new email succeeds exactly
    when the password passes the check against the credential stored
    before the update (which the update does not touch), and when the
    email was changed the old one no longer finds an account. *)
Theorem updateStudent_moves_login {bc : Bcrypt} {jw : Jwt} {en : Env}
    (b : StudentBody.t) (db : Db) (u : users.row) (password : JS.value) :
  primary_key db -> unique_emails db ->
  In u (users_tbl db) -> users.role u = "student" ->
  status (snd (updateStudent (users.id u) b db)) = 200 ->
  StudentBody.isActive b <> Some false ->
  JS.truthy_value password = true ->
  let db1 := fst (updateStudent (users.id u) b db) in
  (status (login (LoginBody.mk (StudentBody.email b) password) db1) = 200
   <-> isPasswordValid password (users.password u) = Ok true)
  /\ (users.email u <> JS.str (StudentBody.email b) ->
      login_account (users.email u) db1 = None).
Proof.
  intros [Hids _] Hun Hu Hrole Hok Hact Hpw db1.
  destruct (updateStudent_ok_no_conflict _ b db Hok) as [He Hother].
  pose proof (updateStudent_users _ b db Hok) as Husers. fold db1 in Husers.
  assert (users.is_student (users.id u) u = true) as Hstu.
  { unfold users.is_student. now rewrite Nat.eqb_refl, Hrole. }
  assert (forall r, In r (users_tbl db) ->
                    users.is_student (users.id u) r = true -> r = u) as Hsame.
  { intros r Hr Hp. apply andb_prop in Hp as [Hid _]. apply Nat.eqb_eq in Hid.
    now apply (NoDup_map_eq users.id _ _ _ Hids). }
  assert (JS.not_false (StudentBody.isActive b) = true) as Hactive.
  { destruct (StudentBody.isActive b) as [[|]|]; try reflexivity.
    now elim Hact. }
  split.
  - rewrite login_present by assumption.
    cbn [LoginBody.email LoginBody.password].
    unfold login_account. rewrite Husers, find_map.
    rewrite (find_unique _ _ u Hu).
    + cbn [option_map]. rewrite Hstu.
      cbn [users.set_account users.password].
      destruct (isPasswordValid _ _) as [[|]|]; cbn [status login_ok
        invalid_credentials internal_error]; split; intros;
        congruence || discriminate.
    + rewrite Hstu. cbn [users.set_account users.email users.is_active].
      now rewrite String.eqb_refl, Hactive.
    + intros r Hr Hp. destruct (users.is_student (users.id u) r) eqn:Hs;
        [now apply Hsame|].
      apply andb_prop in Hp as [Hemail _]. apply String.eqb_eq in Hemail.
      apply (NoDup_map_eq users.id _ _ _ Hids); auto.
  - intros Hchanged. unfold login_account. rewrite Husers.
    apply find_none_iff. intros r' Hr'.
    apply in_map_iff in Hr' as (r & <- & Hr).
    destruct (users.is_student (users.id u) r) eqn:Hs.
    + cbn [users.set_account users.email].
      destruct (JS.str (StudentBody.email b) =? users.email u) eqn:E;
        [|reflexivity].
      apply String.eqb_eq in E. now elim Hchanged.
    + destruct (users.email r =? users.email u) eqn:E; [|reflexivity].
      apply String.eqb_eq in E.
      assert (r = u) as -> by (apply (NoDup_map_eq users.email _ _ _ Hun); auto).
      congruence.
Qed.

Lemma updateStudent_moves_login_witness :
  login_account "jo@x.com"
    (fst (updateStudent 3
            (StudentBody.mk (Some "Jo") (Some "Doe") (Some "jo.doe@x.com")
                            None None None None None None)
            Sample.db))
  = None.
Proof.
  apply (@updateStudent_moves_login Sample.bcrypt Sample.jwt_ Sample.env
           (StudentBody.mk (Some "Jo") (Some "Doe") (Some "jo.doe@x.com")
                           None None None None None None)
           Sample.db Sample.jo (JS.Str "student123")).
  - split.
    + simpl. repeat constructor; simpl; intuition discriminate.
    + simpl. intros u Hu.
      repeat destruct Hu as [<-|Hu]; simpl; try lia; try contradiction.
  - unfold unique_emails. simpl.
    repeat constructor; simpl; intuition discriminate.
  - simpl. auto.
  - reflexivity.
  - reflexivity.
  - discriminate.
  - reflexivity.
  - discriminate.
Defined.

(* ================================================================== *)
(** ** The student list under the data model's keys *)
(* ================================================================== *)

Lemma key_at_most_one {A : Type} (f : A -> nat) (k : nat) (l : list A) :
  NoDup (map f l) ->
  List.length (filter (fun x => (k =? f x)%nat) l) <= 1.
Proof.
  induction l as [|a l IH]; simpl; intros Hnd; [lia|].
  inversion Hnd as [|? ? Ha Hnd']; subst.
  destruct (k =? f a)%nat eqn:E; [|now apply IH].
  apply Nat.eqb_eq in E. subst k.
  rewrite (proj2 (filter_nil_iff _ l)); [simpl; lia|].
  intros x Hx. apply Nat.eqb_neq. intros Heq. apply Ha.
  rewrite Heq. now apply in_map.
Qed.

Lemma filter_none {A : Type} (l : list A) : filter (fun _ => false) l = [].
Proof.
  induction l; simpl; auto.
Qed.

Lemma filter_map_swap {A B : Type} (p : B -> bool) (f : A -> B) (l : list A) :
  filter p (map f l) = map f (filter (fun x => p (f x)) l).
Proof.
  induction l as [|a l IH]; simpl; [reflexivity|].
  destruct (p (f a)); simpl; now rewrite IH.
Qed.

Lemma insert_desc_perm {A : Type} (key : A -> nat) (x : A) (l : list A) :
  Permutation (insert_desc key x l) (x :: l).
Proof.
  induction l as [|y t IH]; simpl; [reflexivity|].
  destruct (key y <? key x)%nat; [reflexivity|].
  rewrite IH. apply perm_swap.
Qed.

Lemma order_by_desc_perm {A : Type} (key : A -> nat) (l : list A) :
  Permutation (order_by_desc key l) l.
Proof.
  induction l as [|x t IH]; simpl; [reflexivity|].
  rewrite insert_desc_perm. now constructor.
Qed.

(** X23: when no account has two profile rows and [classes.id] is a key
    (and the tables are readable), listActiveStudents shows every active
    student account exactly once and nothing else: its rows are, up to
    order, the views of the active student accounts, each with its
    profile and the class the profile is linked to when they exist. *)
Theorem listActiveStudents_one_row_each (db : Db) (ss : list students.row)
    (cs : list classes.row) :
  NoDup (map students.user_id ss) -> NoDup (map classes.id cs) ->
  students_tbl db = Ok ss -> classes_tbl db = Ok cs ->
  let active_students :=
    filter (fun u => (users.role u =? "student") && users.is_active u)
           (users_tbl db) in
  exists rows,
    listActiveStudents db = mkResponse 200 (StudentList rows)
    /\ Permutation rows (map (student_summary ss cs) active_students)
    /\ List.length rows = List.length active_students.
Proof.
  intros Hss Hcs Hs Hc active_students.
  unfold listActiveStudents, students_join. rewrite Hs, Hc. cbn [bind catch].
  eexists. split; [reflexivity|].
  assert (forall A (l l' : list A) B (f : A -> B),
             Permutation l l' -> Permutation (map f l) (map f l')) as Hpm
    by (intros; now apply Permutation_map).
  match goal with
  | |- Permutation ?rows _ /\ _ =>
      assert (Permutation rows (map (student_summary ss cs) active_students))
        as Hperm
  end.
  { rewrite (Hpm _ _ _ _ _ (order_by_desc_perm _ _)).
    rewrite (left_join_functional
               (fun u s => (users.id u =? students.user_id s)%nat)
               (users_tbl db) ss)
      by (intros u _; now apply key_at_most_one).
    rewrite left_join_functional.
    - rewrite !filter_map_swap, !map_map. cbn [fst].
      subst active_students. apply Permutation_refl'.
      apply map_ext. intros u. unfold student_summary. f_equal. f_equal.
      + f_equal. apply filter_hd_find.
      + cbn [snd]. rewrite (filter_hd_find _ ss). fold (profile_of u ss).
        unfold class_of.
        destruct (profile_of u ss) as [p|]; [|now rewrite filter_none].
        destruct (students.class_id p); [|now rewrite filter_none].
        apply filter_hd_find.
    - intros [u [p|]] _; cbn [snd].
      + destruct (students.class_id p) as [k|].
        * now apply key_at_most_one.
        * rewrite filter_none. simpl. lia.
      + rewrite filter_none. simpl. lia. }
  split; [exact Hperm|].
  rewrite (Permutation_length Hperm). apply length_map.
Qed.

Lemma listActiveStudents_one_row_each_witness :
  exists rows,
    listActiveStudents Sample.db = mkResponse 200 (StudentList rows)
    /\ Permutation rows
         (map (student_summary [Sample.jo_profile] [Sample.class_5A])
              (filter (fun u => (users.role u =? "student") && users.is_active u)
                      (users_tbl Sample.db)))
    /\ List.length rows
       = List.length
           (filter (fun u => (users.role u =? "student") && users.is_active u)
                   (users_tbl Sample.db)).
Proof.
  apply (listActiveStudents_one_row_each Sample.db [Sample.jo_profile]
           [Sample.class_5A]).
  - simpl. repeat constructor; simpl; intuition.
  - simpl. repeat constructor; simpl; intuition.
  - reflexivity.
  - reflexivity.
Defined.

(* ================================================================== *)
(** ** Login when the comparison rejects *)
(* ================================================================== *)

(** X24: when the account found has a stored value with the ['$2'] marker
    and [bcrypt.compare] rejects (the password is not a string, or the
    stored value is no digest it can parse), the handler's [catch] answers
    500 "Internal server error", whereas the same request against a
    database with no active account of that email is answered the 401 of
    invalid credentials: the two answers differ. *)
Theorem login_rejected_compare_differs {bc : Bcrypt} {jw : Jwt} {en : Env}
    (b : LoginBody.t) (db db' : Db) (user : users.row) (message : string) :
  JS.truthy (LoginBody.email b) = true ->
  JS.truthy_value (LoginBody.password b) = true ->
  login_account (JS.str (LoginBody.email b)) db = Some user ->
  JS.startsWith "$2" (users.password user) = true ->
  bcrypt_compare (LoginBody.password b) (users.password user) = Err message ->
  login_account (JS.str (LoginBody.email b)) db' = None ->
  login b db = internal_error
  /\ login b db' = invalid_credentials
  /\ login b db <> login b db'.
Proof.
  intros He Hp Hu Hpre Hrej Hnone.
  assert (login b db = internal_error) as H500
    by (now apply (login_compare_rejected b db user message)).
  assert (login b db' = invalid_credentials) as H401
    by (now rewrite (login_present b db' He Hp), Hnone).
  split; [exact H500|split; [exact H401|]].
  rewrite H500, H401. discriminate.
Qed.

(** A number as password against the administrator's digest, and any
    password against a stored value that is no digest. *)
Lemma login_rejected_compare_differs_witness :
  (@login Sample.bcrypt Sample.jwt_ Sample.env
     (LoginBody.mk (Some "admin@x.com") (JS.Num 1)) Sample.db
   = internal_error
   /\ @login Sample.bcrypt Sample.jwt_ Sample.env
        (LoginBody.mk (Some "admin@x.com") (JS.Num 1)) Sample.fresh
      = invalid_credentials)
  /\ (@login Sample.bcrypt Sample.jwt_ Sample.env
        (LoginBody.mk (Some "lou@x.com") (JS.Str "student123")) Sample.roster
      = internal_error
      /\ @login Sample.bcrypt Sample.jwt_ Sample.env
           (LoginBody.mk (Some "lou@x.com") (JS.Str "student123")) Sample.db
         = invalid_credentials).
Proof.
  split.
  - destruct (@login_rejected_compare_differs Sample.bcrypt Sample.jwt_
                Sample.env (LoginBody.mk (Some "admin@x.com") (JS.Num 1))
                Sample.db Sample.fresh Sample.admin "Illegal arguments"
                eq_refl eq_refl eq_refl eq_refl eq_refl eq_refl)
      as (H500 & H401 & _).
    split; [exact H500|exact H401].
  - destruct (@login_rejected_compare_differs Sample.bcrypt Sample.jwt_
                Sample.env
                (LoginBody.mk (Some "lou@x.com") (JS.Str "student123"))
                Sample.roster Sample.db Sample.lou "Invalid salt revision"
                eq_refl eq_refl eq_refl eq_refl eq_refl eq_refl)
      as (H500 & H401 & _).
    split; [exact H500|exact H401].
Defined.
